(** * PicoTagEditor: a shallow embedding of the tag-editor widget

    The repository holds two copies of the [PicoTagEditor] constructor:
    [src/PicoTagEditor.js] (module [PicoTagEditor] below) and an older copy
    that also carries the bootstrap loop (module [Part000]).  Both build the
    same DOM fragment

      div.pico-tag-editor > [ text field ; div.tags-container > chip* ]

    and wire the same handlers.  The embedding keeps that fragment as typed
    records, threads the widget state through a small state-and-exception
    monad, and models each anonymous listener function of the source as a
    constructor of [Handler] that [runHandler] interprets.

    Left out: the page around the wrapper ([input.replaceWith]), the
    optional [callback] of the constructor, which is code of the host page,
    and event propagation ([preventDefault], [stopPropagation]), which no
    listener of the widget depends on.  Of the browser's own objects the
    embedding keeps what the program does to them: a style property is the
    string assigned to it, not what CSS makes of that string, and the
    content attributes of the text field are those the constructor gave
    it. *)

From Stdlib Require Import List NArith ZArith Bool String Ascii Lia.
From Stdlib Require Import DecimalString DecimalPos.
Import ListNotations.

Set Implicit Arguments.

(* ================================================================== *)
(** * JavaScript strings *)

(** A JavaScript string is a sequence of UTF-16 code units. *)
Definition jsstring := list N.

(** Embedding of an ASCII literal of the source. *)
Definition js (s : string) : jsstring :=
  map N_of_ascii (list_ascii_of_string s).

(** [===] on strings. *)
Fixpoint str_eqb (a b : jsstring) : bool :=
  match a, b with
  | [], [] => true
  | x :: a', y :: b' => N.eqb x y && str_eqb a' b'
  | _, _ => false
  end.

(** [WhiteSpace] and [LineTerminator] code points of ECMAScript, the ones
    [String.prototype.trim] strips. *)
Definition isWhiteSpace (c : N) : bool :=
  (((9 <=? c) && (c <=? 13))         (* TAB, LF, VT, FF, CR *)
   || (c =? 32)                      (* SPACE *)
   || (c =? 160)                     (* NO-BREAK SPACE *)
   || (c =? 5760)                    (* U+1680 *)
   || ((8192 <=? c) && (c <=? 8202)) (* U+2000 .. U+200A *)
   || (c =? 8232) || (c =? 8233)     (* LINE / PARAGRAPH SEPARATOR *)
   || (c =? 8239) || (c =? 8287)     (* U+202F, U+205F *)
   || (c =? 12288)                   (* U+3000 *)
   || (c =? 65279))%N.               (* U+FEFF *)

Fixpoint trimStart (s : jsstring) : jsstring :=
  match s with
  | [] => []
  | c :: r => if isWhiteSpace c then trimStart r else s
  end.

Definition trimEnd (s : jsstring) : jsstring := rev (trimStart (rev s)).

(** [String.prototype.trim]. *)
Definition trim (s : jsstring) : jsstring := trimEnd (trimStart s).

Fixpoint startsWith (p s : jsstring) : bool :=
  match p, s with
  | [], _ => true
  | x :: p', y :: s' => N.eqb x y && startsWith p' s'
  | _ :: _, [] => false
  end.

(** [String.prototype.includes]. *)
Fixpoint includes (s sub : jsstring) : bool :=
  startsWith sub s ||
  match s with
  | [] => false
  | _ :: r => includes r sub
  end.

Definition endsWith (s suffix : jsstring) : bool :=
  startsWith (rev suffix) (rev s).

(* ================================================================== *)
(** * Regular expressions

    [isNumber] tests its argument against [/^-?\d+(\.\d+)?$/].  The
    pattern is kept as data and run by a derivative matcher. *)

Inductive regex : Type :=
| Void : regex
| Eps : regex
| Range (lo hi : N) : regex
| Seq (r s : regex) : regex
| Alt (r s : regex) : regex
| Star (r : regex) : regex.

Definition Chr (c : N) : regex := Range c c.
Definition Opt (r : regex) : regex := Alt r Eps.
Definition Plus (r : regex) : regex := Seq r (Star r).

Fixpoint nullable (r : regex) : bool :=
  match r with
  | Void => false
  | Eps => true
  | Range _ _ => false
  | Seq r s => nullable r && nullable s
  | Alt r s => nullable r || nullable s
  | Star _ => true
  end.

Fixpoint deriv (c : N) (r : regex) : regex :=
  match r with
  | Void => Void
  | Eps => Void
  | Range lo hi => if ((lo <=? c) && (c <=? hi))%N then Eps else Void
  | Seq r s =>
      if nullable r then Alt (Seq (deriv c r) s) (deriv c s)
      else Seq (deriv c r) s
  | Alt r s => Alt (deriv c r) (deriv c s)
  | Star r => Seq (deriv c r) (Star r)
  end.

(** [re.test(s)] for a pattern anchored by [^] and [$] (no [m] flag): the
    whole string has to match. *)
Fixpoint test (r : regex) (s : jsstring) : bool :=
  match s with
  | [] => nullable r
  | c :: s' => test (deriv c r) s'
  end.

(** The language of a pattern, the reference the matcher is checked
    against. *)
Inductive Lang : regex -> jsstring -> Prop :=
| LEps : Lang Eps []
| LRange lo hi c : (lo <= c)%N -> (c <= hi)%N -> Lang (Range lo hi) [c]
| LSeq r s u v : Lang r u -> Lang s v -> Lang (Seq r s) (u ++ v)
| LAltL r s u : Lang r u -> Lang (Alt r s) u
| LAltR r s u : Lang s u -> Lang (Alt r s) u
| LStarNil r : Lang (Star r) []
| LStarApp r u v : Lang r u -> Lang (Star r) v -> Lang (Star r) (u ++ v).

(** [\d] *)
Definition Digit : regex := Range 48 57.

(** [-?\d+(\.\d+)?] *)
Definition numberPattern : regex :=
  Seq (Opt (Chr 45)) (Seq (Plus Digit) (Opt (Seq (Chr 46) (Plus Digit)))).

(* ================================================================== *)
(** * Values of the dimension options *)

(** A number, as far as its string form and its truth value go: [NaN], an
    infinity, a zero of either sign, or a finite number other than zero.
    The last is given by its sign and by the decimal [m * 10^e] from which
    [Number::toString] prints it, the one with the fewest digits among
    those that round to the number; trailing zeros of [m] change nothing.
    Every number has such a form (and some forms, of more digits than a
    double holds, belong to no number), so a statement about all
    [JsNumber] covers all numbers. *)
Inductive JsNumber : Type :=
| NaN : JsNumber
| Infinity (negative : bool) : JsNumber
| Zero : JsNumber
| Finite (negative : bool) (m : positive) (e : Z) : JsNumber.

(** An integer literal of the source. *)
Definition int (n : Z) : JsNumber :=
  match n with
  | Z0 => Zero
  | Zpos p => Finite false p 0
  | Zneg p => Finite true p 0
  end.

(** A dimension option is [undefined], a number or a string. *)
Inductive JsValue : Type :=
| Undefined : JsValue
| Num (x : JsNumber) : JsValue
| Str (s : jsstring) : JsValue.

(** The decimal digits of an integer, with a minus sign when negative. *)
Definition decimal (n : Z) : jsstring :=
  js (NilZero.string_of_int (Z.to_int n)).

Definition digitsOf (m : positive) : jsstring :=
  js (NilZero.string_of_uint (Pos.to_uint m)).

Fixpoint dropZeros (l : jsstring) : jsstring :=
  match l with
  | [] => []
  | c :: r => if (c =? 48)%N then dropZeros r else l
  end.

(** The digits of [m] without its trailing zeros: the [s] of
    [Number::toString], of length [k]. *)
Definition significand (m : positive) : jsstring :=
  rev (dropZeros (rev (digitsOf m))).

(** The [n] of [Number::toString]: the number lies between [10^(n-1)] and
    [10^n]. *)
Definition pointPosition (m : positive) (e : Z) : Z :=
  (e + Z.of_nat (List.length (digitsOf m)))%Z.

Definition zeros (n : Z) : jsstring := repeat 48%N (Z.to_nat n).

(** [Number::toString] on a positive finite number, radix 10: plain digits
    up to [10^21], a decimal point down to [10^-6], the exponent notation
    beyond. *)
Definition numberToString (m : positive) (e : Z) : jsstring :=
  let s := significand m in
  let k := Z.of_nat (List.length s) in
  let n := pointPosition m e in
  if ((k <=? n) && (n <=? 21))%Z then s ++ zeros (n - k)
  else if ((0 <? n) && (n <=? 21))%Z
  then firstn (Z.to_nat n) s ++ js "." ++ skipn (Z.to_nat n) s
  else if ((-6 <? n) && (n <=? 0))%Z then js "0." ++ zeros (- n) ++ s
  else
    (match s with
     | c :: ((_ :: _) as r) => c :: js "." ++ r
     | _ => s
     end)
    ++ js "e" ++ (if (n - 1 <? 0)%Z then js "-" else js "+")
    ++ decimal (Z.abs (n - 1)).

(** [String(v)], as applied by template literals, [+=] with a string,
    [RegExp.prototype.test] and the setters of [style]. *)
Definition toString (v : JsValue) : jsstring :=
  match v with
  | Undefined => js "undefined"
  | Num NaN => js "NaN"
  | Num (Infinity negative) =>
      (if negative then js "-" else []) ++ js "Infinity"
  | Num Zero => js "0"
  | Num (Finite negative m e) =>
      (if negative then js "-" else []) ++ numberToString m e
  | Str s => s
  end.

(** [ToBoolean]. *)
Definition truthy (v : JsValue) : bool :=
  match v with
  | Undefined => false
  | Num NaN | Num Zero => false
  | Num _ => true
  | Str s => match s with [] => false | _ => true end
  end.

(** [name + '[]'] when [name] may be [null]. *)
Definition nullableToString (s : option jsstring) : jsstring :=
  match s with
  | None => js "null"
  | Some s => s
  end.

(* ================================================================== *)
(** * The DOM fragment of a widget *)

Inductive Error : Type := TypeError | NotFoundError.

Inductive EventType : Type :=
| Keypress | FocusEvent | BlurEvent | MouseEnter | MouseLeave.

Definition EventType_eqb (a b : EventType) : bool :=
  match a, b with
  | Keypress, Keypress | FocusEvent, FocusEvent | BlurEvent, BlurEvent
  | MouseEnter, MouseEnter | MouseLeave, MouseLeave => true
  | _, _ => false
  end.

(** The five listener functions that [addEvents] / [addEvent] register, in
    source order. *)
Inductive Handler : Type :=
| OnKeypress | OnFocus | OnBlur | OnMouseEnter | OnMouseLeave.

(** The two elements that [init] puts under the wrapper. *)
Inductive Region : Type := TextField | TagsContainer.

Definition Region_eqb (a b : Region) : bool :=
  match a, b with
  | TextField, TextField | TagsContainer, TagsContainer => true
  | _, _ => false
  end.

(** What a listener reads from its event: [event.key]; [event.target] is
    passed along as a [Region]. *)
Record Event : Type := { eventType : EventType; key : option jsstring }.

(** The assignments that the source makes to [element.style]: each field
    holds the last string assigned to the property ([''] when none was).
    This is what the program hands to the style object, not what the object
    makes of it: it drops a value that is not valid CSS for the property and
    may print a valid one differently.  ['none'] and [''], the two values
    given to [display], are kept as they are. *)
Record Style : Type := {
  display : jsstring;
  styleWidth : jsstring;
  styleHeight : jsstring;
  styleMaxHeight : jsstring }.

(** [inputHidden] of [addTag]. *)
Record HiddenInput : Type := {
  hiddenType : jsstring;
  hiddenName : jsstring;
  hiddenValue : jsstring }.

(** [removeSpan] of [addTag]; its click listener is a closure over
    [tagContainer] and over [tag], the chip that holds the span. *)
Record RemoveSpan : Type := {
  innerHTML : jsstring;
  clickContainer : Region }.

(** [tag] of [addTag]: a [div.pico-tag] with its text (the text node that
    [tag.textContent = tagText] makes), hidden field and remove control.
    [node] is the identity of the DOM node. *)
Record Chip : Type := {
  node : nat;
  chipClass : list jsstring;
  textContent : jsstring;
  hiddenInput : HiddenInput;
  removeSpan : RemoveSpan }.

(** [value] is [None] for an element without a [value] property (the
    [div.tags-container]). *)
Record Element : Type := {
  tagName : jsstring;
  attributes : list (jsstring * jsstring);
  classList : list jsstring;
  value : option jsstring;
  style : Style;
  children : list Chip;
  listeners : list (EventType * Handler) }.

(** The element handed to the constructor: a form control, which has a
    [value] property ([srcValue]), as every element has that the bootstrap
    loops pick.  [classAttr] is the token list of its [class] attribute,
    [None] when the attribute is absent; [srcStyle] holds its inline style;
    [srcAttributes] are the other content attributes. *)
Record SourceInput : Type := {
  srcTagName : jsstring;
  srcAttributes : list (jsstring * jsstring);
  classAttr : option (list jsstring);
  srcValue : jsstring;
  srcStyle : Style }.

(** The wrapper [tagEditorDiv], with the part of the page the handlers
    touch: whether the text field owns the focus, the supply of fresh nodes,
    and the errors that escaped a listener. *)
Record Dom : Type := {
  wrapperClass : list jsstring;
  dataFocus : option jsstring;
  wrapperListeners : list (EventType * Handler);
  textField : Element;
  tagsContainer : Element;
  fieldHasFocus : bool;
  nextNode : nat;
  uncaught : list Error }.

Fixpoint getAttribute (a : jsstring) (l : list (jsstring * jsstring))
  : option jsstring :=
  match l with
  | [] => None
  | (k, v) :: r => if str_eqb k a then Some v else getAttribute a r
  end.

Definition hasClass (c : jsstring) (l : list jsstring) : bool :=
  existsb (str_eqb c) l.

(** ** Setters *)

Definition withValue (v : option jsstring) (e : Element) : Element :=
  {| tagName := tagName e; attributes := attributes e;
     classList := classList e; value := v; style := style e;
     children := children e; listeners := listeners e |}.

Definition withDisplay (v : jsstring) (e : Element) : Element :=
  {| tagName := tagName e; attributes := attributes e;
     classList := classList e; value := value e;
     style := {| display := v; styleWidth := styleWidth (style e);
                 styleHeight := styleHeight (style e);
                 styleMaxHeight := styleMaxHeight (style e) |};
     children := children e; listeners := listeners e |}.

Definition withChildren (l : list Chip) (e : Element) : Element :=
  {| tagName := tagName e; attributes := attributes e;
     classList := classList e; value := value e; style := style e;
     children := l; listeners := listeners e |}.

Definition withListeners (l : list (EventType * Handler)) (e : Element)
  : Element :=
  {| tagName := tagName e; attributes := attributes e;
     classList := classList e; value := value e; style := style e;
     children := children e; listeners := l |}.

Definition region (r : Region) (d : Dom) : Element :=
  match r with
  | TextField => textField d
  | TagsContainer => tagsContainer d
  end.

Definition withRegion (r : Region) (e : Element) (d : Dom) : Dom :=
  {| wrapperClass := wrapperClass d; dataFocus := dataFocus d;
     wrapperListeners := wrapperListeners d;
     textField := match r with TextField => e | _ => textField d end;
     tagsContainer :=
       match r with TagsContainer => e | _ => tagsContainer d end;
     fieldHasFocus := fieldHasFocus d; nextNode := nextNode d;
     uncaught := uncaught d |}.

Definition withDataFocus (v : jsstring) (d : Dom) : Dom :=
  {| wrapperClass := wrapperClass d; dataFocus := Some v;
     wrapperListeners := wrapperListeners d;
     textField := textField d; tagsContainer := tagsContainer d;
     fieldHasFocus := fieldHasFocus d; nextNode := nextNode d;
     uncaught := uncaught d |}.

Definition withWrapperListeners (l : list (EventType * Handler)) (d : Dom)
  : Dom :=
  {| wrapperClass := wrapperClass d; dataFocus := dataFocus d;
     wrapperListeners := l;
     textField := textField d; tagsContainer := tagsContainer d;
     fieldHasFocus := fieldHasFocus d; nextNode := nextNode d;
     uncaught := uncaught d |}.

Definition withFocus (a : bool) (d : Dom) : Dom :=
  {| wrapperClass := wrapperClass d; dataFocus := dataFocus d;
     wrapperListeners := wrapperListeners d;
     textField := textField d; tagsContainer := tagsContainer d;
     fieldHasFocus := a; nextNode := nextNode d;
     uncaught := uncaught d |}.

Definition withNextNode (n : nat) (d : Dom) : Dom :=
  {| wrapperClass := wrapperClass d; dataFocus := dataFocus d;
     wrapperListeners := wrapperListeners d;
     textField := textField d; tagsContainer := tagsContainer d;
     fieldHasFocus := fieldHasFocus d; nextNode := n;
     uncaught := uncaught d |}.

Definition withUncaught (l : list Error) (d : Dom) : Dom :=
  {| wrapperClass := wrapperClass d; dataFocus := dataFocus d;
     wrapperListeners := wrapperListeners d;
     textField := textField d; tagsContainer := tagsContainer d;
     fieldHasFocus := fieldHasFocus d; nextNode := nextNode d;
     uncaught := l |}.

(** ** Selectors

    The wrapper-level queries of the source use [.pico-tag-edit],
    [.tags-container] and [input[type="text"]].  The nodes below a chip (a
    [div.pico-tag], a hidden input, a bare span) match none of them, so a
    query on the wrapper resolves to the first of its two child elements
    that matches, in document order. *)
Inductive Selector : Type :=
| ByClass (c : jsstring)
| ByTagAttr (tag attr v : jsstring).

Definition matchesSelector (sel : Selector) (e : Element) : bool :=
  match sel with
  | ByClass c => hasClass c (classList e)
  | ByTagAttr tag attr v =>
      str_eqb (tagName e) tag &&
      match getAttribute attr (attributes e) with
      | Some x => str_eqb x v
      | None => false
      end
  end.

(** [containerElement.querySelector(sel)] *)
Definition querySelector (sel : Selector) (d : Dom) : option Region :=
  if matchesSelector sel (textField d) then Some TextField
  else if matchesSelector sel (tagsContainer d) then Some TagsContainer
  else None.

(** [tagContainer.querySelector('.' + c)]: the descendants of a tag
    container are its chips and their class-less parts. *)
Definition querySelectorChip (c : jsstring) (e : Element) : option Chip :=
  find (fun t => hasClass c (chipClass t)) (children e).

(** [parent.removeChild(tag)]: [None] stands for [NotFoundError], raised
    when [tag] is not a child of [parent]. *)
Definition removeChild (tag : nat) (e : Element) : option Element :=
  if existsb (fun t => Nat.eqb (node t) tag) (children e)
  then Some (withChildren
               (filter (fun t => negb (Nat.eqb (node t) tag)) (children e)) e)
  else None.

Definition appendChild (t : Chip) (e : Element) : Element :=
  withChildren (children e ++ [t]) e.

(** The first chip with the given node, the text field's children first
    (document order). *)
Definition findChip (tag : nat) (d : Dom) : option Chip :=
  find (fun t => Nat.eqb (node t) tag)
       (children (textField d) ++ children (tagsContainer d)).

(* ================================================================== *)
(** * Widget state and the monad of its methods *)

Inductive Outcome (A : Type) : Type :=
| Done (a : A)
| Throw (e : Error).

Arguments Throw {A} e.

(** Where an event is delivered. *)
Inductive Target : Type := Wrapper | Child (r : Region).

(** What the user can do to a widget. *)
Inductive Action : Type :=
| TypeText (v : jsstring)   (* edit the text field so that it reads [v] *)
| KeyPress (k : jsstring)   (* a keypress event on the text field *)
| FocusField                (* move the focus into the text field *)
| BlurField                 (* move it away *)
| PointerEnter              (* mouseenter on the wrapper *)
| PointerLeave              (* mouseleave on the wrapper *)
| ClickRemove (tag : nat).  (* click the remove control of chip [tag] *)

Section Widget.

(** The two copies differ in the shape of [settings] and in whether
    [name] may be [null]. *)
Variables Cfg Nm : Type.

(** The fields of [this]. *)
Record Widget : Type := {
  settings : Cfg;
  name : Nm;
  mouseEnter : bool;
  containerElement : Dom }.

Definition M (A : Type) : Type := Widget -> Outcome A * Widget.

Definition ret {A} (a : A) : M A := fun w => (Done a, w).

Definition bind {A B} (c : M A) (k : A -> M B) : M B :=
  fun w =>
    match c w with
    | (Done a, w') => k a w'
    | (Throw e, w') => (Throw e, w')
    end.

Definition throw {A} (e : Error) : M A := fun w => (Throw e, w).

Definition gets {A} (f : Widget -> A) : M A := fun w => (Done (f w), w).

Definition dom : M Dom := gets containerElement.

Definition modifyDom (f : Dom -> Dom) : M unit :=
  fun w =>
    (Done tt,
     {| settings := settings w; name := name w;
        mouseEnter := mouseEnter w;
        containerElement := f (containerElement w) |}).

Definition setMouseEnter (b : bool) : M unit :=
  fun w =>
    (Done tt,
     {| settings := settings w; name := name w; mouseEnter := b;
        containerElement := containerElement w |}).

Notation "x <- c ;; k" := (bind c (fun x => k))
  (at level 61, c at next level, right associativity).
Notation "c ;;; k" := (bind c (fun _ => k))
  (at level 61, right associativity).

(** Dereferencing the result of a query: [null.f(...)] is a [TypeError]. *)
Definition deref {A} (o : option A) : M A :=
  match o with
  | Some a => ret a
  | None => throw TypeError
  end.

(** [document.createElement]: a node nobody else holds. *)
Definition createElement : M nat :=
  d <- dom ;;
  modifyDom (withNextNode (S (nextNode d))) ;;;
  ret (nextNode d).

(** [event.target.value], an own property of text fields only. *)
Definition targetValue (t : Target) : M (option jsstring) :=
  d <- dom ;;
  ret (match t with
       | Wrapper => None
       | Child r => value (region r d)
       end).

(** [event.target.value = v]: the [value] property of the target.  On the
    input types whose value mirrors the content attribute (submit, button,
    checkbox and the like) the assignment rewrites the [value] attribute
    too; [attributes] does not follow that one attribute. *)
Definition setTargetValue (t : Target) (v : jsstring) : M unit :=
  match t with
  | Wrapper => ret tt
  | Child r =>
      modifyDom (fun d => withRegion r (withValue (Some v) (region r d)) d)
  end.

(** [el.style.display = v] *)
Definition setDisplay (r : Region) (v : jsstring) : M unit :=
  modifyDom (fun d => withRegion r (withDisplay v (region r d)) d).

(** [el.addEventListener(ty, h)] *)
Definition addEventListener (t : Target) (ty : EventType) (h : Handler)
  : M unit :=
  match t with
  | Wrapper =>
      modifyDom (fun d =>
        withWrapperListeners (wrapperListeners d ++ [(ty, h)]) d)
  | Child r =>
      modifyDom (fun d =>
        withRegion r
          (withListeners (listeners (region r d) ++ [(ty, h)])
                         (region r d)) d)
  end.

(** An exception that escapes a listener is reported and the dispatch
    goes on. *)
Definition reportErrors (c : M unit) : M unit :=
  fun w =>
    match c w with
    | (Done _, w') => (Done tt, w')
    | (Throw e, w') =>
        modifyDom (fun d => withUncaught (uncaught d ++ [e]) d) w'
    end.

(** ** Event delivery, given the meaning of the listener functions *)

Variable runHandler : Handler -> Target -> Event -> M unit.

Fixpoint fireAll (hs : list (EventType * Handler)) (t : Target)
         (ev : Event) : M unit :=
  match hs with
  | [] => ret tt
  | (ty, h) :: rest =>
      (if EventType_eqb ty (eventType ev)
       then reportErrors (runHandler h t ev)
       else ret tt) ;;;
      fireAll rest t ev
  end.

Definition listenersOf (t : Target) (d : Dom)
  : list (EventType * Handler) :=
  match t with
  | Wrapper => wrapperListeners d
  | Child r => listeners (region r d)
  end.

Definition dispatchEvent (t : Target) (ev : Event) : M unit :=
  d <- dom ;;
  fireAll (listenersOf t d) t ev.

Definition plainEvent (ty : EventType) : Event :=
  {| eventType := ty; key := None |}.

(** [el.focus()].  The text field takes the focus, and its focus
    listeners run, unless it has it already; a [div] without [tabindex]
    is not focusable. *)
Definition focus (r : Region) : M unit :=
  match r with
  | TagsContainer => ret tt
  | TextField =>
      d <- dom ;;
      if fieldHasFocus d then ret tt
      else modifyDom (withFocus true) ;;;
           dispatchEvent (Child TextField) (plainEvent FocusEvent)
  end.

(** ** One user action *)

(** The click listener of a chip's remove control, a closure over
    [tagContainer] and [tag]. *)
Variable onRemoveClick : Region -> nat -> M unit.

Definition step (a : Action) : M unit :=
  match a with
  | TypeText v => setTargetValue (Child TextField) v
  | KeyPress k =>
      dispatchEvent (Child TextField)
                    {| eventType := Keypress; key := Some k |}
  | FocusField => focus TextField
  | BlurField =>
      d <- dom ;;
      if fieldHasFocus d
      then modifyDom (withFocus false) ;;;
           dispatchEvent (Child TextField) (plainEvent BlurEvent)
      else ret tt
  | PointerEnter => dispatchEvent Wrapper (plainEvent MouseEnter)
  | PointerLeave => dispatchEvent Wrapper (plainEvent MouseLeave)
  | ClickRemove tag =>
      d <- dom ;;
      match findChip tag d with
      | Some c =>
          reportErrors (onRemoveClick (clickContainer (removeSpan c)) tag)
      | None => ret tt
      end
  end.

Definition exec (a : Action) (w : Widget) : Widget := snd (step a w).

Definition run (acts : list Action) (w : Widget) : Widget :=
  fold_left (fun w a => exec a w) acts w.

End Widget.

Arguments ret {Cfg Nm A} a.
Arguments bind {Cfg Nm A B} c k.
Arguments throw {Cfg Nm A} e.
Arguments gets {Cfg Nm A} f.
Arguments dom {Cfg Nm}.
Arguments modifyDom {Cfg Nm} f.
Arguments setMouseEnter {Cfg Nm} b.
Arguments deref {Cfg Nm A} o.
Arguments createElement {Cfg Nm}.
Arguments targetValue {Cfg Nm} t.
Arguments setTargetValue {Cfg Nm} t v.
Arguments setDisplay {Cfg Nm} r v.
Arguments addEventListener {Cfg Nm} t ty h.
Arguments reportErrors {Cfg Nm} c.

Declare Scope widget_scope.
Delimit Scope widget_scope with widget.
Notation "x <- c ;; k" := (bind c (fun x => k))
  (at level 61, c at next level, right associativity) : widget_scope.
Notation "c ;;; k" := (bind c (fun _ => k))
  (at level 61, right associativity) : widget_scope.

Local Open Scope widget_scope.

(** [event.key === k] *)
Definition keyIs (k : jsstring) (ev : Event) : bool :=
  match key ev with
  | Some k' => str_eqb k' k
  | None => false
  end.

(** [input.classList] *)
Definition classTokens (input : SourceInput) : list jsstring :=
  match classAttr input with
  | Some l => l
  | None => []
  end.

(** A default overridden by a key of [options], when present. *)
Definition override {A} (d : A) (o : option A) : A :=
  match o with
  | Some a => a
  | None => d
  end.

(* ================================================================== *)
(** * src/PicoTagEditor.js *)

Module PicoTagEditor.

Record Settings : Type := {
  debug : bool;
  width : JsValue;
  height : JsValue;
  maxHeight : JsValue;
  trimInput : bool }.

(** The [options] argument; [None] in a field is an absent key. *)
Record Options : Type := {
  optDebug : option bool;
  optWidth : option JsValue;
  optHeight : option JsValue;
  optMaxHeight : option JsValue;
  optTrimInput : option bool }.

Definition noOptions : Options :=
  {| optDebug := None; optWidth := None; optHeight := None;
     optMaxHeight := None; optTrimInput := None |}.

(** [{ debug: false, ..., trimInput: false, ...options }] after
    [options = options || {}]. *)
Definition mergeSettings (options : option Options) : Settings :=
  let o := override noOptions options in
  {| debug := override false (optDebug o);
     width := override Undefined (optWidth o);
     height := override Undefined (optHeight o);
     maxHeight := override Undefined (optMaxHeight o);
     trimInput := override false (optTrimInput o) |}.

Definition Widget : Type := Widget Settings jsstring.
Definition M (A : Type) : Type := M Settings jsstring A.

(** [/^-?\d+(\.\d+)?$/.test(value)] *)
Definition isNumber (value : JsValue) : bool :=
  test numberPattern (toString value).

(** [this.isNumber(v) ? `${v}px` : v], as a string: what is assigned to a
    style property. *)
Definition dimension (v : JsValue) : jsstring :=
  if isNumber v then toString v ++ js "px" else toString v.

(** The state of [this] when [init] returns.  [newInput] is the deep clone
    of [input]: attributes, classes, value and inline style are copied,
    listeners are not.  [this.name] keeps its initial [''], which [init]
    does not assign. *)
Definition init (s : Settings) (input : SourceInput) : Widget :=
  let newInput :=
    {| tagName := srcTagName input;
       attributes := srcAttributes input;
       classList := classTokens input;
       value := Some (srcValue input);
       style := srcStyle input;
       children := [];
       listeners := [] |} in
  let tagsContainer :=
    {| tagName := js "div";
       attributes := [];
       classList := [js "tags-container"];
       value := None;
       style :=
         {| display := js "none";
            styleWidth :=
              if truthy (width s) then dimension (width s) else [];
            styleHeight :=
              if truthy (height s) then dimension (height s) else [];
            styleMaxHeight :=
              if truthy (maxHeight s) then dimension (maxHeight s)
              else [] |};
       children := [];
       listeners := [] |} in
  {| settings := s;
     name := [];
     mouseEnter := false;
     containerElement :=
       {| wrapperClass := [js "pico-tag-editor"];
          dataFocus := None;
          wrapperListeners := [];
          textField := newInput;
          tagsContainer := tagsContainer;
          fieldHasFocus := false;
          nextNode := 0;
          uncaught := [] |} |}.

Definition addEvents : M unit :=
  d <- dom ;;
  match querySelector (ByClass (js "pico-tag-edit")) d with
  | None => ret tt
  | Some inputField =>
      addEventListener (Child inputField) Keypress OnKeypress ;;;
      addEventListener (Child inputField) FocusEvent OnFocus ;;;
      addEventListener (Child inputField) BlurEvent OnBlur ;;;
      addEventListener Wrapper MouseEnter OnMouseEnter ;;;
      addEventListener Wrapper MouseLeave OnMouseLeave
  end.

(** The name given to the hidden input. *)
Definition hiddenFieldName (name : jsstring) : jsstring :=
  if negb (includes name (js "[")) then name ++ js "[]" else name.

(** The chip that [addTag] assembles on the fresh node [tag]: the text, then
    [inputHidden], then [removeSpan] with its click listener. *)
Definition tagElement (tag : nat) (name tagText : jsstring)
           (tagContainer : Region) : Chip :=
  {| node := tag;
     chipClass := [js "pico-tag"];
     textContent := tagText;
     hiddenInput :=
       {| hiddenType := js "hidden";
          hiddenName := hiddenFieldName name;
          hiddenValue := tagText |};
     removeSpan :=
       {| innerHTML := js "&times;"; clickContainer := tagContainer |} |}.

(** [tagContainer] is dereferenced first by [appendChild]; nothing that
    happens before is visible from outside. *)
Definition addTag (name tagText : jsstring) : M unit :=
  d <- dom ;;
  let tagContainer := querySelector (ByClass (js "tags-container")) d in
  tag <- createElement ;;
  container <- deref tagContainer ;;
  modifyDom (fun d =>
    withRegion container
      (appendChild (tagElement tag name tagText container)
                   (region container d)) d) ;;;
  setDisplay container [].

Definition runHandler (h : Handler) (t : Target) (ev : Event) : M unit :=
  match h with
  | OnKeypress =>
      if keyIs (js "Enter") ev then
        v <- targetValue t ;;
        v <- deref v ;;
        if negb (str_eqb (trim v) []) then
          s <- gets (@settings _ _) ;;
          let value := if trimInput s then trim v else v in
          nm <- gets (@name _ _) ;;
          addTag nm value ;;;
          setTargetValue t []
        else ret tt
      else ret tt
  | OnFocus => modifyDom (withDataFocus (js "true"))
  | OnBlur =>
      s <- gets (@settings _ _) ;;
      m <- gets (@mouseEnter _ _) ;;
      modifyDom
        (withDataFocus (if debug s || m then js "true" else js "false"))
  | OnMouseEnter => setMouseEnter true
  | OnMouseLeave => setMouseEnter false
  end.

(** The click listener that [addTag] puts on [removeSpan]. *)
Definition onRemoveClick (tagContainer : Region) (tag : nat) : M unit :=
  d <- dom ;;
  match removeChild tag (region tagContainer d) with
  | None => throw NotFoundError
  | Some e => modifyDom (withRegion tagContainer e)
  end ;;;
  d <- dom ;;
  field <- deref (querySelector (ByClass (js "pico-tag-edit")) d) ;;
  focus runHandler field ;;;
  d <- dom ;;
  match querySelectorChip (js "pico-tag") (region tagContainer d) with
  | None => setDisplay tagContainer (js "none")
  | Some _ => ret tt
  end.

(** [this.inputElement], the clone that [init] put in the wrapper. *)
Definition inputElement (w : Widget) : Element :=
  textField (containerElement w).

(** [new PicoTagEditor(input, options)], without a callback. *)
Definition construct (input : SourceInput) (options : option Options)
  : Outcome unit * Widget :=
  addEvents (init (mergeSettings options) input).

Definition step : Action -> M unit := step runHandler onRemoveClick.
Definition exec : Action -> Widget -> Widget := exec runHandler onRemoveClick.
Definition run : list Action -> Widget -> Widget :=
  run runHandler onRemoveClick.

End PicoTagEditor.

(* ================================================================== *)
(** * The older copy of the constructor (with the bootstrap loop) *)

Module Part000.

Record Settings : Type := {
  debug : bool;
  width : JsValue;
  height : JsValue;
  maxHeight : JsValue }.

(** The keys of [options] that this copy documents and reads; it has no
    [trimInput]. *)
Record Options : Type := {
  optDebug : option bool;
  optWidth : option JsValue;
  optHeight : option JsValue;
  optMaxHeight : option JsValue }.

Definition defaults : Settings :=
  {| debug := false; width := Undefined; height := Undefined;
     maxHeight := Undefined |}.

(** [{ ...this.settings, ...options }] when [options] is given. *)
Definition mergeSettings (options : option Options) : Settings :=
  match options with
  | None => defaults
  | Some o =>
      {| debug := override (debug defaults) (optDebug o);
         width := override (width defaults) (optWidth o);
         height := override (height defaults) (optHeight o);
         maxHeight := override (maxHeight defaults) (optMaxHeight o) |}
  end.

(** [this.name] is what [getAttribute('name')] returned: [None] is
    [null]. *)
Definition Widget : Type := Widget Settings (option jsstring).
Definition M (A : Type) : Type := M Settings (option jsstring) A.

Definition isNumber (str : JsValue) : bool :=
  test numberPattern (toString str).

(** [if (this.isNumber(v)) { v += 'px' }], as a string: what is assigned
    to a style property. *)
Definition dimension (v : JsValue) : jsstring :=
  if isNumber v then toString v ++ js "px" else toString v.

Definition isUndefined (v : JsValue) : bool :=
  match v with
  | Undefined => true
  | _ => false
  end.

(** [if (a) { newInput.setAttribute(name, a) }] for [a = getAttribute(name)]:
    only a non-empty value is copied. *)
Definition copyAttribute (a : jsstring) (input : SourceInput)
  : list (jsstring * jsstring) :=
  match getAttribute a (srcAttributes input) with
  | Some (c :: v) => [(a, c :: v)]
  | _ => []
  end.

(** The state of [this] when [init] returns.  [newInput] is a fresh text
    input; [setAttribute('class', null)] stores the string ["null"]. *)
Definition init (s : Settings) (input : SourceInput) : Widget :=
  let newInput :=
    {| tagName := js "input";
       attributes :=
         [(js "type", js "text")]
           ++ copyAttribute (js "id") input
           ++ copyAttribute (js "placeholder") input;
       classList :=
         match classAttr input with
         | Some l => l
         | None => [js "null"]
         end;
       value := Some [];
       style :=
         {| display := []; styleWidth := []; styleHeight := [];
            styleMaxHeight := [] |};
       children := [];
       listeners := [] |} in
  let tagsContainer :=
    {| tagName := js "div";
       attributes := [];
       classList := [js "tags-container"];
       value := None;
       style :=
         {| display := js "none";
            styleWidth :=
              if isUndefined (width s) then [] else dimension (width s);
            styleHeight :=
              if isUndefined (height s) then [] else dimension (height s);
            styleMaxHeight :=
              if isUndefined (maxHeight s) then []
              else dimension (maxHeight s) |};
       children := [];
       listeners := [] |} in
  {| settings := s;
     name := getAttribute (js "name") (srcAttributes input);
     mouseEnter := false;
     containerElement :=
       {| wrapperClass := [js "pico-tag-editor"];
          dataFocus := None;
          wrapperListeners := [];
          textField := newInput;
          tagsContainer := tagsContainer;
          fieldHasFocus := false;
          nextNode := 0;
          uncaught := [] |} |}.

(** Each registration repeats the query and calls [addEventListener] on
    its result unguarded. *)
Definition addEvent : M unit :=
  d <- dom ;;
  f <- deref (querySelector (ByClass (js "pico-tag-edit")) d) ;;
  addEventListener (Child f) Keypress OnKeypress ;;;
  d <- dom ;;
  f <- deref (querySelector (ByClass (js "pico-tag-edit")) d) ;;
  addEventListener (Child f) FocusEvent OnFocus ;;;
  d <- dom ;;
  f <- deref (querySelector (ByClass (js "pico-tag-edit")) d) ;;
  addEventListener (Child f) BlurEvent OnBlur ;;;
  addEventListener Wrapper MouseEnter OnMouseEnter ;;;
  addEventListener Wrapper MouseLeave OnMouseLeave.

(** The chip that [addTag] assembles on the fresh node [tag]. *)
Definition tagElement (tag : nat) (name : option jsstring)
           (tagText : jsstring) (tagContainer : Region) : Chip :=
  {| node := tag;
     chipClass := [js "pico-tag"];
     textContent := tagText;
     hiddenInput :=
       {| hiddenType := js "hidden";
          hiddenName := nullableToString name ++ js "[]";
          hiddenValue := tagText |};
     removeSpan :=
       {| innerHTML := js "&times;"; clickContainer := tagContainer |} |}.

Definition addTag (name : option jsstring) (tagText : jsstring) : M unit :=
  d <- dom ;;
  let tagContainer := querySelector (ByClass (js "tags-container")) d in
  tag <- createElement ;;
  container <- deref tagContainer ;;
  modifyDom (fun d =>
    withRegion container
      (appendChild (tagElement tag name tagText container)
                   (region container d)) d) ;;;
  setDisplay container [].

Definition runHandler (h : Handler) (t : Target) (ev : Event) : M unit :=
  match h with
  | OnKeypress =>
      if keyIs (js "Enter") ev then
        v <- targetValue t ;;
        v <- deref v ;;
        if negb (str_eqb (trim v) []) then
          nm <- gets (@name _ _) ;;
          addTag nm v ;;;
          setTargetValue t []
        else ret tt
      else ret tt
  | OnFocus => modifyDom (withDataFocus (js "true"))
  | OnBlur =>
      s <- gets (@settings _ _) ;;
      m <- gets (@mouseEnter _ _) ;;
      modifyDom
        (withDataFocus (if debug s || m then js "true" else js "false"))
  | OnMouseEnter => setMouseEnter true
  | OnMouseLeave => setMouseEnter false
  end.

Definition onRemoveClick (tagContainer : Region) (tag : nat) : M unit :=
  d <- dom ;;
  match removeChild tag (region tagContainer d) with
  | None => throw NotFoundError
  | Some e => modifyDom (withRegion tagContainer e)
  end ;;;
  d <- dom ;;
  field <- deref (querySelector
                    (ByTagAttr (js "input") (js "type") (js "text")) d) ;;
  focus runHandler field ;;;
  d <- dom ;;
  match querySelectorChip (js "pico-tag") (region tagContainer d) with
  | None => setDisplay tagContainer (js "none")
  | Some _ => ret tt
  end.

(** [new PicoTagEditor(input, options)] *)
Definition construct (input : SourceInput) (options : option Options)
  : Outcome unit * Widget :=
  addEvent (init (mergeSettings options) input).

Definition step : Action -> M unit := step runHandler onRemoveClick.
Definition exec : Action -> Widget -> Widget := exec runHandler onRemoveClick.
Definition run : list Action -> Widget -> Widget :=
  run runHandler onRemoveClick.

End Part000.

(* ================================================================== *)
(** * Vocabulary of the statements *)

Definition isDigit (c : N) : Prop := (48 <= c <= 57)%N.

(** The strings [/^-?\d+(\.\d+)?$/] describes: an optional minus sign, one
    or more digits, and optionally a dot followed by one or more digits. *)
Definition decimalNumeral (s : jsstring) : Prop :=
  exists sign int frac,
    s = sign ++ int ++ frac /\
    (sign = [] \/ sign = [45%N]) /\
    int <> [] /\ Forall isDigit int /\
    (frac = [] \/
     exists f, frac = 46%N :: f /\ f <> [] /\ Forall isDigit f).

(** The element that [addTag] finds under [.tags-container]: the [div] that
    [init] made, unless the text field itself carries that class and comes
    first. *)
Definition tagContainerOf (d : Dom) : Region :=
  if hasClass (js "tags-container") (classList (textField d))
  then TextField else TagsContainer.

(** The text field is an [.pico-tag-edit], as the bootstrap loops select
    them. *)
Definition fieldMarked (d : Dom) : bool :=
  hasClass (js "pico-tag-edit") (classList (textField d)).

(** All chips of the widget, in document order. *)
Definition chips (d : Dom) : list Chip :=
  children (textField d) ++ children (tagsContainer d).

Definition hidden (e : Element) : Prop := display (style e) = js "none".

(** ** The states a widget goes through

    Everything but seven components of the state stays as the constructor
    left it.  [Dyn] collects the seven; [shape w0 x] is the state that
    agrees with [w0] on the rest. *)
Record Dyn : Type := {
  dValue : jsstring;          (* the text in the field *)
  dChips : list Chip;         (* the chips of the tag container *)
  dDisplay : jsstring;        (* [style.display] of the tag container *)
  dDataFocus : option jsstring;
  dFocus : bool;
  dMouse : bool;
  dNext : nat }.

Definition setValue (v : jsstring) (x : Dyn) : Dyn :=
  {| dValue := v; dChips := dChips x; dDisplay := dDisplay x;
     dDataFocus := dDataFocus x; dFocus := dFocus x; dMouse := dMouse x;
     dNext := dNext x |}.

Definition setChips (l : list Chip) (s : jsstring) (x : Dyn) : Dyn :=
  {| dValue := dValue x; dChips := l; dDisplay := s;
     dDataFocus := dDataFocus x; dFocus := dFocus x; dMouse := dMouse x;
     dNext := dNext x |}.

Definition setDataFocus (s : jsstring) (x : Dyn) : Dyn :=
  {| dValue := dValue x; dChips := dChips x; dDisplay := dDisplay x;
     dDataFocus := Some s; dFocus := dFocus x; dMouse := dMouse x;
     dNext := dNext x |}.

Definition setFocus (b : bool) (x : Dyn) : Dyn :=
  {| dValue := dValue x; dChips := dChips x; dDisplay := dDisplay x;
     dDataFocus := dDataFocus x; dFocus := b; dMouse := dMouse x;
     dNext := dNext x |}.

Definition setMouse (b : bool) (x : Dyn) : Dyn :=
  {| dValue := dValue x; dChips := dChips x; dDisplay := dDisplay x;
     dDataFocus := dDataFocus x; dFocus := dFocus x; dMouse := b;
     dNext := dNext x |}.

Definition setNext (n : nat) (x : Dyn) : Dyn :=
  {| dValue := dValue x; dChips := dChips x; dDisplay := dDisplay x;
     dDataFocus := dDataFocus x; dFocus := dFocus x; dMouse := dMouse x;
     dNext := n |}.

Section Shape.

Variables Cfg Nm : Type.
Variable w0 : Widget Cfg Nm.

Definition dress (r : Region) (x : Dyn) (e : Element) : Element :=
  if Region_eqb r (tagContainerOf (containerElement w0))
  then withChildren (dChips x) (withDisplay (dDisplay x) e)
  else e.

Definition shape (x : Dyn) : Widget Cfg Nm :=
  let d0 := containerElement w0 in
  {| settings := settings w0;
     name := name w0;
     mouseEnter := dMouse x;
     containerElement :=
       {| wrapperClass := wrapperClass d0;
          dataFocus := dDataFocus x;
          wrapperListeners := wrapperListeners d0;
          textField :=
            dress TextField x (withValue (Some (dValue x)) (textField d0));
          tagsContainer := dress TagsContainer x (tagsContainer d0);
          fieldHasFocus := dFocus x;
          nextNode := dNext x;
          uncaught := [] |} |}.

(** What holds of the seven components in every state. *)
Record good (x : Dyn) : Prop := {
  good_nodup : NoDup (map node (dChips x));
  good_fresh : Forall (fun t => node t < dNext x) (dChips x);
  good_class : Forall (fun t => chipClass t = [js "pico-tag"]) (dChips x);
  good_closure :
    Forall (fun t => clickContainer (removeSpan t)
                     = tagContainerOf (containerElement w0)) (dChips x);
  good_marked : dChips x <> [] -> fieldMarked (containerElement w0) = true;
  good_visible : dChips x <> [] -> dDisplay x = [];
  good_hidden :
    tagContainerOf (containerElement w0) = TagsContainer ->
    dChips x = [] -> dDisplay x = js "none" }.

(** What the constructor leaves behind, as far as the handlers depend on
    it. *)
Record built : Prop := {
  built_field_value : exists v, value (textField (containerElement w0)) = Some v;
  built_field_children : children (textField (containerElement w0)) = [];
  built_field_listeners :
    listeners (textField (containerElement w0)) =
    if fieldMarked (containerElement w0)
    then [(Keypress, OnKeypress); (FocusEvent, OnFocus); (BlurEvent, OnBlur)]
    else [];
  built_wrapper_listeners :
    wrapperListeners (containerElement w0) =
    if fieldMarked (containerElement w0)
    then [(MouseEnter, OnMouseEnter); (MouseLeave, OnMouseLeave)]
    else [];
  built_tags :
    exists st,
      tagsContainer (containerElement w0) =
      {| tagName := js "div"; attributes := [];
         classList := [js "tags-container"]; value := None;
         style := st; children := []; listeners := [] |}
      /\ display st = js "none";
  built_uncaught : uncaught (containerElement w0) = [] }.

End Shape.

(** The state right after construction. *)
Definition initial {Cfg Nm} (w0 : Widget Cfg Nm) : Dyn :=
  {| dValue := override [] (value (textField (containerElement w0)));
     dChips := [];
     dDisplay :=
       display (style (region (tagContainerOf (containerElement w0))
                              (containerElement w0)));
     dDataFocus := dataFocus (containerElement w0);
     dFocus := fieldHasFocus (containerElement w0);
     dMouse := mouseEnter w0;
     dNext := nextNode (containerElement w0) |}.

(** ** The transitions between states

    [advance] says how the seven components move under a user action, given
    [debug] and the chip a commit builds.  It is the summary that the
    handlers of both copies are proved to implement. *)
Section Advance.

Variables Cfg Nm : Type.
Variable w0 : Widget Cfg Nm.
Variable dbg : bool.
Variable newChip : nat -> jsstring -> Chip.

Definition refocus (x : Dyn) : Dyn :=
  if dFocus x then x
  else if fieldMarked (containerElement w0)
       then setDataFocus (js "true") (setFocus true x)
       else setFocus true x.

Definition advance (a : Action) (x : Dyn) : Dyn :=
  let marked := fieldMarked (containerElement w0) in
  match a with
  | TypeText v => setValue v x
  | KeyPress k =>
      if marked && str_eqb k (js "Enter")
         && negb (str_eqb (trim (dValue x)) [])
      then setValue []
             (setChips (dChips x ++ [newChip (dNext x) (dValue x)]) []
                (setNext (S (dNext x)) x))
      else x
  | FocusField => refocus x
  | BlurField =>
      if dFocus x
      then if marked
           then setDataFocus
                  (if dbg || dMouse x then js "true" else js "false")
                  (setFocus false x)
           else setFocus false x
      else x
  | PointerEnter => if marked then setMouse true x else x
  | PointerLeave => if marked then setMouse false x else x
  | ClickRemove tag =>
      if existsb (fun t => Nat.eqb (node t) tag) (dChips x)
      then
        let l := filter (fun t => negb (Nat.eqb (node t) tag)) (dChips x) in
        setChips l
          (match l with [] => js "none" | _ :: _ => dDisplay x end)
          (refocus x)
      else x
  end.

End Advance.

(** The chip a commit builds, and the transitions, for each copy. *)
Definition mainChip (w0 : PicoTagEditor.Widget) (n : nat) (v : jsstring)
  : Chip :=
  PicoTagEditor.tagElement n (name w0)
    (if PicoTagEditor.trimInput (settings w0) then trim v else v)
    (tagContainerOf (containerElement w0)).

Definition mainAdvance (w0 : PicoTagEditor.Widget) : Action -> Dyn -> Dyn :=
  advance w0 (PicoTagEditor.debug (settings w0)) (mainChip w0).

Definition oldChip (w0 : Part000.Widget) (n : nat) (v : jsstring) : Chip :=
  Part000.tagElement n (name w0) v (tagContainerOf (containerElement w0)).

Definition oldAdvance (w0 : Part000.Widget) : Action -> Dyn -> Dyn :=
  advance w0 (Part000.debug (settings w0)) (oldChip w0).

(** The components after a sequence of actions. *)
Definition advanceAll (adv : Action -> Dyn -> Dyn) (acts : list Action)
           (x : Dyn) : Dyn :=
  fold_left (fun y a => adv a y) acts x.

(** The text field answers to [input[type="text"]], the query by which the
    older copy finds it again. *)
Definition textInput (d : Dom) : Prop :=
  matchesSelector (ByTagAttr (js "input") (js "type") (js "text"))
                  (textField d) = true.


(** The state of a widget built over [input] with [options] after the user
    did [acts], for each copy. *)
Definition mainState (input : SourceInput)
           (options : option PicoTagEditor.Options) (acts : list Action)
  : PicoTagEditor.Widget :=
  PicoTagEditor.run acts (snd (PicoTagEditor.construct input options)).

Definition oldState (input : SourceInput)
           (options : option Part000.Options) (acts : list Action)
  : Part000.Widget :=
  Part000.run acts (snd (Part000.construct input options)).

(** The bootstrap loops pick their inputs with [input.pico-tag-edit]. *)
Definition picked (input : SourceInput) : bool :=
  hasClass (js "pico-tag-edit") (classTokens input).

Definition tagList {Cfg Nm} (w : Widget Cfg Nm) : list Chip :=
  children (tagsContainer (containerElement w)).

Definition fieldValue {Cfg Nm} (w : Widget Cfg Nm) : option jsstring :=
  value (textField (containerElement w)).

Definition tagListHidden {Cfg Nm} (w : Widget Cfg Nm) : Prop :=
  hidden (tagsContainer (containerElement w)).

(** A state whose shape is known, with everything the claims read from
    it. *)
Record known {Cfg Nm} (w0 w : Widget Cfg Nm) (x : Dyn) : Prop := {
  known_shape : w = shape w0 x;
  known_good : good w0 x;
  known_built : built w0;
  known_settings : settings w = settings w0;
  known_name : name w = name w0;
  known_mouse : mouseEnter w = dMouse x;
  known_value : fieldValue w = Some (dValue x);
  known_chips : chips (containerElement w) = dChips x;
  known_focus : fieldHasFocus (containerElement w) = dFocus x;
  known_dataFocus : dataFocus (containerElement w) = dDataFocus x;
  known_uncaught : uncaught (containerElement w) = [];
  known_tagList :
    tagList w =
    match tagContainerOf (containerElement w0) with
    | TagsContainer => dChips x
    | TextField => []
    end;
  known_display :
    display (style (tagsContainer (containerElement w))) =
    match tagContainerOf (containerElement w0) with
    | TagsContainer => dDisplay x
    | TextField => js "none"
    end }.


(** ** Vocabulary of the claims about names and dimensions *)

(** The name the specification gives to a hidden field: the base name with
    a trailing ["[]"] appended unless it is there already. *)
Definition suffixedOnce (name : jsstring) : jsstring :=
  if endsWith name (js "[]") then name else name ++ js "[]".

Inductive Dimension : Type := Width | Height | MaxHeight.

(** [this.settings[d]] *)
Definition configured (d : Dimension) (s : PicoTagEditor.Settings)
  : JsValue :=
  match d with
  | Width => PicoTagEditor.width s
  | Height => PicoTagEditor.height s
  | MaxHeight => PicoTagEditor.maxHeight s
  end.

(** The string last assigned to [tagsContainer.style[d]], [''] when none
    was. *)
Definition assigned (d : Dimension) (st : Style) : jsstring :=
  match d with
  | Width => styleWidth st
  | Height => styleHeight st
  | MaxHeight => styleMaxHeight st
  end.

(** An [input.pico-tag-edit] named ["tags"], and the session that commits
    ["red"] and then ["blue"]. *)
Definition tagsInput : SourceInput :=
  {| srcTagName := js "input";
     srcAttributes := [(js "type", js "text"); (js "name", js "tags")];
     classAttr := Some [js "pico-tag-edit"];
     srcValue := [];
     srcStyle :=
       {| display := []; styleWidth := []; styleHeight := [];
          styleMaxHeight := [] |} |}.

Definition redThenBlue : list Action :=
  [TypeText (js "red"); KeyPress (js "Enter");
   TypeText (js "blue"); KeyPress (js "Enter")].

Definition hiddenFields {Cfg Nm} (w : Widget Cfg Nm)
  : list (jsstring * jsstring) :=
  map (fun t => (hiddenName (hiddenInput t), hiddenValue (hiddenInput t)))
      (tagList w).

(** Whether the string form of a number is written without an exponent:
    the number is a zero, or finite and of a magnitude from [10^-6] up to,
    but not including, [10^21]. *)
Definition plainDecimal (x : JsNumber) : bool :=
  match x with
  | NaN | Infinity _ => false
  | Zero => true
  | Finite _ m e =>
      let n := pointPosition m e in ((-6 <? n) && (n <=? 21))%Z
  end.

(** A string without a sign that spells a decimal number. *)
Definition unsignedNumeral (s : jsstring) : Prop :=
  exists int frac,
    s = int ++ frac /\
    int <> [] /\ Forall isDigit int /\
    (frac = [] \/
     exists f, frac = 46%N :: f /\ f <> [] /\ Forall isDigit f).

(** A length in pixels that is not negative, as CSS writes one: an unsigned
    decimal numeral followed by ["px"]. *)
Definition pixelLength (s : jsstring) : Prop :=
  exists t, unsignedNumeral t /\ s = t ++ js "px".

(** Concrete inputs for the examples. *)
Definition trimming : option PicoTagEditor.Options :=
  Some {| PicoTagEditor.optDebug := None;
          PicoTagEditor.optWidth := None;
          PicoTagEditor.optHeight := Some (Str (js "50%"));
          PicoTagEditor.optMaxHeight := Some (Num (int 120));
          PicoTagEditor.optTrimInput := Some true |}.

(** [{ width: 12.5, height: "50%", maxHeight: 120 }] *)
Definition sized : option PicoTagEditor.Options :=
  Some {| PicoTagEditor.optDebug := None;
          PicoTagEditor.optWidth := Some (Num (Finite false 125 (-1)));
          PicoTagEditor.optHeight := Some (Str (js "50%"));
          PicoTagEditor.optMaxHeight := Some (Num (int 120));
          PicoTagEditor.optTrimInput := None |}.

(** [{ width: 0, height: 1e21, maxHeight: "120" }] *)
Definition oddlySized : option PicoTagEditor.Options :=
  Some {| PicoTagEditor.optDebug := None;
          PicoTagEditor.optWidth := Some (Num (int 0));
          PicoTagEditor.optHeight := Some (Num (Finite false 1 21));
          PicoTagEditor.optMaxHeight := Some (Str (js "120"));
          PicoTagEditor.optTrimInput := None |}.

(** An input that is not an [.pico-tag-edit]. *)
Definition plainInput : SourceInput :=
  {| srcTagName := js "input";
     srcAttributes := [(js "name", js "tags")];
     classAttr := None;
     srcValue := [];
     srcStyle :=
       {| display := []; styleWidth := []; styleHeight := [];
          styleMaxHeight := [] |} |}.

Definition redChip : Chip :=
  PicoTagEditor.tagElement 0 [] (js "red") TagsContainer.

Definition blueChip : Chip :=
  PicoTagEditor.tagElement 1 [] (js "blue") TagsContainer.

Definition oldRedChip : Chip :=
  Part000.tagElement 0 (Some (js "tags")) (js "red") TagsContainer.

Definition oldBlueChip : Chip :=
  Part000.tagElement 1 (Some (js "tags")) (js "blue") TagsContainer.

(** ** Vocabulary of the further properties *)

(** [value.trim() === ''], the test by which the keypress listener rejects
    a value. *)
Definition isBlank (v : jsstring) : bool := str_eqb (trim v) [].

(** The user types each value of [vs] and presses Enter after it. *)
Definition commitAll (vs : list jsstring) : list Action :=
  flat_map (fun v => [TypeText v; KeyPress (js "Enter")]) vs.

(** What a chip shows and what it submits. *)
Definition chipEntry (c : Chip) : jsstring * jsstring :=
  (textContent c, hiddenValue (hiddenInput c)).

(** Whether the pointer is over the wrapper after [acts], [b] telling
    whether it was before. *)
Definition pointerOver (acts : list Action) (b : bool) : bool :=
  fold_left (fun b a =>
               match a with
               | PointerEnter => true
               | PointerLeave => false
               | _ => b
               end) acts b.

(** The actions that reach [addTag] or a remove control. *)
Definition editsTags (a : Action) : bool :=
  match a with
  | KeyPress _ | ClickRemove _ => true
  | _ => false
  end.

(** A value of [data-focus] that does not read ["false"]: the attribute is
    absent or ["true"]. *)
Definition active (o : option jsstring) : Prop :=
  o = None \/ o = Some (js "true").

(** The listeners of a widget whose text field [addEvents] / [addEvent]
    found. *)
Definition fieldListeners : list (EventType * Handler) :=
  [(Keypress, OnKeypress); (FocusEvent, OnFocus); (BlurEvent, OnBlur)].

Definition hoverListeners : list (EventType * Handler) :=
  [(MouseEnter, OnMouseEnter); (MouseLeave, OnMouseLeave)].

(** [this.settings[d]] in the older copy. *)
Definition oldConfigured (d : Dimension) (s : Part000.Settings) : JsValue :=
  match d with
  | Width => Part000.width s
  | Height => Part000.height s
  | MaxHeight => Part000.maxHeight s
  end.

(** ** The bootstrap loop at the end of the older copy *)

(** Whether an element of the page matches [input.pico-tag-edit]: a type
    selector goes by the local name of the element, which is what
    [srcTagName] and [tagName] hold. *)
Definition selected (e : SourceInput) : bool :=
  str_eqb (srcTagName e) (js "input") && picked e.

(** [document.querySelectorAll('input.pico-tag-edit')]: the matching
    elements of the page, in document order.  The list is static, so the
    replacements that the constructors make do not disturb the loop. *)
Definition inputElements (document : list SourceInput) : list SourceInput :=
  filter selected document.

(** [{width:240, maxHeight: 120}] *)
Definition bootstrapOptions : Part000.Options :=
  {| Part000.optDebug := None;
     Part000.optWidth := Some (Num (int 240));
     Part000.optHeight := None;
     Part000.optMaxHeight := Some (Num (int 120)) |}.

(** [l.forEach(f)] for an [f] that builds a widget: an exception ends the
    loop.  The widgets built so far are returned with the outcome. *)
Fixpoint forEach {A W} (f : A -> Outcome unit * W) (l : list A)
  : Outcome unit * list W :=
  match l with
  | [] => (Done tt, [])
  | a :: r =>
      match f a with
      | (Done _, w) =>
          let (o, ws) := forEach f r in (o, w :: ws)
      | (Throw e, w) => (Throw e, [w])
      end
  end.

(** [inputElements.forEach(input => { new PicoTagEditor(input, {...}) })] *)
Definition bootstrap (document : list SourceInput)
  : Outcome unit * list Part000.Widget :=
  forEach (fun input => Part000.construct input (Some bootstrapOptions))
          (inputElements document).

(** A page for the examples: two fields to pick and a plain one between
    them. *)
Definition colourInput : SourceInput :=
  {| srcTagName := js "input";
     srcAttributes :=
       [(js "type", js "text"); (js "name", js "colours");
        (js "id", js "colours"); (js "placeholder", js "Add a colour")];
     classAttr := Some [js "form-control"; js "pico-tag-edit"];
     srcValue := [];
     srcStyle :=
       {| display := []; styleWidth := []; styleHeight := [];
          styleMaxHeight := [] |} |}.

Definition page : list SourceInput := [tagsInput; plainInput; colourInput].

(** [debug: true] *)
Definition debugging : option PicoTagEditor.Options :=
  Some {| PicoTagEditor.optDebug := Some true;
          PicoTagEditor.optWidth := None;
          PicoTagEditor.optHeight := None;
          PicoTagEditor.optMaxHeight := None;
          PicoTagEditor.optTrimInput := None |}.

(* ================================================================== *)
(** * Tactics

    The handlers are run symbolically on a state of known shape: unfold the
    monad, reduce the record projections, and split on the class tests
    that decide what the queries find. *)

Ltac projections :=
  cbn [settings name mouseEnter containerElement
       wrapperClass dataFocus wrapperListeners textField tagsContainer
       fieldHasFocus nextNode uncaught
       tagName attributes classList value style children listeners
       display styleWidth styleHeight styleMaxHeight
       dValue dChips dDisplay dDataFocus dFocus dMouse dNext
       setValue setChips setDataFocus setFocus setMouse setNext
       withValue withDisplay withChildren withListeners withRegion
       withDataFocus withWrapperListeners withFocus withNextNode
       withUncaught region Region_eqb appendChild fst snd] in *.

Ltac open_state w0 Hb :=
  let v0 := fresh "v0" in
  let st := fresh "st" in
  destruct Hb as [[v0 ?] ? ? ? (st & ? & ?) ?];
  destruct w0 as [? ? ? [? ? ? [? ? ? ? ? ? ?] ? ? ? ?]];
  unfold fieldMarked, tagContainerOf in *;
  projections; subst.

Ltac closed_classes :=
  change (hasClass (js "pico-tag-edit") [js "tags-container"]) with false in *;
  change (hasClass (js "tags-container") [js "tags-container"]) with true in *.

Ltac case_step :=
  match goal with
  | E : hasClass ?c ?l = _ |- context [hasClass ?c ?l] => rewrite E
  | |- context [hasClass ?c ?l] =>
      is_var l; let E := fresh "E" in destruct (hasClass c l) eqn:E
  end;
  projections; closed_classes.

Ltac case_classes :=
  unfold shape, dress, tagContainerOf, fieldMarked in *; projections;
  closed_classes; repeat case_step.

Ltac unfold_monad :=
  unfold dom, bind, ret, throw, gets, modifyDom, setMouseEnter, deref,
         createElement, targetValue, setTargetValue, setDisplay,
         addEventListener,
         reportErrors, listenersOf, dispatchEvent, plainEvent, focus,
         querySelector, matchesSelector, querySelectorChip, removeChild,
         keyIs, shape, dress, tagContainerOf, fieldMarked, refocus, advance;
  cbn [fireAll EventType_eqb eventType key andb orb negb];
  projections; closed_classes.

Ltac run_monad := unfold_monad; repeat (progress unfold_monad).

Ltac case_atom :=
  match goal with
  | E : hasClass ?c ?l = _ |- context [hasClass ?c ?l] => rewrite E
  | E : str_eqb ?a ?b = _ |- context [str_eqb ?a ?b] => rewrite E
  | E : dFocus ?x = _ |- context [dFocus ?x] => rewrite E
  | |- context [hasClass ?c ?l] =>
      is_var l; let E := fresh "E" in destruct (hasClass c l) eqn:E
  | |- context [hasClass ?c (classTokens ?i)] =>
      let E := fresh "E" in destruct (hasClass c (classTokens i)) eqn:E
  | |- context [str_eqb ?a ?b] =>
      let E := fresh "E" in destruct (str_eqb a b) eqn:E
  | |- context [if dFocus ?x then _ else _] =>
      let E := fresh "E" in destruct (dFocus x) eqn:E
  end.

Ltac symbolic := repeat (run_monad; case_atom); run_monad.

Ltac dyn_simpl :=
  cbn [dValue dChips dDisplay dDataFocus dFocus dMouse dNext
       setValue setChips setDataFocus setFocus setMouse setNext] in *.

Ltac good_same := constructor; dyn_simpl; assumption.

(* ================================================================== *)
(** * Strings: basic facts *)

Lemma str_eqb_eq (a b : jsstring) : str_eqb a b = true <-> a = b.
Proof.
  revert b; induction a as [|x a IH]; intros [|y b]; simpl;
    try (split; [discriminate | congruence]); try tauto.
  rewrite andb_true_iff, N.eqb_eq, IH. split.
  - intros [-> ->]; reflexivity.
  - intros H; inversion H; auto.
Qed.

Lemma str_eqb_refl (a : jsstring) : str_eqb a a = true.
Proof. apply str_eqb_eq; reflexivity. Qed.

Lemma str_eqb_neq (a b : jsstring) : str_eqb a b = false <-> a <> b.
Proof.
  rewrite <- str_eqb_eq. destruct (str_eqb a b); split; congruence.
Qed.

Lemma includes_char (s : jsstring) (c : N) :
  includes s [c] = true <-> In c s.
Proof.
  induction s as [|x s IH]; simpl.
  - split; [discriminate | tauto].
  - rewrite orb_true_iff, IH, andb_true_r, N.eqb_eq. split.
    + intros [H | H]; [left; symmetry; exact H | right; exact H].
    + intros [H | H]; [left; symmetry; exact H | right; exact H].
Qed.

(* ================================================================== *)
(** * The matcher decides the language of a pattern *)

Lemma nullable_Lang (r : regex) : nullable r = true <-> Lang r [].
Proof.
  induction r; simpl.
  - split; [discriminate | intros H; inversion H].
  - split; [constructor | reflexivity].
  - split; [discriminate | intros H; inversion H].
  - rewrite andb_true_iff, IHr1, IHr2. split.
    + intros [H1 H2]. change (@nil N) with (@nil N ++ []).
      constructor; assumption.
    + intros H. inversion H; subst.
      match goal with E : _ ++ _ = [] |- _ =>
        apply app_eq_nil in E; destruct E; subst end.
      auto.
  - rewrite orb_true_iff, IHr1, IHr2. split.
    + intros [H | H]; [apply LAltL | apply LAltR]; assumption.
    + intros H; inversion H; subst; auto.
  - split; [constructor | reflexivity].
Qed.

Lemma Lang_Seq_cons (r s : regex) (c : N) (t : jsstring) :
  Lang (Seq r s) (c :: t) ->
  (Lang r [] /\ Lang s (c :: t)) \/
  (exists u v, t = u ++ v /\ Lang r (c :: u) /\ Lang s v).
Proof.
  intros H. inversion H as [| |r' s' u v Hu Hv [Er Es] Et| | | |]; subst.
  destruct u as [|x u]; simpl in Et.
  - subst v. left; auto.
  - inversion Et; subst. right. exists u, v. auto.
Qed.

Lemma Lang_Star_cons (r : regex) (c : N) (s : jsstring) :
  Lang (Star r) (c :: s) ->
  exists u v, s = u ++ v /\ Lang r (c :: u) /\ Lang (Star r) v.
Proof.
  intros H. remember (Star r) as q eqn:Hq. remember (c :: s) as t eqn:Ht.
  revert c s Ht Hq.
  induction H as [| | | | | |r' u v Hu _ Hv IHv]; intros c0 s0 Ht Hq;
    try discriminate.
  inversion Hq; subst r'.
  destruct u as [|x u]; simpl in Ht.
  - apply (IHv c0 s0 Ht eq_refl).
  - inversion Ht; subst. exists u, v. auto.
Qed.

Lemma Lang_cons_Seq (r s : regex) (c : N) (u v : jsstring) :
  Lang r (c :: u) -> Lang s v -> Lang (Seq r s) (c :: u ++ v).
Proof.
  intros Hu Hv. change (c :: u ++ v) with ((c :: u) ++ v).
  constructor; assumption.
Qed.

Lemma deriv_Lang (r : regex) (c : N) (s : jsstring) :
  Lang (deriv c r) s <-> Lang r (c :: s).
Proof.
  revert s; induction r; intros s; simpl.
  - split; intros H; inversion H.
  - split; intros H; inversion H.
  - destruct (lo <=? c)%N eqn:Hlo; destruct (c <=? hi)%N eqn:Hhi; simpl;
      (split; intros H; inversion H; subst);
      try (constructor; apply N.leb_le; assumption);
      try constructor;
      repeat match goal with
             | L : (_ <= _)%N |- _ => apply N.leb_le in L
             end; congruence.
  - destruct (nullable r1) eqn:Hn.
    + split.
      * intros H. inversion H; subst.
        -- match goal with L : Lang (Seq _ _) _ |- _ =>
             inversion L; subst end.
           apply Lang_cons_Seq; [apply IHr1|]; assumption.
        -- apply nullable_Lang in Hn.
           change (c :: s) with ([] ++ c :: s).
           constructor; [|apply IHr2]; assumption.
      * intros H. apply Lang_Seq_cons in H as [[_ H] | (u & v & -> & Hu & Hv)].
        -- apply LAltR. apply IHr2. assumption.
        -- apply LAltL. constructor; [apply IHr1|]; assumption.
    + split.
      * intros H. inversion H; subst.
        apply Lang_cons_Seq; [apply IHr1|]; assumption.
      * intros H. apply Lang_Seq_cons in H as [[H _] | (u & v & -> & Hu & Hv)].
        -- apply nullable_Lang in H. congruence.
        -- constructor; [apply IHr1|]; assumption.
  - split; intros H; inversion H; subst;
      solve [apply LAltL; apply IHr1; assumption
            |apply LAltR; apply IHr2; assumption].
  - split.
    + intros H. inversion H; subst.
      change (c :: u ++ v) with ((c :: u) ++ v).
      constructor; [apply IHr|]; assumption.
    + intros H. apply Lang_Star_cons in H as (u & v & -> & Hu & Hv).
      constructor; [apply IHr|]; assumption.
Qed.

Theorem test_Lang (r : regex) (s : jsstring) : test r s = true <-> Lang r s.
Proof.
  revert r; induction s as [|c s IH]; intros r; simpl.
  - apply nullable_Lang.
  - rewrite IH. apply deriv_Lang.
Qed.

(* ================================================================== *)
(** * What [isNumber] accepts *)

Lemma Lang_Digit (c : N) : isDigit c -> Lang Digit [c].
Proof. intros [H1 H2]. constructor; assumption. Qed.

Lemma Lang_Star_Digit (l : jsstring) :
  Forall isDigit l <-> Lang (Star Digit) l.
Proof.
  split.
  - induction 1 as [|c l Hc _ IH]; [constructor|].
    change (c :: l) with ([c] ++ l). constructor; [apply Lang_Digit|]; auto.
  - intros H. remember (Star Digit) as r eqn:Hr.
    induction H as [| | | | | |r' u v Hu _ _ IHv]; try discriminate.
    + constructor.
    + inversion Hr; subst r'. inversion Hu; subst.
      constructor; [split; assumption | apply IHv; reflexivity].
Qed.

Lemma Lang_Plus_Digit (l : jsstring) :
  (l <> [] /\ Forall isDigit l) <-> Lang (Plus Digit) l.
Proof.
  split.
  - intros [Hne H]. destruct l as [|c l]; [congruence|].
    inversion H; subst. change (c :: l) with ([c] ++ l).
    constructor; [apply Lang_Digit | apply Lang_Star_Digit]; assumption.
  - intros H. inversion H; subst.
    match goal with L : Lang Digit _ |- _ => inversion L; subst end.
    split; [discriminate|].
    constructor; [split; assumption | apply Lang_Star_Digit; assumption].
Qed.

Lemma numberPattern_decimalNumeral (s : jsstring) :
  Lang numberPattern s <-> decimalNumeral s.
Proof.
  unfold numberPattern, decimalNumeral, Opt, Chr. split.
  - intros H. inversion H as [| |? ? sign rest Hsign Hrest| | | |]; subst.
    inversion Hrest as [| |? ? int frac Hint Hfrac| | | |]; subst.
    apply Lang_Plus_Digit in Hint as [Hne Hint].
    exists sign, int, frac. repeat split; try assumption.
    + inversion Hsign; subst.
      * match goal with L : Lang (Range _ _) _ |- _ => inversion L; subst end.
        right. f_equal. lia.
      * match goal with L : Lang Eps _ |- _ => inversion L; subst end.
        left; reflexivity.
    + inversion Hfrac; subst.
      * match goal with L : Lang (Seq _ _) _ |- _ => inversion L; subst end.
        match goal with L : Lang (Range _ _) _ |- _ => inversion L; subst end.
        match goal with L : Lang (Plus _) _ |- _ =>
          apply Lang_Plus_Digit in L; destruct L end.
        right. eexists. split; [|split; eassumption].
        simpl. f_equal. lia.
      * match goal with L : Lang Eps _ |- _ => inversion L; subst end.
        left; reflexivity.
  - intros (sign & int & frac & -> & Hsign & Hne & Hint & Hfrac).
    constructor; [|constructor].
    + destruct Hsign as [-> | ->];
        [apply LAltR; constructor | apply LAltL; constructor; lia].
    + apply Lang_Plus_Digit; auto.
    + destruct Hfrac as [-> | (f & -> & Hf & Hd)]; [apply LAltR; constructor|].
      apply LAltL. change (46%N :: f) with ([46%N] ++ f).
      constructor; [constructor; lia | apply Lang_Plus_Digit; auto].
Qed.

Lemma digits_of_uint (d : Decimal.uint) :
  Forall isDigit (js (NilEmpty.string_of_uint d)).
Proof.
  induction d; simpl; constructor; try assumption;
    unfold isDigit; simpl; lia.
Qed.

Lemma numeral_of_uint (d : Decimal.uint) :
  js (NilZero.string_of_uint d) <> [] /\
  Forall isDigit (js (NilZero.string_of_uint d)).
Proof.
  destruct d; try (split; [discriminate | apply digits_of_uint]).
  split; [discriminate|]. repeat constructor; unfold isDigit; simpl; lia.
Qed.

(** The string form of an integer is a decimal numeral. *)
Lemma decimal_decimalNumeral (n : Z) : decimalNumeral (decimal n).
Proof.
  unfold decimal.
  destruct (Z.to_int n) as [d | d]; simpl NilZero.string_of_int;
    destruct (numeral_of_uint d) as [Hne Hd].
  - exists [], (js (NilZero.string_of_uint d)), [].
    rewrite app_nil_r. repeat split; auto.
  - exists [45%N], (js (NilZero.string_of_uint d)), [].
    rewrite app_nil_r. repeat split; auto.
Qed.

Lemma test_numberPattern (s : jsstring) :
  test numberPattern s = true <-> decimalNumeral s.
Proof. rewrite test_Lang. apply numberPattern_decimalNumeral. Qed.
(* ================================================================== *)
(** * The string form of a number *)

Lemma uint_all_zero (u : Decimal.uint) :
  Forall (fun c => c = 48%N) (js (NilEmpty.string_of_uint u)) ->
  Pos.of_uint u = 0%N.
Proof.
  induction u; cbn; intros H; try reflexivity; inversion H; subst;
    try discriminate.
  apply IHu. assumption.
Qed.

Lemma digitsOf_nonzero (m : positive) :
  ~ Forall (fun c => c = 48%N) (digitsOf m).
Proof.
  unfold digitsOf. intros H.
  pose proof (Unsigned.of_to m) as E.
  destruct (Pos.to_uint m) eqn:Eu; cbn [NilZero.string_of_uint] in H;
    try (rewrite (uint_all_zero _ H) in E; discriminate).
  cbn in E. discriminate.
Qed.

Lemma digitsOf_digits (m : positive) : Forall isDigit (digitsOf m).
Proof. apply numeral_of_uint. Qed.

Lemma dropZeros_digits (l : jsstring) :
  Forall isDigit l -> Forall isDigit (dropZeros l).
Proof.
  induction 1 as [|c l Hc Hl IH]; [constructor|]. cbn [dropZeros].
  destruct (c =? 48)%N; [exact IH | constructor; assumption].
Qed.

Lemma dropZeros_nil (l : jsstring) :
  dropZeros l = [] -> Forall (fun c => c = 48%N) l.
Proof.
  induction l as [|c l IH]; [constructor|]. cbn [dropZeros].
  destruct (N.eqb_spec c 48); [|discriminate].
  intros H. constructor; [assumption | apply IH, H].
Qed.

Lemma significand_digits (m : positive) :
  significand m <> [] /\ Forall isDigit (significand m).
Proof.
  unfold significand. split.
  - intros E. apply (digitsOf_nonzero m).
    apply (f_equal (@rev N)) in E. rewrite rev_involutive in E. cbn in E.
    apply dropZeros_nil in E. apply Forall_rev in E.
    rewrite rev_involutive in E. exact E.
  - apply Forall_rev, dropZeros_digits, Forall_rev, digitsOf_digits.
Qed.

Lemma zeros_digits (n : Z) : Forall isDigit (zeros n).
Proof.
  unfold zeros. induction (Z.to_nat n); cbn; constructor; [|assumption].
  unfold isDigit. lia.
Qed.

Lemma Forall_firstn {A} (P : A -> Prop) (n : nat) (l : list A) :
  Forall P l -> Forall P (firstn n l).
Proof.
  intros H. rewrite <- (firstn_skipn n l) in H. apply Forall_app in H.
  apply H.
Qed.

Lemma Forall_skipn {A} (P : A -> Prop) (n : nat) (l : list A) :
  Forall P l -> Forall P (skipn n l).
Proof.
  intros H. rewrite <- (firstn_skipn n l) in H. apply Forall_app in H.
  apply H.
Qed.

(** Within [10^-6 .. 10^21] a number is printed as digits with at most one
    point. *)
Lemma numberToString_plain (m : positive) (e : Z) :
  plainDecimal (Finite false m e) = true ->
  unsignedNumeral (numberToString m e).
Proof.
  cbn [plainDecimal]. unfold numberToString. cbv zeta.
  destruct (significand_digits m) as [Hne Hd].
  set (s := significand m) in *. set (n := pointPosition m e).
  assert (Hk : (0 < Z.of_nat (List.length s))%Z).
  { destruct s; [contradiction | cbn [List.length]; lia]. }
  intros Hp. apply andb_true_iff in Hp as [H6 H21].
  apply Z.ltb_lt in H6. apply Z.leb_le in H21.
  rewrite (proj2 (Z.leb_le n 21) H21), !andb_true_r.
  destruct (Z.leb_spec (Z.of_nat (List.length s)) n) as [Hkn|Hkn].
  - exists (s ++ zeros (n - Z.of_nat (List.length s))), [].
    rewrite app_nil_r. repeat split.
    + intros E. apply app_eq_nil in E as [E _]. contradiction.
    + apply Forall_app. split; [exact Hd | apply zeros_digits].
    + left. reflexivity.
  - destruct (Z.ltb_spec 0 n) as [Hn|Hn].
    + exists (firstn (Z.to_nat n) s), (js "." ++ skipn (Z.to_nat n) s).
      repeat split.
      * intros E. apply (f_equal (@List.length N)) in E.
        rewrite length_firstn in E. cbn [List.length] in E. lia.
      * apply Forall_firstn, Hd.
      * right. exists (skipn (Z.to_nat n) s). repeat split.
        -- intros E. apply (f_equal (@List.length N)) in E.
           rewrite length_skipn in E. cbn [List.length] in E. lia.
        -- apply Forall_skipn, Hd.
    + rewrite (proj2 (Z.ltb_lt (-6) n) H6), (proj2 (Z.leb_le n 0) Hn).
      cbn [andb].
      exists [48%N], (46%N :: zeros (- n) ++ s).
      split; [reflexivity|]. repeat split.
      * discriminate.
      * repeat constructor; unfold isDigit; lia.
      * right. exists (zeros (- n) ++ s). repeat split.
        -- intros E. apply app_eq_nil in E as [_ E]. contradiction.
        -- apply Forall_app. split; [apply zeros_digits | exact Hd].
Qed.

(** Outside of it the exponent notation is used. *)
Lemma numberToString_exponent (m : positive) (e : Z) :
  plainDecimal (Finite false m e) = false ->
  In 101%N (numberToString m e).
Proof.
  cbn [plainDecimal]. unfold numberToString. cbv zeta.
  destruct (significand_digits m) as [Hne _].
  set (s := significand m) in *. set (n := pointPosition m e).
  assert (Hk : (0 < Z.of_nat (List.length s))%Z).
  { destruct s; [contradiction | cbn [List.length]; lia]. }
  intros Hp.
  assert (H1 : ((Z.of_nat (List.length s) <=? n) && (n <=? 21))%Z = false).
  { apply andb_false_iff in Hp. apply andb_false_iff.
    destruct Hp as [Hp|Hp]; [left | right; exact Hp].
    apply Z.ltb_ge in Hp. apply Z.leb_gt. lia. }
  assert (H2 : ((0 <? n) && (n <=? 21))%Z = false).
  { apply andb_false_iff in Hp. apply andb_false_iff.
    destruct Hp as [Hp|Hp]; [left | right; exact Hp].
    apply Z.ltb_ge in Hp. apply Z.ltb_ge. lia. }
  assert (H3 : ((-6 <? n) && (n <=? 0))%Z = false).
  { apply andb_false_iff in Hp. apply andb_false_iff.
    destruct Hp as [Hp|Hp]; [left; exact Hp | right].
    apply Z.leb_gt in Hp. apply Z.leb_gt. lia. }
  rewrite H1, H2, H3. apply in_or_app. right. left. reflexivity.
Qed.

Lemma unsignedNumeral_signed (s : jsstring) (negative : bool) :
  unsignedNumeral s ->
  decimalNumeral ((if negative then js "-" else []) ++ s).
Proof.
  intros (i & f & -> & Hne & Hd & Hf).
  exists (if negative then js "-" else []), i, f.
  repeat split; try assumption.
  destruct negative; [right | left]; reflexivity.
Qed.

Lemma decimalNumeral_chars (s : jsstring) :
  decimalNumeral s ->
  Forall (fun c => isDigit c \/ c = 45%N \/ c = 46%N) s.
Proof.
  intros (sign & i & f & -> & Hs & _ & Hi & Hf).
  apply Forall_app. split; [|apply Forall_app; split].
  - destruct Hs as [-> | ->]; [constructor|].
    constructor; [|constructor]. right. left. reflexivity.
  - eapply Forall_impl; [|exact Hi]. intros c Hc. left. exact Hc.
  - destruct Hf as [-> | (g & -> & _ & Hg)]; constructor.
    + right. right. reflexivity.
    + eapply Forall_impl; [|exact Hg]. intros c Hc. left. exact Hc.
Qed.

Lemma exponent_not_numeral (s : jsstring) :
  In 101%N s -> ~ decimalNumeral s.
Proof.
  intros Hin Hd. apply decimalNumeral_chars in Hd.
  rewrite Forall_forall in Hd. destruct (Hd _ Hin) as [H|[H|H]];
    [unfold isDigit in H; lia | discriminate | discriminate].
Qed.

(** The pattern of [isNumber] on the string form of a number: it matches
    unless the form is [NaN], an infinity or in exponent notation. *)
Lemma test_number (x : JsNumber) :
  test numberPattern (toString (Num x)) = plainDecimal x.
Proof.
  destruct x as [|[|]| |negative m e]; try reflexivity.
  cbn [toString].
  destruct (plainDecimal (Finite negative m e)) eqn:Hp.
  - apply test_numberPattern, unsignedNumeral_signed, numberToString_plain.
    exact Hp.
  - destruct (test numberPattern _) eqn:Ht; [|reflexivity].
    apply test_numberPattern in Ht. exfalso. revert Ht.
    apply exponent_not_numeral, in_or_app. right.
    apply numberToString_exponent. exact Hp.
Qed.

Lemma toString_truthy_nonempty (v : JsValue) :
  truthy v = true -> toString v <> [].
Proof.
  destruct v as [|[|[|]| |negative m e]|[|c s]]; try discriminate.
  intros _ E. cbn [toString] in E. apply app_eq_nil in E as [_ E].
  destruct (plainDecimal (Finite false m e)) eqn:Hp.
  - destruct (numberToString_plain _ _ Hp) as (i & f & Ei & Hne & _).
    rewrite Ei in E. apply app_eq_nil in E as [E _]. contradiction.
  - apply numberToString_exponent in Hp. rewrite E in Hp. destruct Hp.
Qed.

Lemma dropZeros_split (r : jsstring) :
  exists z, r = repeat 48%N z ++ dropZeros r.
Proof.
  induction r as [|c r [z IH]]; [exists 0; reflexivity|]. cbn [dropZeros].
  destruct (N.eqb_spec c 48) as [->|_].
  - exists (S z). cbn [repeat app]. f_equal. exact IH.
  - exists 0. reflexivity.
Qed.

Lemma rev_zeros (z : nat) : rev (repeat 48%N z) = repeat 48%N z.
Proof.
  induction z as [|z IH]; [reflexivity|]. cbn [repeat rev]. rewrite IH.
  clear IH. induction z as [|z IH]; [reflexivity|].
  cbn [repeat app]. f_equal. exact IH.
Qed.

(** The digits of [m] are its significand followed by zeros. *)
Lemma digitsOf_significand (m : positive) :
  digitsOf m
  = significand m
    ++ zeros (Z.of_nat (List.length (digitsOf m))
              - Z.of_nat (List.length (significand m))).
Proof.
  unfold significand, zeros.
  destruct (dropZeros_split (rev (digitsOf m))) as [z E].
  apply (f_equal (@rev N)) in E.
  rewrite rev_involutive, rev_app_distr, rev_zeros in E.
  rewrite E at 1. f_equal. f_equal.
  rewrite E at 1. rewrite length_app, repeat_length. lia.
Qed.

(** An integer below [10^21] is printed as its decimal numeral. *)
Lemma toString_int (n : Z) :
  plainDecimal (int n) = true -> toString (Num (int n)) = decimal n.
Proof.
  destruct n as [|p|p]; [reflexivity | |]; cbn [int plainDecimal toString];
    intros Hp; apply andb_true_iff in Hp as [_ H21];
    unfold numberToString, pointPosition in *; cbv zeta;
    rewrite H21, andb_true_r;
    (destruct (Z.leb_spec (Z.of_nat (List.length (significand p)))
                          (0 + Z.of_nat (List.length (digitsOf p))))
       as [_|Hlt];
     [ rewrite Z.add_0_l, <- digitsOf_significand; reflexivity
     | exfalso; pose proof (digitsOf_significand p) as E;
       apply (f_equal (@List.length N)) in E;
       rewrite length_app in E; lia ]).
Qed.

(* ================================================================== *)
(** * The primitive operations on a state of known shape *)

Section ShapeOps.

Variables Cfg Nm : Type.
Variable w0 : Widget Cfg Nm.
Hypothesis Hb : built w0.

Local Abbreviation sel := (tagContainerOf (containerElement w0)).
Local Abbreviation marked := (fieldMarked (containerElement w0)).

Lemma shape_value x :
  value (textField (containerElement (shape w0 x))) = Some (dValue x).
Proof. open_state w0 Hb. case_classes; reflexivity. Qed.

Lemma shape_children x :
  children (region sel (containerElement (shape w0 x))) = dChips x.
Proof. open_state w0 Hb. case_classes; reflexivity. Qed.

Lemma shape_display x :
  display (style (region sel (containerElement (shape w0 x)))) = dDisplay x.
Proof. open_state w0 Hb. case_classes; reflexivity. Qed.

Lemma shape_chips x : chips (containerElement (shape w0 x)) = dChips x.
Proof.
  open_state w0 Hb. unfold chips. case_classes;
    rewrite ?app_nil_r; reflexivity.
Qed.

Lemma shape_tagsContainer x :
  sel = TagsContainer ->
  children (tagsContainer (containerElement (shape w0 x))) = dChips x /\
  display (style (tagsContainer (containerElement (shape w0 x)))) = dDisplay x.
Proof.
  open_state w0 Hb. case_classes; try discriminate.
  intros _; split; reflexivity.
Qed.

Lemma shape_tagsContainer_idle x :
  sel = TextField ->
  children (tagsContainer (containerElement (shape w0 x))) = [] /\
  display (style (tagsContainer (containerElement (shape w0 x)))) = js "none".
Proof.
  open_state w0 Hb. case_classes; try discriminate.
  intros _; split; [reflexivity | assumption].
Qed.

Lemma shape_listeners x :
  listeners (textField (containerElement (shape w0 x))) =
  if marked
  then [(Keypress, OnKeypress); (FocusEvent, OnFocus); (BlurEvent, OnBlur)]
  else [].
Proof. open_state w0 Hb. case_classes; reflexivity. Qed.

Lemma shape_wrapperListeners x :
  wrapperListeners (containerElement (shape w0 x)) =
  if marked
  then [(MouseEnter, OnMouseEnter); (MouseLeave, OnMouseLeave)]
  else [].
Proof. open_state w0 Hb. case_classes; reflexivity. Qed.

Lemma shape_focus x :
  fieldHasFocus (containerElement (shape w0 x)) = dFocus x.
Proof. reflexivity. Qed.

Lemma shape_dataFocus x :
  dataFocus (containerElement (shape w0 x)) = dDataFocus x.
Proof. reflexivity. Qed.

Lemma shape_uncaught x : uncaught (containerElement (shape w0 x)) = [].
Proof. reflexivity. Qed.

Lemma shape_query_field x :
  querySelector (ByClass (js "pico-tag-edit")) (containerElement (shape w0 x))
  = if marked then Some TextField else None.
Proof.
  open_state w0 Hb. unfold querySelector, matchesSelector.
  case_classes; reflexivity.
Qed.

Lemma shape_query_container x :
  querySelector (ByClass (js "tags-container"))
                (containerElement (shape w0 x)) = Some sel.
Proof.
  open_state w0 Hb. unfold querySelector, matchesSelector.
  case_classes; reflexivity.
Qed.

Lemma shape_setTargetValue v x :
  setTargetValue (Child TextField) v (shape w0 x)
  = (Done tt, shape w0 (setValue v x)).
Proof.
  open_state w0 Hb. unfold setTargetValue, modifyDom.
  case_classes; reflexivity.
Qed.

Lemma shape_createElement x :
  createElement (shape w0 x)
  = (Done (dNext x), shape w0 (setNext (S (dNext x)) x)).
Proof. reflexivity. Qed.

Lemma shape_setDataFocus s x :
  modifyDom (withDataFocus s) (shape w0 x)
  = (Done tt, shape w0 (setDataFocus s x)).
Proof. reflexivity. Qed.

Lemma shape_setMouseEnter b x :
  setMouseEnter b (shape w0 x) = (Done tt, shape w0 (setMouse b x)).
Proof. reflexivity. Qed.

Lemma shape_setFocus b x :
  modifyDom (withFocus b) (shape w0 x) = (Done tt, shape w0 (setFocus b x)).
Proof. reflexivity. Qed.

Lemma shape_withChildren l x :
  modifyDom (fun d => withRegion sel (withChildren l (region sel d)) d)
            (shape w0 x)
  = (Done tt, shape w0 (setChips l (dDisplay x) x)).
Proof.
  open_state w0 Hb. unfold modifyDom.
  case_classes; reflexivity.
Qed.

Lemma shape_setDisplay s x :
  setDisplay sel s (shape w0 x)
  = (Done tt, shape w0 (setChips (dChips x) s x)).
Proof.
  open_state w0 Hb. unfold setDisplay, modifyDom.
  case_classes; reflexivity.
Qed.

Lemma shape_findChip tag x :
  findChip tag (containerElement (shape w0 x))
  = find (fun t => Nat.eqb (node t) tag) (dChips x).
Proof.
  unfold findChip. fold (chips (containerElement (shape w0 x))).
  rewrite shape_chips. reflexivity.
Qed.

End ShapeOps.

(* ================================================================== *)
(** * Lists of chips *)

Lemma find_node_existsb (tag : nat) (l : list Chip) :
  existsb (fun t => Nat.eqb (node t) tag) l =
  match find (fun t => Nat.eqb (node t) tag) l with
  | Some _ => true
  | None => false
  end.
Proof.
  induction l as [|c l IH]; simpl; [reflexivity|].
  destruct (Nat.eqb (node c) tag); [reflexivity | exact IH].
Qed.

Lemma find_node_In (tag : nat) (l : list Chip) (c : Chip) :
  find (fun t => Nat.eqb (node t) tag) l = Some c -> In c l /\ node c = tag.
Proof.
  intros H. apply find_some in H as [H1 H2].
  split; [assumption | apply Nat.eqb_eq; assumption].
Qed.

Lemma first_chip (l : list Chip) :
  Forall (fun t => chipClass t = [js "pico-tag"]) l ->
  find (fun t => hasClass (js "pico-tag") (chipClass t)) l = hd_error l.
Proof.
  intros H. destruct H as [|c l Hc _]; simpl; [reflexivity|].
  rewrite Hc. reflexivity.
Qed.

Lemma Forall_filter {A} (P : A -> Prop) (f : A -> bool) (l : list A) :
  Forall P l -> Forall P (filter f l).
Proof.
  intros H. apply Forall_forall. intros a Ha.
  apply filter_In in Ha as [Ha _]. revert a Ha. apply Forall_forall, H.
Qed.

Lemma NoDup_map_filter {A B} (g : A -> B) (f : A -> bool) (l : list A) :
  NoDup (map g l) -> NoDup (map g (filter f l)).
Proof.
  induction l as [|a l IH]; simpl; intros H; [constructor|].
  inversion H as [|? ? Hn Hd]; subst.
  destruct (f a); simpl; [constructor|]; auto.
  intros Hin. apply Hn. apply in_map_iff in Hin as (b & Hb & Hin).
  apply filter_In in Hin as [Hin _]. apply in_map_iff. eauto.
Qed.

(* ================================================================== *)
(** * Symbolic execution of the handlers *)

Section MainStates.

Variable w0 : PicoTagEditor.Widget.
Hypothesis Hb : built w0.

Local Abbreviation sel := (tagContainerOf (containerElement w0)).

Lemma main_addTag nm text x :
  PicoTagEditor.addTag nm text (shape w0 x) =
  (Done tt,
   shape w0
     (setChips (dChips x ++ [PicoTagEditor.tagElement (dNext x) nm text sel])
               [] (setNext (S (dNext x)) x))).
Proof.
  open_state w0 Hb. unfold PicoTagEditor.addTag.
  symbolic; reflexivity.
Qed.

Lemma main_exec_simple a x :
  (forall tag, a <> ClickRemove tag) ->
  PicoTagEditor.exec a (shape w0 x) = shape w0 (mainAdvance w0 a x).
Proof.
  intros Ha. unfold mainAdvance, mainChip.
  open_state w0 Hb.
  unfold PicoTagEditor.exec, exec, step.
  destruct a; try (exfalso; eapply Ha; reflexivity);
    unfold PicoTagEditor.runHandler, PicoTagEditor.addTag,
           PicoTagEditor.tagElement;
    symbolic.
  all: try reflexivity.
  all: try (destruct (PicoTagEditor.trimInput _); reflexivity).
Qed.

End MainStates.

Section MainClick.

Variable w0 : PicoTagEditor.Widget.
Hypothesis Hb : built w0.

Local Abbreviation sel := (tagContainerOf (containerElement w0)).

Lemma main_exec_click tag x :
  good w0 x ->
  PicoTagEditor.exec (ClickRemove tag) (shape w0 x)
  = shape w0 (mainAdvance w0 (ClickRemove tag) x).
Proof.
  intros Hg. unfold mainAdvance.
  unfold PicoTagEditor.exec, exec, step, bind at 1, dom, gets.
  rewrite (shape_findChip Hb). cbn [advance].
  rewrite find_node_existsb.
  destruct (find (fun t => Nat.eqb (node t) tag) (dChips x)) as [c|] eqn:Hf;
    [|reflexivity].
  pose proof (find_node_In _ _ Hf) as [Hin Hc].
  assert (Hcl : clickContainer (removeSpan c) = sel).
  { pose proof (good_closure Hg) as H. rewrite Forall_forall in H.
    apply H, Hin. }
  assert (Hm : fieldMarked (containerElement w0) = true).
  { apply (good_marked Hg). intros E. rewrite E in Hin. destruct Hin. }
  assert (Hex : existsb (fun t => Nat.eqb (node t) tag) (dChips x) = true).
  { rewrite find_node_existsb, Hf. reflexivity. }
  pose proof (first_chip (Forall_filter (fun t => negb (Nat.eqb (node t) tag))
                                        (good_class Hg))) as Hq.
  rewrite Hcl. clear Hcl Hg Hf Hin Hc.
  open_state w0 Hb. unfold PicoTagEditor.onRemoveClick, PicoTagEditor.runHandler.
  run_monad.
  destruct (hasClass (js "tags-container") _) eqn:E;
    run_monad; rewrite Hex, Hm; run_monad;
    destruct (dFocus x) eqn:Ef;
    repeat (progress (rewrite ?Hm, ?Ef; run_monad)).
  all: rewrite Hq;
    destruct (filter _ (dChips x)); reflexivity.
Qed.

End MainClick.

(* ================================================================== *)
(** * The invariant is kept *)

Section GoodStates.

Variables Cfg Nm : Type.
Variable w0 : Widget Cfg Nm.
Variable dbg : bool.
Variable newChip : nat -> jsstring -> Chip.

Local Abbreviation sel := (tagContainerOf (containerElement w0)).

Hypothesis newChip_node : forall n v, node (newChip n v) = n.
Hypothesis newChip_class :
  forall n v, chipClass (newChip n v) = [js "pico-tag"].
Hypothesis newChip_closure :
  forall n v, clickContainer (removeSpan (newChip n v)) = sel.

Lemma good_refocus x : good w0 x -> good w0 (refocus w0 x).
Proof.
  unfold refocus. destruct (dFocus x); [trivial|].
  destruct (fieldMarked _); intros [H1 H2 H3 H4 H5 H6 H7]; good_same.
Qed.

Lemma refocus_chips x :
  dChips (refocus w0 x) = dChips x /\ dDisplay (refocus w0 x) = dDisplay x
  /\ dNext (refocus w0 x) = dNext x /\ dValue (refocus w0 x) = dValue x.
Proof.
  unfold refocus. destruct (dFocus x); [auto|].
  destruct (fieldMarked _); auto.
Qed.

Lemma good_advance a x : good w0 x -> good w0 (advance w0 dbg newChip a x).
Proof.
  destruct a; cbn [advance].
  - intros [H1 H2 H3 H4 H5 H6 H7]. good_same.
  - destruct (fieldMarked (containerElement w0)) eqn:Hm;
      cbn [andb]; [|trivial].
    destruct (str_eqb k (js "Enter") && negb (str_eqb (trim (dValue x)) []));
      [|trivial].
    intros [H1 H2 H3 H4 H5 H6 H7].
    constructor; cbn [dChips dNext dDisplay setValue setChips setNext].
    + rewrite map_app. cbn [map]. rewrite newChip_node.
      apply NoDup_app;
        [assumption | constructor; [intros [] | constructor] |].
      intros n Hn [<- | []]. apply in_map_iff in Hn as (t & Ht & Hin).
      rewrite Forall_forall in H2. apply H2 in Hin. lia.
    + apply Forall_app. split.
      * eapply Forall_impl; [|exact H2]. cbn beta.
        intros t Ht. apply Nat.lt_lt_succ_r, Ht.
      * constructor; [|constructor]. rewrite newChip_node.
        apply Nat.lt_succ_diag_r.
    + apply Forall_app. split; [assumption|]. repeat constructor.
      apply newChip_class.
    + apply Forall_app. split; [assumption|]. repeat constructor.
      apply newChip_closure.
    + intros _. exact Hm.
    + reflexivity.
    + intros _ E. apply app_eq_nil in E as [_ E]. discriminate.
  - apply good_refocus.
  - destruct (dFocus x); [|trivial].
    destruct (fieldMarked _); intros [H1 H2 H3 H4 H5 H6 H7]; good_same.
  - destruct (fieldMarked _); [|trivial].
    intros [H1 H2 H3 H4 H5 H6 H7]; good_same.
  - destruct (fieldMarked _); [|trivial].
    intros [H1 H2 H3 H4 H5 H6 H7]; good_same.
  - destruct (existsb _ (dChips x)); [|trivial].
    intros [H1 H2 H3 H4 H5 H6 H7].
    destruct (refocus_chips x) as (Ec & Ed & En & _).
    constructor; cbn [dChips dNext dDisplay setChips].
    + apply NoDup_map_filter, H1.
    + rewrite En. apply Forall_filter, H2.
    + apply Forall_filter, H3.
    + apply Forall_filter, H4.
    + intros Hne. apply H5. intros E. rewrite E in Hne. apply Hne. reflexivity.
    + destruct (filter _ (dChips x)) eqn:Ef; [congruence|]. intros _.
      apply H6. intros E. rewrite E in Ef. discriminate.
    + intros _ ->. reflexivity.
Qed.

Lemma good_advanceAll acts x :
  good w0 x -> good w0 (advanceAll (advance w0 dbg newChip) acts x).
Proof.
  unfold advanceAll. revert x.
  induction acts as [|a acts IH]; intros x Hg; [exact Hg|].
  apply IH, good_advance, Hg.
Qed.

End GoodStates.

Section InitialState.

Variables Cfg Nm : Type.
Variable w0 : Widget Cfg Nm.
Hypothesis Hb : built w0.

Lemma built_initial : w0 = shape w0 (initial w0).
Proof.
  destruct Hb as [[v0 Hv] Hc Hl Hwl (st & Ht & Hst) Hu].
  destruct w0 as [s n me [wc df wl tf tc fh nn un]].
  destruct tf as [tn at_ cl v sty ch ls]. destruct sty.
  unfold fieldMarked, tagContainerOf in *. cbn in Hv, Hc, Hl, Hwl, Ht, Hu.
  subst. destruct st. cbn in Hst. subst.
  unfold shape, initial, dress, tagContainerOf.
  cbn -[hasClass js].
  destruct (hasClass (js "tags-container") cl); reflexivity.
Qed.

Lemma good_initial : good w0 (initial w0).
Proof.
  constructor; cbn [initial dChips dDisplay dNext];
    try (constructor; fail); try congruence.
  intros E _. rewrite E. cbn [region].
  destruct Hb as [_ _ _ _ (st & -> & Hst) _]. exact Hst.
Qed.

End InitialState.

(* ================================================================== *)
(** * The states of a widget made by [src/PicoTagEditor.js] *)

Lemma mainChip_node w0 n v : node (mainChip w0 n v) = n.
Proof. reflexivity. Qed.

Lemma mainChip_class w0 n v : chipClass (mainChip w0 n v) = [js "pico-tag"].
Proof. reflexivity. Qed.

Lemma mainChip_closure w0 n v :
  clickContainer (removeSpan (mainChip w0 n v))
  = tagContainerOf (containerElement w0).
Proof. reflexivity. Qed.

Lemma main_built input options :
  built (snd (PicoTagEditor.construct input options)).
Proof.
  unfold PicoTagEditor.construct, PicoTagEditor.addEvents, PicoTagEditor.init.
  symbolic; cbn [app];
    (constructor; unfold fieldMarked; projections; rewrite ?E;
     try reflexivity; eauto).
Qed.

Section MainRun.

Variable w0 : PicoTagEditor.Widget.
Hypothesis Hb : built w0.

Lemma main_exec a x :
  good w0 x ->
  PicoTagEditor.exec a (shape w0 x) = shape w0 (mainAdvance w0 a x).
Proof.
  intros Hg. destruct a;
    try (apply main_exec_simple; [exact Hb | discriminate]).
  apply main_exec_click; assumption.
Qed.

Lemma main_good a x : good w0 x -> good w0 (mainAdvance w0 a x).
Proof.
  apply good_advance;
    [apply mainChip_node | apply mainChip_class | apply mainChip_closure].
Qed.

Lemma main_run_shape acts x :
  good w0 x ->
  PicoTagEditor.run acts (shape w0 x)
  = shape w0 (advanceAll (mainAdvance w0) acts x)
  /\ good w0 (advanceAll (mainAdvance w0) acts x).
Proof.
  unfold PicoTagEditor.run, run, advanceAll. revert x.
  induction acts as [|a acts IH]; intros x Hg; cbn [fold_left].
  - split; [reflexivity | exact Hg].
  - change (exec PicoTagEditor.runHandler PicoTagEditor.onRemoveClick a
                 (shape w0 x))
      with (PicoTagEditor.exec a (shape w0 x)).
    rewrite (@main_exec a x Hg). apply IH, main_good, Hg.
Qed.

End MainRun.

(** Every state of a widget is of the known shape, and its components are
    those that [mainAdvance] computes. *)
Theorem main_reachable input options acts :
  let w0 := snd (PicoTagEditor.construct input options) in
  let x := advanceAll (mainAdvance w0) acts (initial w0) in
  PicoTagEditor.run acts w0 = shape w0 x /\ good w0 x.
Proof.
  intros w0 x. pose proof (main_built input options) as Hb. fold w0 in Hb.
  pose proof (main_run_shape Hb acts (good_initial Hb)) as H.
  rewrite <- (built_initial Hb) in H. exact H.
Qed.

(* ================================================================== *)
(** * The states of a widget made by the older copy *)

Section OldStates.

Variable w0 : Part000.Widget.
Hypothesis Hb : built w0.

Local Abbreviation sel := (tagContainerOf (containerElement w0)).

Lemma old_exec_simple a x :
  (forall tag, a <> ClickRemove tag) ->
  Part000.exec a (shape w0 x) = shape w0 (oldAdvance w0 a x).
Proof.
  intros Ha. unfold oldAdvance, oldChip.
  open_state w0 Hb.
  unfold Part000.exec, exec, step.
  destruct a; try (exfalso; eapply Ha; reflexivity);
    unfold Part000.runHandler, Part000.addTag, Part000.tagElement;
    symbolic; reflexivity.
Qed.

Hypothesis Ht : textInput (containerElement w0).

Lemma old_exec_click tag x :
  good w0 x ->
  Part000.exec (ClickRemove tag) (shape w0 x)
  = shape w0 (oldAdvance w0 (ClickRemove tag) x).
Proof.
  intros Hg. unfold oldAdvance.
  unfold Part000.exec, exec, step, bind at 1, dom, gets.
  rewrite (shape_findChip Hb). cbn [advance].
  rewrite find_node_existsb.
  destruct (find (fun t => Nat.eqb (node t) tag) (dChips x)) as [c|] eqn:Hf;
    [|reflexivity].
  pose proof (find_node_In _ _ Hf) as [Hin Hc].
  assert (Hcl : clickContainer (removeSpan c) = sel).
  { pose proof (good_closure Hg) as H. rewrite Forall_forall in H.
    apply H, Hin. }
  assert (Hex : existsb (fun t => Nat.eqb (node t) tag) (dChips x) = true).
  { rewrite find_node_existsb, Hf. reflexivity. }
  pose proof (first_chip (Forall_filter (fun t => negb (Nat.eqb (node t) tag))
                                        (good_class Hg))) as Hq.
  rewrite Hcl. clear Hcl Hg Hf Hin Hc. unfold textInput in Ht.
  open_state w0 Hb. unfold Part000.onRemoveClick, Part000.runHandler.
  unfold matchesSelector in Ht. projections.
  run_monad.
  destruct (hasClass (js "tags-container") _) eqn:E;
    destruct (hasClass (js "pico-tag-edit") _) eqn:Hm;
    run_monad; rewrite Hex; run_monad; rewrite Ht; run_monad;
    destruct (dFocus x) eqn:Ef;
    repeat (progress (rewrite ?Hm, ?Ef; run_monad)).
  all: rewrite Hq;
    destruct (filter _ (dChips x)); reflexivity.
Qed.

End OldStates.

Lemma oldChip_node w0 n v : node (oldChip w0 n v) = n.
Proof. reflexivity. Qed.

Lemma oldChip_class w0 n v : chipClass (oldChip w0 n v) = [js "pico-tag"].
Proof. reflexivity. Qed.

Lemma oldChip_closure w0 n v :
  clickContainer (removeSpan (oldChip w0 n v))
  = tagContainerOf (containerElement w0).
Proof. reflexivity. Qed.

Lemma old_built input options :
  built (snd (Part000.construct input options)).
Proof.
  unfold Part000.construct, Part000.addEvent, Part000.init.
  destruct (classAttr input) as [cl|].
  - symbolic; cbn [app];
      (constructor; unfold fieldMarked; projections; rewrite ?E;
       try reflexivity; eauto).
  - run_monad.
    change (hasClass (js "pico-tag-edit") [js "null"]) with false.
    run_monad.
    constructor; unfold fieldMarked; projections;
      try reflexivity; eauto.
Qed.

Lemma old_textInput input options :
  textInput (containerElement (snd (Part000.construct input options))).
Proof.
  unfold textInput, Part000.construct, Part000.addEvent, Part000.init.
  destruct (classAttr input) as [cl|].
  - repeat (run_monad; case_step); run_monad; reflexivity.
  - run_monad.
    change (hasClass (js "pico-tag-edit") [js "null"]) with false.
    run_monad. reflexivity.
Qed.

Section OldRun.

Variable w0 : Part000.Widget.
Hypothesis Hb : built w0.
Hypothesis Ht : textInput (containerElement w0).

Lemma old_exec a x :
  good w0 x ->
  Part000.exec a (shape w0 x) = shape w0 (oldAdvance w0 a x).
Proof.
  intros Hg. destruct a;
    try (apply old_exec_simple; [exact Hb | discriminate]).
  apply old_exec_click; assumption.
Qed.

Lemma old_good a x : good w0 x -> good w0 (oldAdvance w0 a x).
Proof.
  apply good_advance;
    [apply oldChip_node | apply oldChip_class | apply oldChip_closure].
Qed.

Lemma old_run_shape acts x :
  good w0 x ->
  Part000.run acts (shape w0 x)
  = shape w0 (advanceAll (oldAdvance w0) acts x)
  /\ good w0 (advanceAll (oldAdvance w0) acts x).
Proof.
  unfold Part000.run, run, advanceAll. revert x.
  induction acts as [|a acts IH]; intros x Hg; cbn [fold_left].
  - split; [reflexivity | exact Hg].
  - change (exec Part000.runHandler Part000.onRemoveClick a (shape w0 x))
      with (Part000.exec a (shape w0 x)).
    rewrite (@old_exec a x Hg). apply IH, old_good, Hg.
Qed.

End OldRun.

Theorem old_reachable input options acts :
  let w0 := snd (Part000.construct input options) in
  let x := advanceAll (oldAdvance w0) acts (initial w0) in
  Part000.run acts w0 = shape w0 x /\ good w0 x.
Proof.
  intros w0 x. pose proof (old_built input options) as Hb. fold w0 in Hb.
  pose proof (old_textInput input options) as Ht. fold w0 in Ht.
  pose proof (old_run_shape Hb Ht acts (good_initial Hb)) as H.
  rewrite <- (built_initial Hb) in H. exact H.
Qed.

(* ================================================================== *)
(** * Facts about reachable states, ready for use *)

Lemma main_picked input options :
  fieldMarked (containerElement (snd (PicoTagEditor.construct input options)))
  = picked input.
Proof.
  unfold PicoTagEditor.construct, PicoTagEditor.addEvents, PicoTagEditor.init,
         picked.
  symbolic; rewrite ?E; reflexivity.
Qed.

Lemma main_settings input options :
  settings (snd (PicoTagEditor.construct input options))
  = PicoTagEditor.mergeSettings options.
Proof.
  unfold PicoTagEditor.construct, PicoTagEditor.addEvents, PicoTagEditor.init.
  symbolic; reflexivity.
Qed.

Lemma main_name input options :
  name (snd (PicoTagEditor.construct input options)) = [].
Proof.
  unfold PicoTagEditor.construct, PicoTagEditor.addEvents, PicoTagEditor.init.
  symbolic; reflexivity.
Qed.

Lemma shape_known {Cfg Nm} (w0 : Widget Cfg Nm) (x : Dyn) :
  built w0 -> good w0 x -> known w0 (shape w0 x) x.
Proof.
  intros Hb Hg.
  constructor; try reflexivity; try assumption.
  - apply (shape_value Hb).
  - apply (shape_chips Hb).
  - unfold tagList. destruct (tagContainerOf (containerElement w0)) eqn:E.
    + apply (shape_tagsContainer_idle Hb x E).
    + apply (shape_tagsContainer Hb x E).
  - destruct (tagContainerOf (containerElement w0)) eqn:E.
    + apply (shape_tagsContainer_idle Hb x E).
    + apply (shape_tagsContainer Hb x E).
Qed.

Lemma known_visibility {Cfg Nm} (w0 w : Widget Cfg Nm) (x : Dyn) :
  known w0 w x -> (tagListHidden w <-> tagList w = []).
Proof.
  intros K. unfold tagListHidden, hidden.
  rewrite (known_display K), (known_tagList K).
  destruct (tagContainerOf (containerElement w0)) eqn:E; [tauto|].
  split.
  - intros Hd. destruct (dChips x) eqn:Ec; [reflexivity|].
    rewrite (good_visible (known_good K)) in Hd; [discriminate|].
    rewrite Ec. discriminate.
  - apply (good_hidden (known_good K) E).
Qed.

Lemma main_known input options acts :
  let w0 := snd (PicoTagEditor.construct input options) in
  known w0 (mainState input options acts)
        (advanceAll (mainAdvance w0) acts (initial w0)).
Proof.
  intros w0. destruct (main_reachable input options acts) as [Hs Hg].
  fold w0 in Hs, Hg. unfold mainState. fold w0. rewrite Hs.
  apply shape_known; [apply main_built | exact Hg].
Qed.

Lemma old_known input options acts :
  let w0 := snd (Part000.construct input options) in
  known w0 (oldState input options acts)
        (advanceAll (oldAdvance w0) acts (initial w0)).
Proof.
  intros w0. destruct (old_reachable input options acts) as [Hs Hg].
  fold w0 in Hs, Hg. unfold oldState. fold w0. rewrite Hs.
  apply shape_known; [apply old_built | exact Hg].
Qed.

Lemma main_exec_known (w0 w : PicoTagEditor.Widget) (x : Dyn) (a : Action) :
  known w0 w x ->
  known w0 (PicoTagEditor.exec a w) (mainAdvance w0 a x).
Proof.
  intros K. rewrite (known_shape K).
  rewrite (main_exec (known_built K) a (known_good K)).
  apply shape_known; [exact (known_built K)|].
  apply main_good, (known_good K).
Qed.

Lemma old_exec_known (w0 w : Part000.Widget) (x : Dyn) (a : Action) :
  textInput (containerElement w0) ->
  known w0 w x ->
  known w0 (Part000.exec a w) (oldAdvance w0 a x).
Proof.
  intros Ht K. rewrite (known_shape K).
  rewrite (old_exec (known_built K) Ht a (known_good K)).
  apply shape_known; [exact (known_built K)|].
  apply old_good, (known_good K).
Qed.

(* ================================================================== *)
(** * Helper facts for the claims *)

Lemma enter_commits (b : bool) (k v : jsstring) :
  b = true -> k = js "Enter" -> trim v <> [] ->
  b && str_eqb k (js "Enter") && negb (str_eqb (trim v) []) = true.
Proof.
  intros -> -> Hv. rewrite str_eqb_refl.
  apply str_eqb_neq in Hv. rewrite Hv. reflexivity.
Qed.

Lemma enter_rejects (b : bool) (k v : jsstring) :
  trim v = [] ->
  b && str_eqb k (js "Enter") && negb (str_eqb (trim v) []) = false.
Proof.
  intros ->. cbn [str_eqb negb]. rewrite andb_false_r. reflexivity.
Qed.

Lemma known_fieldValue {Cfg Nm} (w0 w : Widget Cfg Nm) (x : Dyn) (v : jsstring) :
  known w0 w x -> fieldValue w = Some v -> dValue x = v.
Proof. intros K H. rewrite (known_value K) in H. congruence. Qed.

Lemma refocus_focus {Cfg Nm} (w0 : Widget Cfg Nm) (x : Dyn) :
  dFocus (refocus w0 x) = true.
Proof.
  unfold refocus. destruct (dFocus x) eqn:E; [exact E|].
  destruct (fieldMarked _); reflexivity.
Qed.

Lemma In_existsb_node (c : Chip) (l : list Chip) :
  In c l -> existsb (fun t => Nat.eqb (node t) (node c)) l = true.
Proof.
  intros H. apply existsb_exists. exists c. split; [exact H|].
  apply Nat.eqb_refl.
Qed.

Lemma filter_unique_node (c : Chip) (l1 l2 : list Chip) :
  NoDup (map node (l1 ++ c :: l2)) ->
  filter (fun t => negb (Nat.eqb (node t) (node c))) (l1 ++ c :: l2)
  = l1 ++ l2.
Proof.
  intros H. rewrite filter_app. cbn [filter]. rewrite Nat.eqb_refl.
  cbn [negb]. rewrite map_app in H. cbn [map] in H.
  pose proof (NoDup_remove_2 _ _ _ H) as Hn.
  assert (keep : forall l, ~ In (node c) (map node l) ->
                 filter (fun t => negb (Nat.eqb (node t) (node c))) l = l).
  { induction l as [|a l IH]; intros Hl; [reflexivity|]. cbn [filter].
    destruct (Nat.eqb (node a) (node c)) eqn:E.
    - exfalso. apply Hl. left. apply Nat.eqb_eq, E.
    - cbn [negb]. f_equal. apply IH. intros Hi. apply Hl. right. exact Hi. }
  rewrite !keep; [reflexivity | |];
    intros Hi; apply Hn, in_or_app; [right | left]; exact Hi.
Qed.

(** The chips of the tag list after a click on the remove control of one of
    them. *)
Lemma remove_known {Cfg Nm} (w0 w w' : Widget Cfg Nm) (x : Dyn)
      (dbg : bool) (newChip : nat -> jsstring -> Chip) (c : Chip) :
  known w0 w x ->
  known w0 w' (advance w0 dbg newChip (ClickRemove (node c)) x) ->
  In c (tagList w) ->
  tagList w' = filter (fun t => negb (Nat.eqb (node t) (node c))) (tagList w)
  /\ fieldHasFocus (containerElement w') = true
  /\ fieldValue w' = fieldValue w
  /\ uncaught (containerElement w') = [].
Proof.
  intros K K' Hin.
  rewrite (known_tagList K) in Hin.
  rewrite (known_tagList K'), (known_tagList K), (known_focus K'),
          (known_value K'), (known_value K), (known_uncaught K').
  destruct (tagContainerOf (containerElement w0)); [destruct Hin|].
  cbn [advance]. rewrite (In_existsb_node _ _ Hin).
  cbn [dChips dFocus dValue setChips]. rewrite refocus_focus.
  destruct (refocus_chips w0 x) as (_ & _ & _ & ->).
  repeat split; reflexivity.
Qed.

(* ================================================================== *)
(** * The claims *)

(** C1. In [src/PicoTagEditor.js], a keypress of Enter on the text field of a
    widget built over an [input.pico-tag-edit], while the field reads a
    value [v] that is not all whitespace, appends exactly one chip to the
    chips of the widget; its text and the value of its hidden field are [v],
    trimmed if and only if [trimInput] is set; and the field is empty
    afterwards. *)
Theorem C1_enter_commits_one_chip :
  forall input options acts v,
    picked input = true ->
    let w := mainState input options acts in
    fieldValue w = Some v ->
    trim v <> [] ->
    let w' := PicoTagEditor.exec (KeyPress (js "Enter")) w in
    let text :=
      if PicoTagEditor.trimInput (settings w) then trim v else v in
    exists chip,
      chips (containerElement w') = chips (containerElement w) ++ [chip] /\
      textContent chip = text /\
      hiddenValue (hiddenInput chip) = text /\
      fieldValue w' = Some [].
Proof.
  intros input options acts v Hp w Hv Hne w' text.
  pose proof (main_known input options acts) as K. cbv zeta in K.
  set (w0 := snd (PicoTagEditor.construct input options)) in *.
  set (x := advanceAll (mainAdvance w0) acts (initial w0)) in *.
  fold w in K.
  pose proof (known_fieldValue K Hv) as Ev.
  assert (Hm : fieldMarked (containerElement w0) = true).
  { unfold w0. rewrite main_picked. exact Hp. }
  pose proof (main_exec_known (KeyPress (js "Enter")) K) as K'.
  fold w' in K'. unfold mainAdvance in K'. cbn [advance] in K'.
  rewrite enter_commits in K';
    [ | exact Hm | reflexivity | rewrite Ev; exact Hne ].
  exists (mainChip w0 (dNext x) (dValue x)).
  rewrite (known_chips K'), (known_chips K), (known_value K').
  subst text. rewrite (known_settings K), Ev.
  repeat split; reflexivity.
Qed.

(** C4. In every state of a widget, a click on the remove control of a chip
    of the tag list takes that chip (and no other) out of the list, leaves
    the text field focused, and leaves the tag list hidden if and only if
    it is empty afterwards; no error escapes. *)
Theorem C4_remove_control :
  forall input options acts c,
    let w := mainState input options acts in
    In c (tagList w) ->
    let w' := PicoTagEditor.exec (ClickRemove (node c)) w in
    tagList w'
    = filter (fun t => negb (Nat.eqb (node t) (node c))) (tagList w) /\
    ~ In c (tagList w') /\
    fieldHasFocus (containerElement w') = true /\
    (tagListHidden w' <-> tagList w' = []) /\
    uncaught (containerElement w') = [].
Proof.
  intros input options acts c w Hin w'.
  pose proof (main_known input options acts) as K. cbv zeta in K. fold w in K.
  pose proof (main_exec_known (ClickRemove (node c)) K) as K'. fold w' in K'.
  unfold mainAdvance in K'.
  destruct (@remove_known _ _ _ _ _ _ _ _ c K K' Hin) as (Hl & Hf & _ & Hu).
  repeat split; try assumption.
  - rewrite Hl. intros Hc. apply filter_In in Hc as [_ Hc].
    rewrite Nat.eqb_refl in Hc. discriminate.
  - apply (known_visibility K').
  - apply (known_visibility K').
Qed.

(** C5. In every state of a widget (after construction and after any
    sequence of user actions) the tag list is hidden ([display: none])
    exactly when it holds no chip; when it holds one, [display] is the empty
    string. *)
Theorem C5_hidden_iff_empty :
  forall input options acts,
    let w := mainState input options acts in
    (tagListHidden w <-> tagList w = []) /\
    (tagList w <> [] ->
     display (style (tagsContainer (containerElement w))) = []).
Proof.
  intros input options acts w.
  pose proof (main_known input options acts) as K. cbv zeta in K. fold w in K.
  split; [apply (known_visibility K)|].
  rewrite (known_display K), (known_tagList K).
  destruct (tagContainerOf _); [congruence|].
  apply (good_visible (known_good K)).
Qed.

(** C6. A keypress of Enter while the text field is empty or holds only
    whitespace changes nothing: the state of the widget afterwards is the
    state before, so there is no new chip, no new hidden field and no change
    of visibility. *)
Theorem C6_blank_enter_rejected :
  forall input options acts v,
    let w := mainState input options acts in
    fieldValue w = Some v ->
    trim v = [] ->
    PicoTagEditor.exec (KeyPress (js "Enter")) w = w.
Proof.
  intros input options acts v w Hv Hb.
  pose proof (main_known input options acts) as K. cbv zeta in K. fold w in K.
  set (w0 := snd (PicoTagEditor.construct input options)) in *.
  set (x := advanceAll (mainAdvance w0) acts (initial w0)) in *.
  pose proof (known_fieldValue K Hv) as Ev.
  rewrite (known_shape K) at 1.
  rewrite (main_exec (known_built K) _ (known_good K)).
  unfold mainAdvance. cbn [advance].
  rewrite enter_rejects; [|rewrite Ev; exact Hb].
  symmetry. apply (known_shape K).
Qed.

(** C10. A click on the remove control of a chip takes the chip out of the
    tag list together with the hidden field it holds; the chips before and
    after it stay as they were, with their text and hidden fields, and so
    does the value of the text field. *)
Theorem C10_remove_frame :
  forall input options acts l1 c l2,
    let w := mainState input options acts in
    tagList w = l1 ++ c :: l2 ->
    let w' := PicoTagEditor.exec (ClickRemove (node c)) w in
    tagList w' = l1 ++ l2 /\
    map hiddenInput (tagList w') = map hiddenInput l1 ++ map hiddenInput l2 /\
    fieldValue w' = fieldValue w.
Proof.
  intros input options acts l1 c l2 w Hl w'.
  pose proof (main_known input options acts) as K. cbv zeta in K. fold w in K.
  pose proof (main_exec_known (ClickRemove (node c)) K) as K'. fold w' in K'.
  assert (Hin : In c (tagList w)).
  { rewrite Hl. apply in_or_app. right. left. reflexivity. }
  unfold mainAdvance in K'.
  destruct (@remove_known _ _ _ _ _ _ _ _ c K K' Hin) as (Hf & _ & Hv & _).
  assert (Hnd : NoDup (map node (tagList w))).
  { rewrite (known_tagList K) in Hin |- *.
    destruct (tagContainerOf _); [destruct Hin|].
    apply (good_nodup (known_good K)). }
  rewrite Hl in Hf, Hnd. rewrite (filter_unique_node _ _ _ Hnd) in Hf.
  rewrite Hf, map_app. auto.
Qed.

Section MainDispatch.

Variable w0 : PicoTagEditor.Widget.
Hypothesis Hb : built w0.

Lemma main_dispatch_focus x :
  dispatchEvent PicoTagEditor.runHandler (Child TextField)
                (plainEvent FocusEvent) (shape w0 x)
  = (Done tt,
     shape w0 (if fieldMarked (containerElement w0)
               then setDataFocus (js "true") x else x)).
Proof.
  open_state w0 Hb. unfold PicoTagEditor.runHandler.
  symbolic; reflexivity.
Qed.

Lemma main_dispatch_blur x :
  dispatchEvent PicoTagEditor.runHandler (Child TextField)
                (plainEvent BlurEvent) (shape w0 x)
  = (Done tt,
     shape w0 (if fieldMarked (containerElement w0)
               then setDataFocus
                      (if PicoTagEditor.debug (settings w0) || dMouse x
                       then js "true" else js "false") x
               else x)).
Proof.
  open_state w0 Hb. unfold PicoTagEditor.runHandler.
  symbolic; reflexivity.
Qed.

End MainDispatch.

(** C8. On a widget built over an [input.pico-tag-edit], a focus event on
    the text field sets the wrapper's [data-focus] attribute to ["true"]; a
    blur event sets it to ["true"] when [debug] is set or the pointer is
    over the wrapper ([mouseEnter]), and to ["false"] otherwise. *)
Theorem C8_focus_attribute :
  forall input options acts,
    picked input = true ->
    let w := mainState input options acts in
    let after ty :=
      snd (dispatchEvent PicoTagEditor.runHandler (Child TextField)
                         (plainEvent ty) w) in
    dataFocus (containerElement (after FocusEvent)) = Some (js "true") /\
    dataFocus (containerElement (after BlurEvent))
    = Some (if PicoTagEditor.debug (settings w) || mouseEnter w
            then js "true" else js "false").
Proof.
  intros input options acts Hp w after.
  pose proof (main_known input options acts) as K. cbv zeta in K. fold w in K.
  set (w0 := snd (PicoTagEditor.construct input options)) in *.
  assert (Hm : fieldMarked (containerElement w0) = true).
  { unfold w0. rewrite main_picked. exact Hp. }
  subst after. cbv beta.
  rewrite (known_settings K), (known_mouse K), (known_shape K).
  rewrite (main_dispatch_focus (known_built K)),
          (main_dispatch_blur (known_built K)), Hm.
  split; reflexivity.
Qed.

(** C9. When the query for [.pico-tag-edit] inside the wrapper finds no
    element, [addEvents] of [src/PicoTagEditor.js] returns normally and
    leaves the widget as it was, with no listener attached, whereas
    [addEvent] of the older copy, which calls [addEventListener] on the
    result unguarded, throws a [TypeError] (and attaches nothing either). *)
Theorem C9_missing_field_guard :
  forall (w : PicoTagEditor.Widget) (w' : Part000.Widget),
    querySelector (ByClass (js "pico-tag-edit")) (containerElement w) = None ->
    querySelector (ByClass (js "pico-tag-edit")) (containerElement w') = None ->
    PicoTagEditor.addEvents w = (Done tt, w) /\
    Part000.addEvent w' = (Throw TypeError, w').
Proof.
  intros w w' H H'.
  unfold PicoTagEditor.addEvents, Part000.addEvent, bind, dom, gets, deref.
  rewrite H, H'. split; reflexivity.
Qed.

(* ================================================================== *)
(** * Names of the hidden fields *)

Section ChipsMade.

Variables Cfg Nm : Type.
Variable w0 : Widget Cfg Nm.
Variable dbg : bool.
Variable newChip : nat -> jsstring -> Chip.
Variable P : Chip -> Prop.
Hypothesis P_new : forall n v, P (newChip n v).

Lemma advance_chips a x :
  Forall P (dChips x) -> Forall P (dChips (advance w0 dbg newChip a x)).
Proof.
  intros H. destruct a; cbn [advance];
    repeat match goal with
           | |- context [if ?b then _ else _] =>
               match type of b with bool => destruct b end
           end;
    dyn_simpl; rewrite ?(proj1 (refocus_chips w0 x)); try assumption.
  - apply Forall_app. split; [assumption | repeat constructor; apply P_new].
  - apply Forall_filter, H.
Qed.

Lemma advanceAll_chips acts x :
  Forall P (dChips x) ->
  Forall P (dChips (advanceAll (advance w0 dbg newChip) acts x)).
Proof.
  unfold advanceAll. revert x.
  induction acts as [|a acts IH]; intros x H; [exact H|].
  cbn [fold_left]. apply IH, advance_chips, H.
Qed.

End ChipsMade.

(** X2. In [src/PicoTagEditor.js] nothing assigns [this.name]; every hidden
    field of every widget is named ["[]"], whatever the name of the source
    input. *)
Lemma main_hidden_names input options acts c :
  In c (chips (containerElement (mainState input options acts))) ->
  hiddenName (hiddenInput c) = js "[]".
Proof.
  pose proof (main_known input options acts) as K. cbv zeta in K.
  rewrite (known_chips K). revert c. apply Forall_forall.
  apply advanceAll_chips; [|constructor].
  intros n v. unfold mainChip. rewrite main_name. reflexivity.
Qed.

Lemma old_name input options :
  name (snd (Part000.construct input options))
  = getAttribute (js "name") (srcAttributes input).
Proof.
  unfold Part000.construct, Part000.addEvent, Part000.init.
  destruct (classAttr input) as [cl|].
  - repeat (run_monad; case_step); run_monad; reflexivity.
  - run_monad.
    change (hasClass (js "pico-tag-edit") [js "null"]) with false.
    run_monad. reflexivity.
Qed.

(** X3. In the older copy every hidden field is named after the source
    input, with ["[]"] appended. *)
Lemma old_hidden_names input options acts c nm :
  getAttribute (js "name") (srcAttributes input) = Some nm ->
  In c (chips (containerElement (oldState input options acts))) ->
  hiddenName (hiddenInput c) = nm ++ js "[]".
Proof.
  intros Hn.
  pose proof (old_known input options acts) as K. cbv zeta in K.
  rewrite (known_chips K). revert c. apply Forall_forall.
  apply advanceAll_chips; [|constructor].
  intros n v. unfold oldChip. rewrite old_name, Hn. reflexivity.
Qed.

(** C2. Evaluation of [src/PicoTagEditor.js] on an [input.pico-tag-edit]
    named ["tags"], after ["red"] and ["blue"] are committed with Enter:
    the two hidden fields hold ["red"] and ["blue"] but are named ["[]"],
    not ["tags[]"]. *)
Theorem C2_main_hidden_fields_unnamed :
  hiddenFields (mainState tagsInput None redThenBlue)
  = [(js "[]", js "red"); (js "[]", js "blue")].
Proof. vm_compute. reflexivity. Qed.

(** The older copy on the same input does what C2 says. *)
Lemma old_hidden_fields_named :
  hiddenFields (oldState tagsInput None redThenBlue)
  = [(js "tags[]", js "red"); (js "tags[]", js "blue")].
Proof. vm_compute. reflexivity. Qed.

Lemma endsWith_brackets (name : jsstring) :
  endsWith name (js "[]") = true -> In 91%N name.
Proof.
  unfold endsWith. intros H. apply in_rev.
  change (rev (js "[]")) with [93%N; 91%N] in H.
  destruct (rev name) as [|a [|b l]]; cbn [startsWith] in H;
    try discriminate.
  - rewrite andb_false_r in H. discriminate.
  - apply andb_true_iff in H as [_ H]. apply andb_true_iff in H as [H _].
    apply N.eqb_eq in H. subst b. right. left. reflexivity.
Qed.

Lemma hiddenFieldName_cases (name : jsstring) :
  (In 91%N name -> PicoTagEditor.hiddenFieldName name = name) /\
  (~ In 91%N name -> PicoTagEditor.hiddenFieldName name = name ++ js "[]").
Proof.
  unfold PicoTagEditor.hiddenFieldName.
  change (js "[") with [91%N].
  destruct (includes name [91%N]) eqn:E; cbn [negb].
  - split; [reflexivity|]. intros H. apply includes_char in E. tauto.
  - split; [|reflexivity]. intros H. apply includes_char in H. congruence.
Qed.

(** C3, as the code has it. In [src/PicoTagEditor.js], [addTag(name, text)]
    on any state of a widget returns normally and appends one chip, whose
    hidden field has the value [text] and the name [name] itself when
    [name] contains the character ['['] anywhere, [name + "[]"] when it
    contains none; in particular a name that ends in ["[]"] is kept as it
    is. *)
Theorem C3_hidden_field_name :
  forall input options acts name text,
    let w := mainState input options acts in
    let r := PicoTagEditor.addTag name text w in
    fst r = Done tt /\
    exists chip,
      chips (containerElement (snd r)) = chips (containerElement w) ++ [chip] /\
      hiddenValue (hiddenInput chip) = text /\
      (In 91%N name -> hiddenName (hiddenInput chip) = name) /\
      (~ In 91%N name -> hiddenName (hiddenInput chip) = name ++ js "[]") /\
      (endsWith name (js "[]") = true ->
       hiddenName (hiddenInput chip) = name).
Proof.
  intros input options acts name text w r.
  pose proof (main_known input options acts) as K. cbv zeta in K. fold w in K.
  assert (E : r = PicoTagEditor.addTag name text (shape _ _))
    by (unfold r; rewrite <- (known_shape K); reflexivity).
  rewrite (main_addTag (known_built K)) in E. rewrite E. cbn [fst snd].
  split; [reflexivity|].
  eexists. rewrite (shape_chips (known_built K)), (known_chips K).
  cbn [dChips setChips].
  split; [reflexivity|]. split; [reflexivity|].
  cbn [PicoTagEditor.tagElement hiddenInput hiddenName].
  destruct (hiddenFieldName_cases name) as [H1 H2].
  repeat split; try assumption.
  intros H. apply H1, endsWith_brackets, H.
Qed.

(** C3 as stated fails on a name with an index: for ["tags[0]"], which does
    not end in ["[]"], the hidden field is named ["tags[0]"] and not
    ["tags[0][]"]. *)
Lemma C3_counterexample :
  let w := snd (PicoTagEditor.addTag (js "tags[0]") (js "red")
                                     (mainState tagsInput None [])) in
  exists chip,
    tagList w = [chip] /\
    hiddenName (hiddenInput chip) = js "tags[0]" /\
    hiddenName (hiddenInput chip) <> suffixedOnce (js "tags[0]").
Proof.
  eexists. split; [vm_compute; reflexivity|].
  split; [reflexivity | vm_compute; discriminate].
Qed.

(** X4. [addTag(name, text)] of the older copy appends ["[]"] to every name,
    also to one that has it. *)
Lemma old_addTag_name input options acts name text :
  let w := oldState input options acts in
  let r := Part000.addTag name text w in
  fst r = Done tt /\
  exists chip,
    chips (containerElement (snd r)) = chips (containerElement w) ++ [chip] /\
    hiddenValue (hiddenInput chip) = text /\
    hiddenName (hiddenInput chip) = nullableToString name ++ js "[]".
Proof.
  intros w r.
  pose proof (old_known input options acts) as K. cbv zeta in K. fold w in K.
  set (w0 := snd (Part000.construct input options)) in *.
  set (x := advanceAll (oldAdvance w0) acts (initial w0)) in *.
  assert (E0 : r = Part000.addTag name text (shape w0 x))
    by (unfold r; rewrite <- (known_shape K); reflexivity).
  assert (E : Part000.addTag name text (shape w0 x) =
          (Done tt,
           shape w0
             (setChips (dChips x ++
                        [Part000.tagElement (dNext x) name text
                           (tagContainerOf (containerElement w0))])
                       [] (setNext (S (dNext x)) x)))).
  { pose proof (known_built K) as Hb. clear E0. clearbody w0 x.
    clear K r w.
    open_state w0 Hb. unfold Part000.addTag. symbolic; reflexivity. }
  rewrite E0, E. cbn [fst snd]. split; [reflexivity|].
  eexists. rewrite (shape_chips (known_built K)), (known_chips K).
  cbn [dChips setChips]. repeat split; reflexivity.
Qed.

(* ================================================================== *)
(** * Dimensions *)

Lemma isNumber_decimalNumeral (v : JsValue) :
  PicoTagEditor.isNumber v = true <-> decimalNumeral (toString v).
Proof. apply test_numberPattern. Qed.

Lemma isNumber_Num (x : JsNumber) :
  PicoTagEditor.isNumber (Num x) = plainDecimal x.
Proof. apply test_number. Qed.

Lemma decimalNumeral_nonempty (s : jsstring) : decimalNumeral s -> s <> [].
Proof.
  intros (sign & int & frac & -> & _ & Hne & _) E.
  apply app_eq_nil in E as [_ E]. apply app_eq_nil in E as [E _].
  contradiction.
Qed.

Lemma main_style input options :
  style (tagsContainer
           (containerElement (snd (PicoTagEditor.construct input options))))
  = style (tagsContainer
             (containerElement
                (PicoTagEditor.init (PicoTagEditor.mergeSettings options)
                                    input))).
Proof.
  unfold PicoTagEditor.construct, PicoTagEditor.addEvents,
         PicoTagEditor.init.
  symbolic; reflexivity.
Qed.

Lemma init_dimension (d : Dimension) s input :
  assigned d (style (tagsContainer
                       (containerElement (PicoTagEditor.init s input))))
  = if truthy (configured d s)
    then PicoTagEditor.dimension (configured d s) else [].
Proof. destruct d; reflexivity. Qed.

(** C7, as the code has it. For each of [width], [height] and [maxHeight],
    what [init] of [src/PicoTagEditor.js] assigns to the style property of
    the tag list.  Nothing, when the option is falsy: [undefined], [0],
    [NaN] or [''].  For any other number, its string form, followed by
    ["px"] when that form is in plain decimal notation, as it is for every
    finite number of a magnitude from [10^-6] up to [10^21], a fraction
    like [12.5] included, and left as it is otherwise (["1e+21"],
    ["Infinity"]); an integer in that range is written as its decimal
    numeral, and what a positive number in that range gives is a length in
    pixels.  For a string that spells a decimal number (["120"],
    ["-1.5"]), that string followed by ["px"] as well.  For any other
    string, the string unchanged. *)
Theorem C7_dimension_styles :
  forall (d : Dimension) input options,
    let v := configured d (PicoTagEditor.mergeSettings options) in
    let st :=
      style (tagsContainer
               (containerElement
                  (snd (PicoTagEditor.construct input options)))) in
    (truthy v = false -> assigned d st = []) /\
    (forall x, v = Num x -> truthy v = true ->
               assigned d st
               = if plainDecimal x then toString v ++ js "px"
                 else toString v) /\
    (forall n, v = Num (int n) -> n <> 0%Z -> plainDecimal (int n) = true ->
               assigned d st = decimal n ++ js "px") /\
    (forall m e, v = Num (Finite false m e) ->
                 plainDecimal (Finite false m e) = true ->
                 pixelLength (assigned d st)) /\
    (forall str, v = Str str -> decimalNumeral str ->
                 assigned d st = str ++ js "px") /\
    (forall str, v = Str str -> ~ decimalNumeral str ->
                 assigned d st = str).
Proof.
  intros d input options v st. subst st.
  rewrite main_style, init_dimension. fold v.
  unfold PicoTagEditor.dimension. repeat split.
  - intros ->. reflexivity.
  - intros x E Ht. rewrite Ht, E, isNumber_Num. reflexivity.
  - intros n E Hn Hp. rewrite E, isNumber_Num, Hp, (toString_int n Hp).
    destruct n; [contradiction | reflexivity | reflexivity].
  - intros m e E Hp. rewrite E, isNumber_Num, Hp. cbn [truthy toString app].
    exists (numberToString m e).
    split; [apply numberToString_plain, Hp | reflexivity].
  - intros str -> Hd.
    rewrite (proj2 (isNumber_decimalNumeral (Str str)) Hd).
    cbn [truthy toString].
    destruct str; [|reflexivity].
    exfalso. exact (decimalNumeral_nonempty Hd eq_refl).
  - intros str -> Hd. cbn [truthy toString].
    destruct (PicoTagEditor.isNumber (Str str)) eqn:E.
    + apply isNumber_decimalNumeral in E. contradiction.
    + destruct str; reflexivity.
Qed.

(** C7 as stated fails in both halves.  A string that spells a number is
    not passed through: [maxHeight: "120"] becomes ["120px"].  A number
    does not always give a pixel length: [width: 0] assigns nothing and
    [height: 1e21] assigns ["1e+21"]. *)
Lemma C7_counterexample :
  let s := PicoTagEditor.mergeSettings oddlySized in
  let st :=
    style (tagsContainer
             (containerElement
                (snd (PicoTagEditor.construct tagsInput oddlySized)))) in
  configured MaxHeight s = Str (js "120") /\
  assigned MaxHeight st = js "120px" /\
  assigned MaxHeight st <> js "120" /\
  configured Width s = Num (int 0) /\
  assigned Width st = [] /\
  configured Height s = Num (Finite false 1 21) /\
  assigned Height st = js "1e+21".
Proof.
  cbv zeta. split; [reflexivity|]. split; [vm_compute; reflexivity|].
  split; [vm_compute; discriminate|].
  split; [reflexivity|]. split; [vm_compute; reflexivity|].
  split; [reflexivity | vm_compute; reflexivity].
Qed.

(* ================================================================== *)
(** * The same behaviour in the older copy *)

Lemma old_picked input options :
  fieldMarked (containerElement (snd (Part000.construct input options)))
  = picked input.
Proof.
  unfold Part000.construct, Part000.addEvent, Part000.init, picked,
         classTokens.
  destruct (classAttr input) as [cl|].
  - repeat (run_monad; case_step); run_monad; rewrite ?E; reflexivity.
  - run_monad.
    change (hasClass (js "pico-tag-edit") [js "null"]) with false.
    run_monad. reflexivity.
Qed.

Section OldDispatch.

Variable w0 : Part000.Widget.
Hypothesis Hb : built w0.

Lemma old_dispatch_focus x :
  dispatchEvent Part000.runHandler (Child TextField)
                (plainEvent FocusEvent) (shape w0 x)
  = (Done tt,
     shape w0 (if fieldMarked (containerElement w0)
               then setDataFocus (js "true") x else x)).
Proof.
  open_state w0 Hb. unfold Part000.runHandler.
  symbolic; reflexivity.
Qed.

Lemma old_dispatch_blur x :
  dispatchEvent Part000.runHandler (Child TextField)
                (plainEvent BlurEvent) (shape w0 x)
  = (Done tt,
     shape w0 (if fieldMarked (containerElement w0)
               then setDataFocus
                      (if Part000.debug (settings w0) || dMouse x
                       then js "true" else js "false") x
               else x)).
Proof.
  open_state w0 Hb. unfold Part000.runHandler.
  symbolic; reflexivity.
Qed.

End OldDispatch.

(** X1. Commit on Enter in the older copy, which has no [trimInput]: the
    chip carries the value of the field as it is, and the field is cleared. *)
Lemma old_enter_commits_one_chip input options acts v :
  picked input = true ->
  let w := oldState input options acts in
  fieldValue w = Some v ->
  trim v <> [] ->
  let w' := Part000.exec (KeyPress (js "Enter")) w in
  exists chip,
    chips (containerElement w') = chips (containerElement w) ++ [chip] /\
    textContent chip = v /\
    hiddenValue (hiddenInput chip) = v /\
    fieldValue w' = Some [].
Proof.
  intros Hp w Hv Hne w'.
  pose proof (old_known input options acts) as K. cbv zeta in K.
  set (w0 := snd (Part000.construct input options)) in *.
  set (x := advanceAll (oldAdvance w0) acts (initial w0)) in *.
  fold w in K.
  pose proof (known_fieldValue K Hv) as Ev.
  assert (Hm : fieldMarked (containerElement w0) = true).
  { unfold w0. rewrite old_picked. exact Hp. }
  pose proof (old_exec_known (KeyPress (js "Enter"))
                             (old_textInput input options) K) as K'.
  fold w' in K'. unfold oldAdvance in K'. cbn [advance] in K'.
  rewrite enter_commits in K';
    [ | exact Hm | reflexivity | rewrite Ev; exact Hne ].
  exists (oldChip w0 (dNext x) (dValue x)).
  rewrite (known_chips K'), (known_chips K), (known_value K'), Ev.
  repeat split; reflexivity.
Qed.

(** X8. In the older copy too, Enter on an empty or all-whitespace value
    leaves the widget as it was. *)
Lemma old_blank_enter_rejected input options acts v :
  let w := oldState input options acts in
  fieldValue w = Some v ->
  trim v = [] ->
  Part000.exec (KeyPress (js "Enter")) w = w.
Proof.
  intros w Hv Hb.
  pose proof (old_known input options acts) as K. cbv zeta in K. fold w in K.
  set (w0 := snd (Part000.construct input options)) in *.
  set (x := advanceAll (oldAdvance w0) acts (initial w0)) in *.
  pose proof (known_fieldValue K Hv) as Ev.
  rewrite (known_shape K) at 1.
  rewrite (old_exec (known_built K) (old_textInput input options) _
                    (known_good K)).
  unfold oldAdvance. cbn [advance].
  rewrite enter_rejects; [|rewrite Ev; exact Hb].
  symmetry. apply (known_shape K).
Qed.

(** X5. In the older copy too, a click on the remove control of a chip of
    the tag list takes that chip out, focuses the text field, leaves the
    value of the field alone and hides the tag list exactly when it is empty
    afterwards; no error escapes. *)
Lemma old_remove_control input options acts c :
  let w := oldState input options acts in
  In c (tagList w) ->
  let w' := Part000.exec (ClickRemove (node c)) w in
  tagList w'
  = filter (fun t => negb (Nat.eqb (node t) (node c))) (tagList w) /\
  ~ In c (tagList w') /\
  fieldHasFocus (containerElement w') = true /\
  (tagListHidden w' <-> tagList w' = []) /\
  fieldValue w' = fieldValue w /\
  uncaught (containerElement w') = [].
Proof.
  intros w Hin w'.
  pose proof (old_known input options acts) as K. cbv zeta in K. fold w in K.
  pose proof (old_exec_known (ClickRemove (node c))
                             (old_textInput input options) K) as K'.
  fold w' in K'. unfold oldAdvance in K'.
  destruct (@remove_known _ _ _ _ _ _ _ _ c K K' Hin) as (Hl & Hf & Hv & Hu).
  repeat split; try assumption.
  - rewrite Hl. intros Hc. apply filter_In in Hc as [_ Hc].
    rewrite Nat.eqb_refl in Hc. discriminate.
  - apply (known_visibility K').
  - apply (known_visibility K').
Qed.

(** X6. In every state of a widget of the older copy the tag list is hidden
    exactly when it holds no chip. *)
Lemma old_hidden_iff_empty input options acts :
  let w := oldState input options acts in
  tagListHidden w <-> tagList w = [].
Proof.
  intros w. apply (known_visibility (old_known input options acts)).
Qed.

(** X7. The [data-focus] attribute on focus and blur, in the older copy. *)
Lemma old_focus_attribute input options acts :
  picked input = true ->
  let w := oldState input options acts in
  let after ty :=
    snd (dispatchEvent Part000.runHandler (Child TextField)
                       (plainEvent ty) w) in
  dataFocus (containerElement (after FocusEvent)) = Some (js "true") /\
  dataFocus (containerElement (after BlurEvent))
  = Some (if Part000.debug (settings w) || mouseEnter w
          then js "true" else js "false").
Proof.
  intros Hp w after.
  pose proof (old_known input options acts) as K. cbv zeta in K. fold w in K.
  set (w0 := snd (Part000.construct input options)) in *.
  assert (Hm : fieldMarked (containerElement w0) = true).
  { unfold w0. rewrite old_picked. exact Hp. }
  subst after. cbv beta.
  rewrite (known_settings K), (known_mouse K), (known_shape K).
  rewrite (old_dispatch_focus (known_built K)),
          (old_dispatch_blur (known_built K)), Hm.
  split; reflexivity.
Qed.

(** X9. In both copies [isNumber] accepts exactly the values whose string
    form is a decimal numeral: an optional minus sign, one or more digits,
    and optionally a dot followed by one or more digits. *)
Theorem isNumber_accepts_decimal_numerals :
  forall v : JsValue,
    (PicoTagEditor.isNumber v = true <-> decimalNumeral (toString v)) /\
    (Part000.isNumber v = true <-> decimalNumeral (toString v)).
Proof.
  intros v. split; apply test_numberPattern.
Qed.

(** X10. No exception escapes a listener.  Over an [input] element, which
    has a [value] for the keypress listener to read, every state of a widget
    of [src/PicoTagEditor.js] has an empty list of reported errors; the
    older copy makes the text field itself, an [input], so its list is empty
    over any source element. *)
Theorem listeners_never_throw :
  forall input options options' acts,
    (srcTagName input = js "input" ->
     uncaught (containerElement (mainState input options acts)) = []) /\
    uncaught (containerElement (oldState input options' acts)) = [].
Proof.
  intros input options options' acts. split.
  - intros _. apply (known_uncaught (main_known input options acts)).
  - apply (known_uncaught (old_known input options' acts)).
Qed.

(* ================================================================== *)
(** * The claims at concrete inputs *)

(** C1 at work: with [trimInput] set, Enter on the value [" red "] appends
    a chip that reads ["red"], with a hidden field of value ["red"], and
    clears the field. *)
Lemma C1_commit_example :
  let w := mainState tagsInput trimming [TypeText (js " red ")] in
  let w' := PicoTagEditor.exec (KeyPress (js "Enter")) w in
  picked tagsInput = true /\
  fieldValue w = Some (js " red ") /\
  trim (js " red ") <> [] /\
  exists chip,
    chips (containerElement w') = chips (containerElement w) ++ [chip] /\
    textContent chip = js "red" /\
    hiddenValue (hiddenInput chip) = js "red" /\
    fieldValue w' = Some [].
Proof.
  cbv zeta.
  split; [reflexivity|]. split; [reflexivity|].
  split; [vm_compute; discriminate|].
  apply (C1_enter_commits_one_chip tagsInput trimming
           [TypeText (js " red ")] (v := js " red "));
    [reflexivity | reflexivity | vm_compute; discriminate].
Defined.

(** C4 at work: after ["red"] and ["blue"] were committed, a click on the
    remove control of the first chip. *)
Lemma C4_remove_example :
  let w := mainState tagsInput None redThenBlue in
  let w' := PicoTagEditor.exec (ClickRemove (node redChip)) w in
  In redChip (tagList w) /\
  tagList w'
  = filter (fun t => negb (Nat.eqb (node t) (node redChip))) (tagList w) /\
  ~ In redChip (tagList w') /\
  fieldHasFocus (containerElement w') = true /\
  (tagListHidden w' <-> tagList w' = []) /\
  uncaught (containerElement w') = [].
Proof.
  cbv zeta.
  assert (Hin : In redChip (tagList (mainState tagsInput None redThenBlue)))
    by (vm_compute; left; reflexivity).
  split; [exact Hin|].
  apply (C4_remove_control tagsInput None redThenBlue redChip Hin).
Defined.

(** C6 at work: Enter on three spaces. *)
Lemma C6_blank_example :
  let w := mainState tagsInput None [TypeText (js "   ")] in
  fieldValue w = Some (js "   ") /\
  trim (js "   ") = [] /\
  PicoTagEditor.exec (KeyPress (js "Enter")) w = w.
Proof.
  cbv zeta.
  split; [reflexivity|]. split; [reflexivity|].
  apply (C6_blank_enter_rejected tagsInput None [TypeText (js "   ")]
           (v := js "   ")); reflexivity.
Defined.

(** C8 at work: focus and blur while the pointer is over the wrapper. *)
Lemma C8_focus_example :
  let w := mainState tagsInput None [PointerEnter] in
  let after ty :=
    snd (dispatchEvent PicoTagEditor.runHandler (Child TextField)
                       (plainEvent ty) w) in
  picked tagsInput = true /\
  dataFocus (containerElement (after FocusEvent)) = Some (js "true") /\
  dataFocus (containerElement (after BlurEvent))
  = Some (if PicoTagEditor.debug (settings w) || mouseEnter w
          then js "true" else js "false").
Proof.
  cbv zeta.
  split; [reflexivity|].
  apply (C8_focus_attribute tagsInput None [PointerEnter]). reflexivity.
Defined.

(** C9 at work: both copies over an input without the class
    [pico-tag-edit]. *)
Lemma C9_guard_example :
  let w := PicoTagEditor.init (PicoTagEditor.mergeSettings None) plainInput in
  let w' := Part000.init (Part000.mergeSettings None) plainInput in
  querySelector (ByClass (js "pico-tag-edit")) (containerElement w) = None /\
  querySelector (ByClass (js "pico-tag-edit")) (containerElement w') = None /\
  PicoTagEditor.addEvents w = (Done tt, w) /\
  Part000.addEvent w' = (Throw TypeError, w').
Proof.
  cbv zeta.
  split; [reflexivity|]. split; [reflexivity|].
  apply C9_missing_field_guard; reflexivity.
Defined.

(** C10 at work: after ["red"] and ["blue"] were committed, a click on the
    remove control of the second chip leaves the first one alone. *)
Lemma C10_frame_example :
  let w := mainState tagsInput None redThenBlue in
  let w' := PicoTagEditor.exec (ClickRemove (node blueChip)) w in
  tagList w = [redChip] ++ blueChip :: [] /\
  tagList w' = [redChip] ++ [] /\
  map hiddenInput (tagList w')
  = map hiddenInput [redChip] ++ map hiddenInput [] /\
  fieldValue w' = fieldValue w.
Proof.
  cbv zeta.
  split; [reflexivity|].
  apply (C10_remove_frame tagsInput None redThenBlue [redChip] blueChip []).
  reflexivity.
Defined.

Lemma not_decimalNumeral (s : jsstring) :
  test numberPattern s = false -> ~ decimalNumeral s.
Proof.
  intros H Hd. apply test_numberPattern in Hd. congruence.
Qed.

(** C3 at work: [addTag("tags[]", "red")] names the hidden field
    ["tags[]"]. *)
Lemma C3_name_example :
  let w := mainState tagsInput None [] in
  let r := PicoTagEditor.addTag (js "tags[]") (js "red") w in
  fst r = Done tt /\
  exists chip,
    chips (containerElement (snd r)) = chips (containerElement w) ++ [chip] /\
    hiddenValue (hiddenInput chip) = js "red" /\
    hiddenName (hiddenInput chip) = js "tags[]".
Proof.
  cbv zeta.
  destruct (C3_hidden_field_name tagsInput None [] (js "tags[]") (js "red"))
    as (H & chip & Hc & Hv & _ & _ & Hn).
  split; [exact H|]. exists chip.
  split; [exact Hc|]. split; [exact Hv|]. apply Hn. reflexivity.
Defined.

(** C7 at work: [width: 12.5] assigns ["12.5px"], [maxHeight: 120]
    ["120px"], and [height: "50%"] stays ["50%"]. *)
Lemma C7_dimension_example :
  let st :=
    style (tagsContainer
             (containerElement
                (snd (PicoTagEditor.construct tagsInput sized)))) in
  assigned Width st = js "12.5px" /\
  assigned MaxHeight st = js "120px" /\
  assigned Height st = js "50%".
Proof.
  cbv zeta.
  pose proof (C7_dimension_styles Width tagsInput sized) as Hw.
  pose proof (C7_dimension_styles MaxHeight tagsInput sized) as Hm.
  pose proof (C7_dimension_styles Height tagsInput sized) as Hh.
  cbv zeta in Hw, Hm, Hh.
  destruct Hw as (_ & Hw & _). destruct Hm as (_ & _ & Hm & _).
  destruct Hh as (_ & _ & _ & _ & _ & Hh).
  split; [|split].
  - exact (Hw (Finite false 125 (-1)) eq_refl eq_refl).
  - apply (Hm 120%Z); [reflexivity | discriminate | reflexivity].
  - apply (Hh (js "50%")); [reflexivity|].
    apply not_decimalNumeral. reflexivity.
Defined.

(* ================================================================== *)
(** * The older copy at concrete inputs *)

(** X1 at work: Enter on [" red "] in the older copy commits [" red "], spaces
    included. *)
Lemma old_commit_example :
  let w := oldState tagsInput None [TypeText (js " red ")] in
  let w' := Part000.exec (KeyPress (js "Enter")) w in
  picked tagsInput = true /\
  fieldValue w = Some (js " red ") /\
  trim (js " red ") <> [] /\
  exists chip,
    chips (containerElement w') = chips (containerElement w) ++ [chip] /\
    textContent chip = js " red " /\
    hiddenValue (hiddenInput chip) = js " red " /\
    fieldValue w' = Some [].
Proof.
  cbv zeta.
  split; [reflexivity|]. split; [reflexivity|].
  split; [vm_compute; discriminate|].
  apply (old_enter_commits_one_chip tagsInput None
           [TypeText (js " red ")] (v := js " red "));
    [reflexivity | reflexivity | vm_compute; discriminate].
Defined.

(** X2 at work: the hidden field of the chip ["blue"], over an input named
    ["tags"]. *)
Lemma main_hidden_names_example :
  In blueChip (chips (containerElement (mainState tagsInput None redThenBlue)))
  /\ hiddenName (hiddenInput blueChip) = js "[]".
Proof.
  assert (Hin : In blueChip
                   (chips (containerElement
                             (mainState tagsInput None redThenBlue))))
    by (vm_compute; right; left; reflexivity).
  split; [exact Hin|].
  apply (main_hidden_names tagsInput None redThenBlue blueChip Hin).
Defined.

(** X3 at work: the same chip in the older copy. *)
Lemma old_hidden_names_example :
  getAttribute (js "name") (srcAttributes tagsInput) = Some (js "tags") /\
  In oldBlueChip
     (chips (containerElement (oldState tagsInput None redThenBlue))) /\
  hiddenName (hiddenInput oldBlueChip) = js "tags" ++ js "[]".
Proof.
  assert (Hin : In oldBlueChip
                   (chips (containerElement
                             (oldState tagsInput None redThenBlue))))
    by (vm_compute; right; left; reflexivity).
  split; [reflexivity|]. split; [exact Hin|].
  apply (old_hidden_names tagsInput None redThenBlue oldBlueChip
                          (nm := js "tags") eq_refl Hin).
Defined.

(** X5 at work: a click on the remove control of the first of two chips. *)
Lemma old_remove_example :
  let w := oldState tagsInput None redThenBlue in
  let w' := Part000.exec (ClickRemove (node oldRedChip)) w in
  In oldRedChip (tagList w) /\
  tagList w'
  = filter (fun t => negb (Nat.eqb (node t) (node oldRedChip))) (tagList w) /\
  ~ In oldRedChip (tagList w') /\
  fieldHasFocus (containerElement w') = true /\
  (tagListHidden w' <-> tagList w' = []) /\
  fieldValue w' = fieldValue w /\
  uncaught (containerElement w') = [].
Proof.
  cbv zeta.
  assert (Hin : In oldRedChip (tagList (oldState tagsInput None redThenBlue)))
    by (vm_compute; left; reflexivity).
  split; [exact Hin|].
  apply (old_remove_control tagsInput None redThenBlue oldRedChip Hin).
Defined.

(** X7 at work: focus and blur with the pointer outside. *)
Lemma old_focus_example :
  let w := oldState tagsInput None [PointerEnter; PointerLeave] in
  let after ty :=
    snd (dispatchEvent Part000.runHandler (Child TextField)
                       (plainEvent ty) w) in
  picked tagsInput = true /\
  dataFocus (containerElement (after FocusEvent)) = Some (js "true") /\
  dataFocus (containerElement (after BlurEvent))
  = Some (if Part000.debug (settings w) || mouseEnter w
          then js "true" else js "false").
Proof.
  cbv zeta.
  split; [reflexivity|].
  apply (old_focus_attribute tagsInput None [PointerEnter; PointerLeave]).
  reflexivity.
Defined.

(** X8 at work: Enter on a tab and a space. *)
Lemma old_blank_example :
  let w := oldState tagsInput None [TypeText [9%N; 32%N]] in
  fieldValue w = Some [9%N; 32%N] /\
  trim [9%N; 32%N] = [] /\
  Part000.exec (KeyPress (js "Enter")) w = w.
Proof.
  cbv zeta.
  split; [reflexivity|]. split; [reflexivity|].
  apply (old_blank_enter_rejected tagsInput None [TypeText [9%N; 32%N]]
           (v := [9%N; 32%N])); reflexivity.
Defined.

(** X10 at work: the session that commits two tags, over an [input]. *)
Lemma listeners_example :
  srcTagName tagsInput = js "input" /\
  uncaught (containerElement (mainState tagsInput None redThenBlue)) = [] /\
  uncaught (containerElement (oldState tagsInput None redThenBlue)) = [].
Proof.
  destruct (listeners_never_throw tagsInput None None redThenBlue)
    as [Hmain Hold].
  split; [reflexivity|]. split; [apply Hmain; reflexivity | exact Hold].
Defined.
(* ================================================================== *)
(** * Further properties of the handlers *)

Lemma advanceAll_app (adv : Action -> Dyn -> Dyn) (l1 l2 : list Action)
      (x : Dyn) :
  advanceAll adv (l1 ++ l2) x = advanceAll adv l2 (advanceAll adv l1 x).
Proof. apply fold_left_app. Qed.

Lemma main_marked input options :
  picked input = true ->
  fieldMarked (containerElement (snd (PicoTagEditor.construct input options)))
  = true.
Proof. intros H. rewrite main_picked. exact H. Qed.

Lemma old_marked input options :
  picked input = true ->
  fieldMarked (containerElement (snd (Part000.construct input options)))
  = true.
Proof. intros H. rewrite old_picked. exact H. Qed.

Section AdvanceFacts.

Variables Cfg Nm : Type.
Variable w0 : Widget Cfg Nm.
Variable dbg : bool.
Variable newChip : nat -> jsstring -> Chip.

Local Abbreviation adv := (advance w0 dbg newChip).

Lemma advance_other_key k x :
  k <> js "Enter" -> adv (KeyPress k) x = x.
Proof.
  intros Hk. cbn [advance]. apply str_eqb_neq in Hk. rewrite Hk.
  rewrite andb_false_r. reflexivity.
Qed.

Lemma advance_frame a x :
  editsTags a = false ->
  dChips (adv a x) = dChips x /\ dDisplay (adv a x) = dDisplay x.
Proof.
  destruct a; try discriminate; intros _; cbn [advance].
  - split; reflexivity.
  - destruct (refocus_chips w0 x) as (H1 & H2 & _). split; assumption.
  - destruct (dFocus x); [|split; reflexivity].
    destruct (fieldMarked _); split; reflexivity.
  - destruct (fieldMarked _); split; reflexivity.
  - destruct (fieldMarked _); split; reflexivity.
Qed.

Lemma refocus_mouse x : dMouse (refocus w0 x) = dMouse x.
Proof.
  unfold refocus. destruct (dFocus x); [reflexivity|].
  destruct (fieldMarked _); reflexivity.
Qed.

Lemma advance_mouse a x :
  fieldMarked (containerElement w0) = true ->
  dMouse (adv a x) = pointerOver [a] (dMouse x).
Proof.
  intros Hm. destruct a; cbn [advance pointerOver fold_left]; rewrite ?Hm;
    cbn [andb]; try reflexivity.
  - destruct (_ && _); reflexivity.
  - apply refocus_mouse.
  - destruct (dFocus x); reflexivity.
  - destruct (existsb _ _); [|reflexivity]. cbn [dMouse setChips].
    apply refocus_mouse.
Qed.

Lemma advanceAll_mouse acts x :
  fieldMarked (containerElement w0) = true ->
  dMouse (advanceAll adv acts x) = pointerOver acts (dMouse x).
Proof.
  intros Hm. revert x. induction acts as [|a acts IH]; intros x.
  - reflexivity.
  - unfold advanceAll, pointerOver in *. cbn [fold_left].
    rewrite IH. f_equal. apply (advance_mouse a x Hm).
Qed.

End AdvanceFacts.
(** X11. A keypress of any key other than Enter changes nothing at all, in
    either copy: the listener returns before it reads the field. *)
Theorem other_keys_are_ignored :
  forall input options options' acts k,
    k <> js "Enter" ->
    PicoTagEditor.exec (KeyPress k) (mainState input options acts)
    = mainState input options acts /\
    Part000.exec (KeyPress k) (oldState input options' acts)
    = oldState input options' acts.
Proof.
  intros input options options' acts k Hk. split.
  - pose proof (main_known input options acts) as K. cbv zeta in K.
    pose proof (main_exec_known (KeyPress k) K) as K'.
    unfold mainAdvance in K'. rewrite advance_other_key in K' by exact Hk.
    rewrite (known_shape K'). symmetry. apply (known_shape K).
  - pose proof (old_known input options' acts) as K. cbv zeta in K.
    pose proof (old_exec_known (KeyPress k)
                               (old_textInput input options') K) as K'.
    unfold oldAdvance in K'. rewrite advance_other_key in K' by exact Hk.
    rewrite (known_shape K'). symmetry. apply (known_shape K).
Qed.

Lemma known_frame {Cfg Nm} (w0 w w' : Widget Cfg Nm) (x x' : Dyn) :
  known w0 w x -> known w0 w' x' ->
  dChips x' = dChips x -> dDisplay x' = dDisplay x ->
  chips (containerElement w') = chips (containerElement w) /\
  tagList w' = tagList w /\
  hiddenFields w' = hiddenFields w /\
  display (style (tagsContainer (containerElement w')))
  = display (style (tagsContainer (containerElement w))).
Proof.
  intros K K' Ec Ed. unfold hiddenFields.
  rewrite (known_chips K'), (known_chips K), (known_tagList K'),
          (known_tagList K), (known_display K'), (known_display K), Ec, Ed.
  repeat split; reflexivity.
Qed.

(** X12. Only Enter and the remove controls touch the tags: typing, focus,
    blur and pointer moves leave the chips, the hidden fields and the
    visibility of the tag list as they are, in either copy. *)
Theorem tags_change_only_on_enter_or_remove :
  forall input options options' acts a,
    editsTags a = false ->
    (let w := mainState input options acts in
     let w' := PicoTagEditor.exec a w in
     chips (containerElement w') = chips (containerElement w) /\
     tagList w' = tagList w /\
     hiddenFields w' = hiddenFields w /\
     display (style (tagsContainer (containerElement w')))
     = display (style (tagsContainer (containerElement w)))) /\
    (let w := oldState input options' acts in
     let w' := Part000.exec a w in
     chips (containerElement w') = chips (containerElement w) /\
     tagList w' = tagList w /\
     hiddenFields w' = hiddenFields w /\
     display (style (tagsContainer (containerElement w')))
     = display (style (tagsContainer (containerElement w)))).
Proof.
  intros input options options' acts a Ha. split; cbv zeta.
  - pose proof (main_known input options acts) as K. cbv zeta in K.
    pose proof (main_exec_known a K) as K'.
    apply (known_frame K K'); apply advance_frame; exact Ha.
  - pose proof (old_known input options' acts) as K. cbv zeta in K.
    pose proof (old_exec_known a (old_textInput input options') K) as K'.
    apply (known_frame K K'); apply advance_frame; exact Ha.
Qed.

Lemma main_mouse input options :
  mouseEnter (snd (PicoTagEditor.construct input options)) = false.
Proof.
  unfold PicoTagEditor.construct, PicoTagEditor.addEvents, PicoTagEditor.init.
  symbolic; reflexivity.
Qed.

Lemma old_mouse input options :
  mouseEnter (snd (Part000.construct input options)) = false.
Proof.
  unfold Part000.construct, Part000.addEvent, Part000.init.
  destruct (classAttr input) as [cl|].
  - repeat (run_monad; case_step); run_monad; reflexivity.
  - run_monad.
    change (hasClass (js "pico-tag-edit") [js "null"]) with false.
    run_monad. reflexivity.
Qed.

(** X13. The flag [mouseEnter] of a widget built over an
    [input.pico-tag-edit] follows the pointer: after any session it tells
    whether the last pointer event on the wrapper was a [mouseenter], and no
    other action changes it. *)
Theorem mouseEnter_follows_pointer :
  forall input options options' acts,
    picked input = true ->
    mouseEnter (mainState input options acts) = pointerOver acts false /\
    mouseEnter (oldState input options' acts) = pointerOver acts false.
Proof.
  intros input options options' acts Hp. split.
  - pose proof (main_known input options acts) as K. cbv zeta in K.
    rewrite (known_mouse K). unfold mainAdvance.
    rewrite advanceAll_mouse by (apply main_marked, Hp).
    cbn [initial dMouse]. rewrite main_mouse. reflexivity.
  - pose proof (old_known input options' acts) as K. cbv zeta in K.
    rewrite (known_mouse K). unfold oldAdvance.
    rewrite advanceAll_mouse by (apply old_marked, Hp).
    cbn [initial dMouse]. rewrite old_mouse. reflexivity.
Qed.
Lemma filter_fresh_node (n : nat) (l : list Chip) :
  Forall (fun t => node t < n) l ->
  filter (fun t => negb (Nat.eqb (node t) n)) l = l.
Proof.
  induction 1 as [|a l Ha _ IH]; [reflexivity|]. cbn [filter].
  destruct (Nat.eqb_spec (node a) n) as [E|_]; [lia|].
  cbn [negb]. f_equal. exact IH.
Qed.

Section RoundTrip.

Variables Cfg Nm : Type.
Variable w0 : Widget Cfg Nm.
Variable dbg : bool.
Variable newChip : nat -> jsstring -> Chip.
Hypothesis newChip_node : forall n v, node (newChip n v) = n.

Local Abbreviation adv := (advance w0 dbg newChip).

(** The components after a commit and a click on the remove control of the
    chip it made. *)
Lemma advance_commit_remove x :
  good w0 x ->
  fieldMarked (containerElement w0) = true ->
  trim (dValue x) <> [] ->
  let chip := newChip (dNext x) (dValue x) in
  let x1 := adv (KeyPress (js "Enter")) x in
  let x2 := adv (ClickRemove (node chip)) x1 in
  dChips x1 = dChips x ++ [chip] /\
  dChips x2 = dChips x /\ dValue x2 = [] /\ dFocus x2 = true.
Proof.
  intros Hg Hm Hne chip x1 x2.
  assert (E1 : x1 = setValue []
                      (setChips (dChips x ++ [chip]) []
                                (setNext (S (dNext x)) x))).
  { subst x1. cbn [advance].
    rewrite enter_commits; [reflexivity | exact Hm | reflexivity | exact Hne]. }
  assert (Ex : existsb (fun t => Nat.eqb (node t) (node chip)) (dChips x1)
               = true).
  { rewrite E1. cbn [dChips setValue setChips]. rewrite existsb_app.
    cbn [existsb]. rewrite Nat.eqb_refl, orb_true_r. reflexivity. }
  split; [rewrite E1; reflexivity|].
  subst x2. cbn [advance]. rewrite Ex. cbn [dChips dValue dFocus setChips].
  rewrite refocus_focus.
  destruct (refocus_chips w0 x1) as (_ & _ & _ & ->).
  rewrite E1. cbn [dChips dValue setValue setChips].
  split; [|split; reflexivity].
  rewrite filter_app. cbn [filter]. rewrite Nat.eqb_refl. cbn [negb].
  rewrite app_nil_r. subst chip. rewrite newChip_node.
  apply filter_fresh_node, (good_fresh Hg).
Qed.

End RoundTrip.

Lemma known_same_chips {Cfg Nm} (w0 w w' : Widget Cfg Nm) (x x' : Dyn) :
  known w0 w x -> known w0 w' x' ->
  dChips x' = dChips x ->
  chips (containerElement w') = chips (containerElement w) /\
  hiddenFields w' = hiddenFields w /\
  (tagListHidden w' <-> tagListHidden w).
Proof.
  intros K K' Ec.
  assert (Et : tagList w' = tagList w).
  { rewrite (known_tagList K'), (known_tagList K), Ec. reflexivity. }
  rewrite (known_visibility K'), (known_visibility K).
  unfold hiddenFields. rewrite (known_chips K'), (known_chips K), Ec, Et.
  repeat split; auto.
Qed.

(** X14. Committing a value and then removing the chip just made brings the
    tags back to where they were: the same chips, the same hidden fields,
    and the tag list hidden again exactly if it was before.  The text field
    ends up empty and focused. *)
Theorem commit_then_remove_restores_tags :
  forall input options acts v,
    picked input = true ->
    let w := mainState input options acts in
    fieldValue w = Some v ->
    trim v <> [] ->
    let w1 := PicoTagEditor.exec (KeyPress (js "Enter")) w in
    exists chip,
      chips (containerElement w1) = chips (containerElement w) ++ [chip] /\
      let w2 := PicoTagEditor.exec (ClickRemove (node chip)) w1 in
      chips (containerElement w2) = chips (containerElement w) /\
      hiddenFields w2 = hiddenFields w /\
      (tagListHidden w2 <-> tagListHidden w) /\
      fieldValue w2 = Some [] /\
      fieldHasFocus (containerElement w2) = true.
Proof.
  intros input options acts v Hp w Hv Hne w1.
  pose proof (main_known input options acts) as K. cbv zeta in K.
  set (w0 := snd (PicoTagEditor.construct input options)) in *.
  set (x := advanceAll (mainAdvance w0) acts (initial w0)) in *.
  fold w in K.
  pose proof (known_fieldValue K Hv) as Ev.
  pose proof (main_exec_known (KeyPress (js "Enter")) K) as K1.
  fold w1 in K1.
  destruct (@advance_commit_remove _ _ w0 (PicoTagEditor.debug (settings w0))
              (mainChip w0) (mainChip_node w0) x (known_good K)
              (main_marked input options Hp))
    as (E1 & E2 & E3 & E4); [rewrite Ev; exact Hne|].
  exists (mainChip w0 (dNext x) (dValue x)).
  split; [rewrite (known_chips K1), (known_chips K); exact E1|].
  intros w2.
  pose proof (main_exec_known
                (ClickRemove (node (mainChip w0 (dNext x) (dValue x)))) K1)
    as K2.
  fold w2 in K2. unfold mainAdvance in K2.
  destruct (known_same_chips K K2 E2) as (Hc & Hh & Hd).
  rewrite (known_value K2), (known_focus K2), E3, E4.
  repeat split; try assumption; try reflexivity; apply Hd.
Qed.

(** X15. The same round trip in the older copy. *)
Theorem old_commit_then_remove_restores_tags :
  forall input options acts v,
    picked input = true ->
    let w := oldState input options acts in
    fieldValue w = Some v ->
    trim v <> [] ->
    let w1 := Part000.exec (KeyPress (js "Enter")) w in
    exists chip,
      chips (containerElement w1) = chips (containerElement w) ++ [chip] /\
      let w2 := Part000.exec (ClickRemove (node chip)) w1 in
      chips (containerElement w2) = chips (containerElement w) /\
      hiddenFields w2 = hiddenFields w /\
      (tagListHidden w2 <-> tagListHidden w) /\
      fieldValue w2 = Some [] /\
      fieldHasFocus (containerElement w2) = true.
Proof.
  intros input options acts v Hp w Hv Hne w1.
  pose proof (old_known input options acts) as K. cbv zeta in K.
  set (w0 := snd (Part000.construct input options)) in *.
  set (x := advanceAll (oldAdvance w0) acts (initial w0)) in *.
  fold w in K.
  pose proof (known_fieldValue K Hv) as Ev.
  pose proof (old_textInput input options) as Ht. fold w0 in Ht.
  pose proof (old_exec_known (KeyPress (js "Enter")) Ht K) as K1.
  fold w1 in K1.
  destruct (@advance_commit_remove _ _ w0 (Part000.debug (settings w0))
              (oldChip w0) (oldChip_node w0) x (known_good K)
              (old_marked input options Hp))
    as (E1 & E2 & E3 & E4); [rewrite Ev; exact Hne|].
  exists (oldChip w0 (dNext x) (dValue x)).
  split; [rewrite (known_chips K1), (known_chips K); exact E1|].
  intros w2.
  pose proof (old_exec_known
                (ClickRemove (node (oldChip w0 (dNext x) (dValue x)))) Ht K1)
    as K2.
  fold w2 in K2. unfold oldAdvance in K2.
  destruct (known_same_chips K K2 E2) as (Hc & Hh & Hd).
  rewrite (known_value K2), (known_focus K2), E3, E4.
  repeat split; try assumption; try reflexivity; apply Hd.
Qed.
Section CommitAll.

Variables Cfg Nm : Type.
Variable w0 : Widget Cfg Nm.
Variable dbg : bool.
Variable newChip : nat -> jsstring -> Chip.
Variable text : jsstring -> jsstring.
Hypothesis newChip_entry :
  forall n v, chipEntry (newChip n v) = (text v, text v).
Hypothesis Hm : fieldMarked (containerElement w0) = true.

Local Abbreviation adv := (advance w0 dbg newChip).

(** The chips after typing and committing the values of [vs] one after the
    other. *)
Lemma advanceAll_commitAll vs x :
  map chipEntry (dChips (advanceAll adv (commitAll vs) x))
  = map chipEntry (dChips x)
    ++ map (fun v => (text v, text v))
           (filter (fun v => negb (isBlank v)) vs).
Proof.
  revert x. induction vs as [|v vs IH]; intros x.
  - cbn. rewrite app_nil_r. reflexivity.
  - change (commitAll (v :: vs))
      with (TypeText v :: KeyPress (js "Enter") :: commitAll vs).
    unfold advanceAll in *. cbn [fold_left filter].
    rewrite IH. cbn [advance dValue setValue]. rewrite Hm, str_eqb_refl.
    cbn [andb]. unfold isBlank.
    destruct (str_eqb (trim v) []); cbn [negb].
    + reflexivity.
    + cbn [dChips setValue setChips map]. rewrite map_app. cbn [map].
      rewrite newChip_entry, <- app_assoc. reflexivity.
Qed.

End CommitAll.

(** X16. Tags keep the order of entry.  After the user types the values
    [vs] one after the other, pressing Enter after each, the widget shows
    its earlier chips followed by one chip for each value that is not all
    whitespace, in the order typed and with nothing merged or dropped; each
    chip shows and submits the value, trimmed when [trimInput] is set (the
    older copy never trims). *)
Theorem commits_appear_in_order :
  forall input options options' acts vs,
    picked input = true ->
    let text v :=
      if PicoTagEditor.trimInput (PicoTagEditor.mergeSettings options)
      then trim v else v in
    map chipEntry
        (chips (containerElement
                  (mainState input options (acts ++ commitAll vs))))
    = map chipEntry (chips (containerElement (mainState input options acts)))
      ++ map (fun v => (text v, text v))
             (filter (fun v => negb (isBlank v)) vs)
    /\
    map chipEntry
        (chips (containerElement
                  (oldState input options' (acts ++ commitAll vs))))
    = map chipEntry (chips (containerElement (oldState input options' acts)))
      ++ map (fun v => (v, v)) (filter (fun v => negb (isBlank v)) vs).
Proof.
  intros input options options' acts vs Hp text. split.
  - pose proof (main_known input options acts) as K.
    pose proof (main_known input options (acts ++ commitAll vs)) as K'.
    cbv zeta in K, K'.
    rewrite (known_chips K'), (known_chips K), advanceAll_app.
    unfold mainAdvance at 1.
    apply advanceAll_commitAll; [|apply main_marked, Hp].
    intros n v. unfold chipEntry, mainChip. subst text.
    rewrite main_settings. reflexivity.
  - pose proof (old_known input options' acts) as K.
    pose proof (old_known input options' (acts ++ commitAll vs)) as K'.
    cbv zeta in K, K'.
    rewrite (known_chips K'), (known_chips K), advanceAll_app.
    unfold oldAdvance at 1.
    apply (@advanceAll_commitAll _ _ _ _ _ (fun v => v));
      [|apply old_marked, Hp].
    intros n v. reflexivity.
Qed.

Lemma existsb_filter_node (tag : nat) (l : list Chip) :
  existsb (fun t => Nat.eqb (node t) tag)
          (filter (fun t => negb (Nat.eqb (node t) tag)) l) = false.
Proof.
  induction l as [|a l IH]; [reflexivity|]. cbn [filter].
  destruct (Nat.eqb (node a) tag) eqn:E; cbn [negb]; [exact IH|].
  cbn [existsb]. rewrite E. exact IH.
Qed.

(** X17. A remove control works once.  After a click has removed chip [c],
    running the click listener of its control again throws
    [NotFoundError] from [removeChild] before anything is changed, and a
    click addressed to the removed chip reaches no listener. *)
Theorem second_remove_is_refused :
  forall input options acts c,
    let w := mainState input options acts in
    In c (tagList w) ->
    let w' := PicoTagEditor.exec (ClickRemove (node c)) w in
    PicoTagEditor.onRemoveClick (clickContainer (removeSpan c)) (node c) w'
    = (Throw NotFoundError, w') /\
    PicoTagEditor.exec (ClickRemove (node c)) w' = w'.
Proof.
  intros input options acts c w Hin w'.
  pose proof (main_known input options acts) as K. cbv zeta in K.
  set (w0 := snd (PicoTagEditor.construct input options)) in *.
  set (x := advanceAll (mainAdvance w0) acts (initial w0)) in *.
  fold w in K.
  pose proof (main_exec_known (ClickRemove (node c)) K) as K'. fold w' in K'.
  pose proof (main_exec_known (ClickRemove (node c)) K') as K''.
  rewrite (known_tagList K) in Hin.
  destruct (tagContainerOf (containerElement w0)) eqn:Et; [destruct Hin|].
  assert (Hc : clickContainer (removeSpan c) = TagsContainer).
  { rewrite <- Et.
    exact (proj1 (Forall_forall _ _) (good_closure (known_good K)) c Hin). }
  assert (Hx : existsb (fun t => Nat.eqb (node t) (node c))
                       (dChips (mainAdvance w0 (ClickRemove (node c)) x))
               = false).
  { unfold mainAdvance. cbn [advance]. rewrite (In_existsb_node _ _ Hin).
    cbn [dChips setChips].
    rewrite ?(proj1 (refocus_chips w0 x)). apply existsb_filter_node. }
  split.
  - rewrite Hc. unfold PicoTagEditor.onRemoveClick, bind, dom, gets,
                       removeChild.
    cbn [region]. fold (tagList w'). rewrite (known_tagList K'), Et, Hx.
    reflexivity.
  - rewrite (known_shape K''). unfold mainAdvance at 1. cbn [advance].
    rewrite Hx. symmetry. apply (known_shape K').
Qed.
Section Unmarked.

Variables Cfg Nm : Type.
Variable w0 : Widget Cfg Nm.
Variable dbg : bool.
Variable newChip : nat -> jsstring -> Chip.
Hypothesis Hm : fieldMarked (containerElement w0) = false.

Local Abbreviation adv := (advance w0 dbg newChip).

(** Without listeners, an action can only change the text and the
    focus. *)
Lemma advance_unmarked a x :
  dChips x = [] ->
  dChips (adv a x) = [] /\ dDataFocus (adv a x) = dDataFocus x /\
  dMouse (adv a x) = dMouse x.
Proof.
  intros Hc. destruct a; cbn [advance]; rewrite ?Hm, ?Hc; cbn [andb existsb];
    auto.
  - unfold refocus. rewrite Hm. destruct (dFocus x); auto.
  - destruct (dFocus x); auto.
Qed.

Lemma advanceAll_unmarked acts x :
  dChips x = [] ->
  let y := advanceAll adv acts x in
  dChips y = [] /\ dDataFocus y = dDataFocus x /\ dMouse y = dMouse x.
Proof.
  revert x. induction acts as [|a acts IH]; intros x Hc; [cbn; auto|].
  unfold advanceAll in *. cbn [fold_left].
  destruct (advance_unmarked a x Hc) as (H1 & H2 & H3).
  destruct (IH _ H1) as (H4 & H5 & H6). cbv zeta.
  rewrite H4, H5, H6, H2, H3. auto.
Qed.

End Unmarked.

Lemma main_dataFocus input options :
  dataFocus (containerElement (snd (PicoTagEditor.construct input options)))
  = None.
Proof.
  unfold PicoTagEditor.construct, PicoTagEditor.addEvents, PicoTagEditor.init.
  symbolic; reflexivity.
Qed.

Lemma old_dataFocus input options :
  dataFocus (containerElement (snd (Part000.construct input options)))
  = None.
Proof.
  unfold Part000.construct, Part000.addEvent, Part000.init.
  destruct (classAttr input) as [cl|].
  - repeat (run_monad; case_step); run_monad; reflexivity.
  - run_monad.
    change (hasClass (js "pico-tag-edit") [js "null"]) with false.
    run_monad. reflexivity.
Qed.

Lemma main_outcome input options :
  fst (PicoTagEditor.construct input options) = Done tt.
Proof.
  unfold PicoTagEditor.construct, PicoTagEditor.addEvents, PicoTagEditor.init.
  symbolic; reflexivity.
Qed.

Lemma old_outcome input options :
  fst (Part000.construct input options)
  = if picked input then Done tt else Throw TypeError.
Proof.
  unfold Part000.construct, Part000.addEvent, Part000.init, picked,
         classTokens.
  destruct (classAttr input) as [cl|].
  - repeat (run_monad; case_step); run_monad; rewrite ?E; reflexivity.
  - run_monad.
    change (hasClass (js "pico-tag-edit") [js "null"]) with false.
    run_monad. reflexivity.
Qed.

(** X18. What the constructors make of the class of their input.  Over an
    [.pico-tag-edit] both return normally and attach the three listeners of
    the text field and the two of the wrapper, in source order.  Over any
    other input [src/PicoTagEditor.js] still returns normally and the older
    copy throws a [TypeError]; neither attaches a listener. *)
Theorem constructor_attaches_listeners :
  forall input options options',
    let r := PicoTagEditor.construct input options in
    let r' := Part000.construct input options' in
    fst r = Done tt /\
    fst r' = (if picked input then Done tt else Throw TypeError) /\
    listeners (textField (containerElement (snd r)))
    = (if picked input then fieldListeners else []) /\
    wrapperListeners (containerElement (snd r))
    = (if picked input then hoverListeners else []) /\
    listeners (textField (containerElement (snd r')))
    = (if picked input then fieldListeners else []) /\
    wrapperListeners (containerElement (snd r'))
    = (if picked input then hoverListeners else []).
Proof.
  intros input options options' r r'. subst r r'.
  pose proof (main_built input options) as B.
  pose proof (old_built input options') as B'.
  rewrite (built_field_listeners B), (built_wrapper_listeners B),
          (built_field_listeners B'), (built_wrapper_listeners B'),
          main_picked, old_picked, main_outcome, old_outcome.
  repeat split; reflexivity.
Qed.

(** X19. A widget built over an input that is not an [.pico-tag-edit] is
    inert, in either copy: whatever the user does, it never holds a chip or
    a hidden field, its tag list stays hidden, [data-focus] is never set and
    [mouseEnter] stays false. *)
Theorem unpicked_widget_is_inert :
  forall input options options' acts,
    picked input = false ->
    (let w := mainState input options acts in
     chips (containerElement w) = [] /\ hiddenFields w = [] /\
     tagListHidden w /\
     dataFocus (containerElement w) = None /\ mouseEnter w = false) /\
    (let w := oldState input options' acts in
     chips (containerElement w) = [] /\ hiddenFields w = [] /\
     tagListHidden w /\
     dataFocus (containerElement w) = None /\ mouseEnter w = false).
Proof.
  intros input options options' acts Hp. split; cbv zeta.
  - pose proof (main_known input options acts) as K. cbv zeta in K.
    set (w0 := snd (PicoTagEditor.construct input options)) in *.
    assert (Hm : fieldMarked (containerElement w0) = false)
      by (unfold w0; rewrite main_picked; exact Hp).
    destruct (@advanceAll_unmarked _ _ w0 (PicoTagEditor.debug (settings w0))
                (mainChip w0) Hm acts (initial w0) eq_refl)
      as (H1 & H2 & H3).
    fold (mainAdvance w0) in H1, H2, H3.
    assert (Ht : tagList (mainState input options acts) = []).
    { rewrite (known_tagList K), H1. destruct (tagContainerOf _); reflexivity. }
    rewrite (known_visibility K). unfold hiddenFields.
    rewrite (known_chips K), (known_dataFocus K), (known_mouse K),
            Ht, H1, H2, H3.
    cbn [initial dDataFocus dMouse map]. unfold w0.
    rewrite main_dataFocus, main_mouse. repeat split; reflexivity.
  - pose proof (old_known input options' acts) as K. cbv zeta in K.
    set (w0 := snd (Part000.construct input options')) in *.
    assert (Hm : fieldMarked (containerElement w0) = false)
      by (unfold w0; rewrite old_picked; exact Hp).
    destruct (@advanceAll_unmarked _ _ w0 (Part000.debug (settings w0))
                (oldChip w0) Hm acts (initial w0) eq_refl)
      as (H1 & H2 & H3).
    fold (oldAdvance w0) in H1, H2, H3.
    assert (Ht : tagList (oldState input options' acts) = []).
    { rewrite (known_tagList K), H1. destruct (tagContainerOf _); reflexivity. }
    rewrite (known_visibility K). unfold hiddenFields.
    rewrite (known_chips K), (known_dataFocus K), (known_mouse K),
            Ht, H1, H2, H3.
    cbn [initial dDataFocus dMouse map]. unfold w0.
    rewrite old_dataFocus, old_mouse. repeat split; reflexivity.
Qed.
(* ================================================================== *)
(** * What [init] builds *)

Section StaticParts.

Variables Cfg Nm : Type.
Variable w0 : Widget Cfg Nm.

(** The handlers leave the dimensions of the tag list and the identity of
    the text field alone. *)
Lemma shape_assigned (d : Dimension) x :
  assigned d (style (tagsContainer (containerElement (shape w0 x))))
  = assigned d (style (tagsContainer (containerElement w0))).
Proof.
  unfold shape, dress. cbn [containerElement tagsContainer].
  destruct (Region_eqb _ _); destruct d; reflexivity.
Qed.

Lemma shape_field x :
  let f := textField (containerElement (shape w0 x)) in
  let f0 := textField (containerElement w0) in
  tagName f = tagName f0 /\ attributes f = attributes f0 /\
  classList f = classList f0.
Proof.
  unfold shape, dress. cbn [containerElement textField].
  destruct (Region_eqb _ _); repeat split; reflexivity.
Qed.

End StaticParts.

Lemma main_field input options :
  let f := textField
             (containerElement (snd (PicoTagEditor.construct input options))) in
  tagName f = srcTagName input /\ attributes f = srcAttributes input /\
  classList f = classTokens input /\ value f = Some (srcValue input).
Proof.
  unfold PicoTagEditor.construct, PicoTagEditor.addEvents, PicoTagEditor.init.
  symbolic; repeat split; reflexivity.
Qed.

Lemma old_field input options :
  let f := textField
             (containerElement (snd (Part000.construct input options))) in
  tagName f = js "input" /\
  attributes f
  = [(js "type", js "text")]
      ++ Part000.copyAttribute (js "id") input
      ++ Part000.copyAttribute (js "placeholder") input /\
  classList f
  = match classAttr input with Some l => l | None => [js "null"] end /\
  value f = Some [].
Proof.
  unfold Part000.construct, Part000.addEvent, Part000.init.
  destruct (classAttr input) as [cl|].
  - repeat (run_monad; case_step); run_monad; repeat split; reflexivity.
  - run_monad.
    change (hasClass (js "pico-tag-edit") [js "null"]) with false.
    run_monad. repeat split; reflexivity.
Qed.

Lemma old_style input options :
  style (tagsContainer
           (containerElement (snd (Part000.construct input options))))
  = style (tagsContainer
             (containerElement
                (Part000.init (Part000.mergeSettings options) input))).
Proof.
  unfold Part000.construct, Part000.addEvent, Part000.init.
  destruct (classAttr input) as [cl|].
  - repeat (run_monad; case_step); run_monad; reflexivity.
  - run_monad.
    change (hasClass (js "pico-tag-edit") [js "null"]) with false.
    run_monad. reflexivity.
Qed.

(** X20. In every state of a widget of [src/PicoTagEditor.js] the text
    field is the clone of the source input as far as its identity goes: the
    same tag name, the same classes, and the same content attributes, [name]
    among them, so the field is submitted with the form next to the hidden
    fields.  Two attributes are left aside, [value] and [style], which an
    assignment to the property of the same name can rewrite.  The clone of
    an [input] of type [text] starts with the source's value. *)
Theorem text_field_is_a_clone :
  forall input options acts,
    let f := PicoTagEditor.inputElement (mainState input options acts) in
    tagName f = srcTagName input /\
    classList f = classTokens input /\
    (forall a, a <> js "value" -> a <> js "style" ->
               getAttribute a (attributes f)
               = getAttribute a (srcAttributes input)) /\
    (srcTagName input = js "input" ->
     getAttribute (js "type") (srcAttributes input) = Some (js "text") ->
     fieldValue (mainState input options []) = Some (srcValue input)).
Proof.
  intros input options acts f. subst f. unfold PicoTagEditor.inputElement.
  pose proof (main_known input options acts) as K. cbv zeta in K.
  set (w0 := snd (PicoTagEditor.construct input options)) in *.
  set (x := advanceAll (mainAdvance w0) acts (initial w0)) in *.
  rewrite (known_shape K).
  destruct (shape_field w0 x) as (-> & -> & ->). unfold w0.
  destruct (main_field input options) as (-> & -> & -> & Hv).
  repeat split. intros _ _. exact Hv.
Qed.

Lemma copyAttribute_get (a b : jsstring) input :
  getAttribute b (Part000.copyAttribute a input)
  = if str_eqb a b
    then match getAttribute a (srcAttributes input) with
         | Some (c :: v) => Some (c :: v)
         | _ => None
         end
    else None.
Proof.
  unfold Part000.copyAttribute.
  destruct (getAttribute a (srcAttributes input)) as [[|c v]|];
    cbn [getAttribute]; destruct (str_eqb a b); reflexivity.
Qed.

Lemma getAttribute_app (a : jsstring) (l1 l2 : list (jsstring * jsstring)) :
  getAttribute a (l1 ++ l2)
  = match getAttribute a l1 with
    | Some v => Some v
    | None => getAttribute a l2
    end.
Proof.
  induction l1 as [|[k v] l1 IH]; [reflexivity|]. cbn [app getAttribute].
  destruct (str_eqb k a); [reflexivity | exact IH].
Qed.

Lemma old_attributes_get (a : jsstring) input :
  getAttribute a ([(js "type", js "text")]
                    ++ Part000.copyAttribute (js "id") input
                    ++ Part000.copyAttribute (js "placeholder") input)
  = if str_eqb (js "type") a then Some (js "text")
    else match (if str_eqb (js "id") a
                then match getAttribute (js "id") (srcAttributes input) with
                     | Some (c :: v) => Some (c :: v)
                     | _ => None
                     end
                else None) with
         | Some v => Some v
         | None =>
             if str_eqb (js "placeholder") a
             then match getAttribute (js "placeholder")
                                     (srcAttributes input) with
                  | Some (c :: v) => Some (c :: v)
                  | _ => None
                  end
             else None
         end.
Proof.
  cbn [app getAttribute]. destruct (str_eqb (js "type") a); [reflexivity|].
  rewrite getAttribute_app, !copyAttribute_get. reflexivity.
Qed.

(** X21. In every state of a widget of the older copy the text field is a
    fresh [input] of type [text] with the class attribute of the source
    (the string ["null"] when the source has none) and with the source's
    [id] and [placeholder] when they are not empty.  It has no [name], so
    only the hidden fields are submitted, and it starts empty whatever the
    source held. *)
Theorem old_text_field_is_rebuilt :
  forall input options acts,
    let f := textField (containerElement (oldState input options acts)) in
    let copied a :=
      match getAttribute a (srcAttributes input) with
      | Some (c :: v) => Some (c :: v)
      | _ => None
      end in
    tagName f = js "input" /\
    getAttribute (js "type") (attributes f) = Some (js "text") /\
    getAttribute (js "name") (attributes f) = None /\
    getAttribute (js "id") (attributes f) = copied (js "id") /\
    getAttribute (js "placeholder") (attributes f)
    = copied (js "placeholder") /\
    classList f
    = match classAttr input with Some l => l | None => [js "null"] end /\
    fieldValue (oldState input options []) = Some [].
Proof.
  intros input options acts f copied. subst f copied.
  pose proof (old_known input options acts) as K. cbv zeta in K.
  set (w0 := snd (Part000.construct input options)) in *.
  set (x := advanceAll (oldAdvance w0) acts (initial w0)) in *.
  rewrite (known_shape K).
  destruct (shape_field w0 x) as (-> & -> & ->). unfold w0.
  destruct (old_field input options) as (-> & -> & -> & Hv).
  rewrite !old_attributes_get.
  repeat split; try exact Hv.
  change (str_eqb (js "id") (js "id")) with true. cbv iota.
  destruct (getAttribute (js "id") (srcAttributes input)) as [[|c v]|];
    reflexivity.
Qed.

Lemma old_init_dimension (d : Dimension) s input :
  assigned d (style (tagsContainer
                       (containerElement (Part000.init s input))))
  = if Part000.isUndefined (oldConfigured d s) then []
    else Part000.dimension (oldConfigured d s).
Proof. destruct d; reflexivity. Qed.

(** X22. Dimensions in the older copy, whose guard is
    [typeof v != 'undefined'].  For each of [width], [height] and
    [maxHeight], what [init] assigns to the style property of the tag list,
    which no handler assigns again: nothing when the option is [undefined];
    for a number, [0] and [NaN] included, its string form, followed by
    ["px"] when that form is in plain decimal notation (["0px"],
    ["12.5px"]) and left as it is otherwise (["NaN"], ["1e+21"]); for a
    string that spells a decimal number, that string followed by ["px"];
    for any other string, the empty one included, the string itself. *)
Theorem old_dimension_styles :
  forall (d : Dimension) input options acts,
    let v := oldConfigured d (Part000.mergeSettings options) in
    let st :=
      style (tagsContainer
               (containerElement (oldState input options acts))) in
    (v = Undefined -> assigned d st = []) /\
    (forall x, v = Num x ->
               assigned d st
               = if plainDecimal x then toString v ++ js "px"
                 else toString v) /\
    (forall str, v = Str str -> decimalNumeral str ->
                 assigned d st = str ++ js "px") /\
    (forall str, v = Str str -> ~ decimalNumeral str ->
                 assigned d st = str).
Proof.
  intros d input options acts v st. subst st.
  pose proof (old_known input options acts) as K. cbv zeta in K.
  rewrite (known_shape K), shape_assigned, old_style, old_init_dimension.
  fold v. unfold Part000.dimension. repeat split.
  - intros ->. reflexivity.
  - intros x ->. cbn [Part000.isUndefined].
    change (Part000.isNumber (Num x)) with (PicoTagEditor.isNumber (Num x)).
    rewrite isNumber_Num. reflexivity.
  - intros str -> Hd. cbn [Part000.isUndefined toString].
    change (Part000.isNumber (Str str))
      with (PicoTagEditor.isNumber (Str str)).
    rewrite (proj2 (isNumber_decimalNumeral (Str str)) Hd). reflexivity.
  - intros str -> Hd. cbn [Part000.isUndefined toString].
    change (Part000.isNumber (Str str))
      with (PicoTagEditor.isNumber (Str str)).
    destruct (PicoTagEditor.isNumber (Str str)) eqn:E; [|reflexivity].
    apply isNumber_decimalNumeral in E. contradiction.
Qed.

(** X23. Dimensions in [src/PicoTagEditor.js], whose guard is the
    truthiness of the option.  [init] assigns nothing to the style property
    when the option is [undefined], [0], [NaN] or the empty string, and no
    handler assigns to it later; for every other number or string it assigns
    a string that is not empty. *)
Theorem falsy_dimension_sets_no_style :
  forall (d : Dimension) input options acts,
    let v := configured d (PicoTagEditor.mergeSettings options) in
    let st :=
      style (tagsContainer
               (containerElement (mainState input options acts))) in
    assigned d st = [] <->
    (v = Undefined \/ v = Num Zero \/ v = Num NaN \/ v = Str []).
Proof.
  intros d input options acts v st. subst st.
  pose proof (main_known input options acts) as K. cbv zeta in K.
  rewrite (known_shape K), shape_assigned, main_style, init_dimension.
  fold v. destruct (truthy v) eqn:Ht.
  - split.
    + intros E. exfalso. apply (toString_truthy_nonempty v Ht).
      unfold PicoTagEditor.dimension in E.
      destruct (PicoTagEditor.isNumber v); [|exact E].
      apply app_eq_nil in E. apply E.
    + intros [H|[H|[H|H]]]; rewrite H in Ht; discriminate.
  - split; [intros _|reflexivity].
    destruct v as [|[|[|]| |negative m e]|[|c str]]; try discriminate; auto.
Qed.

(* ================================================================== *)
(** * The bootstrap loop *)

Lemma forEach_Done {A W} (f : A -> Outcome unit * W) (l : list A) :
  Forall (fun a => fst (f a) = Done tt) l ->
  forEach f l = (Done tt, map (fun a => snd (f a)) l).
Proof.
  induction 1 as [|a l Ha _ IH]; [reflexivity|]. cbn [forEach map].
  destruct (f a) as [[[]|e] w]; [|discriminate].
  rewrite IH. reflexivity.
Qed.

Lemma inputElements_picked document :
  Forall (fun input => picked input = true) (inputElements document).
Proof.
  apply Forall_forall. intros input Hin.
  apply filter_In in Hin as [_ Hs]. unfold selected in Hs.
  apply andb_true_iff in Hs as [_ Hs]. exact Hs.
Qed.

(** X24. The bootstrap loop of the older copy runs to its end on every
    page: no constructor throws, and there is one widget for each
    [input.pico-tag-edit] of the page, in document order.  Each has its
    listeners attached and no chip, and its tag list is hidden, ["240px"]
    wide and at most ["120px"] high, with no height set. *)
Theorem bootstrap_builds_every_widget :
  forall document,
    let r := bootstrap document in
    fst r = Done tt /\
    snd r = map (fun input =>
                   snd (Part000.construct input (Some bootstrapOptions)))
                (inputElements document) /\
    Forall (fun w : Part000.Widget =>
              let d := containerElement w in
              listeners (textField d) = fieldListeners /\
              wrapperListeners d = hoverListeners /\
              chips d = [] /\
              style (tagsContainer d)
              = {| display := js "none"; styleWidth := js "240px";
                   styleHeight := []; styleMaxHeight := js "120px" |})
           (snd r).
Proof.
  intros document r. subst r. unfold bootstrap.
  rewrite forEach_Done.
  - split; [reflexivity|]. split; [reflexivity|]. cbn [snd].
    apply Forall_forall. intros w Hw.
    apply in_map_iff in Hw as (input & <- & Hin).
    pose proof (proj1 (Forall_forall _ _) (inputElements_picked document)
                      input Hin) as Hp.
    pose proof (old_built input (Some bootstrapOptions)) as B.
    pose proof (old_known input (Some bootstrapOptions) []) as K.
    cbv zeta in K.
    rewrite (built_field_listeners B), (built_wrapper_listeners B),
            old_picked, Hp, old_style.
    change (oldState input (Some bootstrapOptions) [])
      with (snd (Part000.construct input (Some bootstrapOptions))) in K.
    rewrite (known_chips K).
    repeat split; reflexivity.
  - apply Forall_forall. intros input Hin.
    pose proof (proj1 (Forall_forall _ _) (inputElements_picked document)
                      input Hin) as Hp.
    rewrite old_outcome, Hp. reflexivity.
Qed.

(* ================================================================== *)
(** * The names of hidden fields, once more *)

Lemma includes_app_r (a b sub : jsstring) :
  includes b sub = true -> includes (a ++ b) sub = true.
Proof.
  intros H. induction a as [|x a IH]; [exact H|].
  cbn [app includes]. rewrite IH. apply orb_true_r.
Qed.

(** X25. The name that [addTag] of [src/PicoTagEditor.js] gives to a
    hidden field always holds a ["["], and naming is idempotent: a name that
    [addTag] produced is taken as it is when it is passed in again. *)
Theorem hiddenFieldName_idempotent :
  forall name,
    includes (PicoTagEditor.hiddenFieldName name) (js "[") = true /\
    PicoTagEditor.hiddenFieldName (PicoTagEditor.hiddenFieldName name)
    = PicoTagEditor.hiddenFieldName name.
Proof.
  intros name.
  assert (H : includes (PicoTagEditor.hiddenFieldName name) (js "[") = true).
  { unfold PicoTagEditor.hiddenFieldName.
    destruct (includes name (js "[")) eqn:E; cbn [negb]; [exact E|].
    apply includes_app_r. reflexivity. }
  split; [exact H|].
  unfold PicoTagEditor.hiddenFieldName at 1. rewrite H. reflexivity.
Qed.

(* ================================================================== *)
(** * Invariants of the active state *)

Section DebugStates.

Variables Cfg Nm : Type.
Variable w0 : Widget Cfg Nm.
Variable newChip : nat -> jsstring -> Chip.

Lemma advance_debug a x :
  active (dDataFocus x) ->
  active (dDataFocus (advance w0 true newChip a x)).
Proof.
  unfold active. intros H. destruct a; cbn [advance]; auto.
  - destruct (_ && _); auto.
  - unfold refocus. destruct (dFocus x); auto.
    destruct (fieldMarked _); auto.
  - destruct (dFocus x); auto. destruct (fieldMarked _); auto.
  - destruct (fieldMarked _); auto.
  - destruct (fieldMarked _); auto.
  - destruct (existsb _ _); auto. cbn [dDataFocus setChips].
    unfold refocus. destruct (dFocus x); auto.
    destruct (fieldMarked _); auto.
Qed.

Lemma advanceAll_debug acts x :
  active (dDataFocus x) ->
  active (dDataFocus (advanceAll (advance w0 true newChip) acts x)).
Proof.
  revert x. induction acts as [|a acts IH]; intros x H; [exact H|].
  unfold advanceAll in *. cbn [fold_left]. apply IH, advance_debug, H.
Qed.

End DebugStates.

Lemma old_settings input options :
  settings (snd (Part000.construct input options))
  = Part000.mergeSettings options.
Proof.
  unfold Part000.construct, Part000.addEvent, Part000.init.
  destruct (classAttr input) as [cl|].
  - repeat (run_monad; case_step); run_monad; reflexivity.
  - run_monad.
    change (hasClass (js "pico-tag-edit") [js "null"]) with false.
    run_monad. reflexivity.
Qed.

(** X26. With [debug] set the widget is never shown inactive: in every
    state [data-focus] is absent or ["true"], in either copy. *)
Theorem debug_never_shows_inactive :
  forall input options options' acts,
    (PicoTagEditor.debug (PicoTagEditor.mergeSettings options) = true ->
     active (dataFocus (containerElement (mainState input options acts)))) /\
    (Part000.debug (Part000.mergeSettings options') = true ->
     active (dataFocus (containerElement (oldState input options' acts)))).
Proof.
  intros input options options' acts. split; intros Hd.
  - pose proof (main_known input options acts) as K. cbv zeta in K.
    rewrite (known_dataFocus K). unfold mainAdvance.
    rewrite main_settings, Hd. apply advanceAll_debug.
    cbn [initial dDataFocus]. rewrite main_dataFocus. left. reflexivity.
  - pose proof (old_known input options' acts) as K. cbv zeta in K.
    rewrite (known_dataFocus K). unfold oldAdvance.
    rewrite old_settings, Hd. apply advanceAll_debug.
    cbn [initial dDataFocus]. rewrite old_dataFocus. left. reflexivity.
Qed.

Section FocusedStates.

Variables Cfg Nm : Type.
Variable w0 : Widget Cfg Nm.
Variable dbg : bool.
Variable newChip : nat -> jsstring -> Chip.
Hypothesis Hm : fieldMarked (containerElement w0) = true.

Local Abbreviation lit x :=
  (dFocus x = true -> dDataFocus x = Some (js "true")).

Lemma refocus_lit x : lit x -> lit (refocus w0 x).
Proof.
  unfold refocus. rewrite Hm. destruct (dFocus x) eqn:E; [auto|].
  intros _ _. reflexivity.
Qed.

Lemma advance_lit a x : lit x -> lit (advance w0 dbg newChip a x).
Proof.
  intros H. destruct a; cbn [advance]; rewrite ?Hm; cbn [andb]; auto.
  - destruct (_ && _); auto.
  - apply refocus_lit, H.
  - destruct (dFocus x) eqn:E; [|rewrite E; discriminate].
    cbn [dFocus setDataFocus setFocus]. discriminate.
  - destruct (existsb _ _); [|exact H]. cbn [dFocus dDataFocus setChips].
    apply refocus_lit, H.
Qed.

Lemma advanceAll_lit acts x :
  lit x -> lit (advanceAll (advance w0 dbg newChip) acts x).
Proof.
  revert x. induction acts as [|a acts IH]; intros x H; [exact H|].
  unfold advanceAll in *. cbn [fold_left]. apply IH, advance_lit, H.
Qed.

End FocusedStates.

Lemma main_unfocused input options :
  fieldHasFocus (containerElement (snd (PicoTagEditor.construct input options)))
  = false.
Proof.
  unfold PicoTagEditor.construct, PicoTagEditor.addEvents, PicoTagEditor.init.
  symbolic; reflexivity.
Qed.

Lemma old_unfocused input options :
  fieldHasFocus (containerElement (snd (Part000.construct input options)))
  = false.
Proof.
  unfold Part000.construct, Part000.addEvent, Part000.init.
  destruct (classAttr input) as [cl|].
  - repeat (run_monad; case_step); run_monad; reflexivity.
  - run_monad.
    change (hasClass (js "pico-tag-edit") [js "null"]) with false.
    run_monad. reflexivity.
Qed.

(** X27. While the text field of a widget built over an
    [input.pico-tag-edit] holds the focus, [data-focus] reads ["true"]:
    no sequence of actions leaves a focused widget shown inactive, in
    either copy. *)
Theorem focused_widget_is_shown_active :
  forall input options options' acts,
    picked input = true ->
    (let d := containerElement (mainState input options acts) in
     fieldHasFocus d = true -> dataFocus d = Some (js "true")) /\
    (let d := containerElement (oldState input options' acts) in
     fieldHasFocus d = true -> dataFocus d = Some (js "true")).
Proof.
  intros input options options' acts Hp. split; cbv zeta.
  - pose proof (main_known input options acts) as K. cbv zeta in K.
    rewrite (known_focus K), (known_dataFocus K). unfold mainAdvance.
    apply advanceAll_lit; [apply main_marked, Hp|].
    cbn [initial dFocus]. rewrite main_unfocused. discriminate.
  - pose proof (old_known input options' acts) as K. cbv zeta in K.
    rewrite (known_focus K), (known_dataFocus K). unfold oldAdvance.
    apply advanceAll_lit; [apply old_marked, Hp|].
    cbn [initial dFocus]. rewrite old_unfocused. discriminate.
Qed.

(* ================================================================== *)
(** * The further properties at concrete inputs *)

(** X11 at work: the key ["a"] after ["red"] and ["blue"] were committed. *)
Lemma other_keys_example :
  js "a" <> js "Enter" /\
  PicoTagEditor.exec (KeyPress (js "a")) (mainState tagsInput None redThenBlue)
  = mainState tagsInput None redThenBlue /\
  Part000.exec (KeyPress (js "a")) (oldState tagsInput None redThenBlue)
  = oldState tagsInput None redThenBlue.
Proof.
  assert (Hk : js "a" <> js "Enter") by discriminate.
  split; [exact Hk|].
  exact (other_keys_are_ignored tagsInput None None redThenBlue Hk).
Defined.

(** X12 at work: typing into the field of a widget that shows two chips. *)
Lemma typing_keeps_tags_example :
  let w := mainState tagsInput None redThenBlue in
  let w' := PicoTagEditor.exec (TypeText (js "green")) w in
  editsTags (TypeText (js "green")) = false /\
  chips (containerElement w') = chips (containerElement w) /\
  tagList w' = tagList w /\
  hiddenFields w' = hiddenFields w /\
  display (style (tagsContainer (containerElement w')))
  = display (style (tagsContainer (containerElement w))).
Proof.
  cbv zeta. split; [reflexivity|].
  exact (proj1 (tags_change_only_on_enter_or_remove
                  tagsInput None None redThenBlue
                  (TypeText (js "green")) eq_refl)).
Defined.

(** X13 at work: the pointer enters, the field is focused and blurred. *)
Lemma mouseEnter_example :
  picked tagsInput = true /\
  mouseEnter (mainState tagsInput None [PointerEnter; FocusField; BlurField])
  = true /\
  mouseEnter (oldState tagsInput None [PointerEnter; FocusField; BlurField])
  = true.
Proof.
  split; [reflexivity|].
  exact (mouseEnter_follows_pointer tagsInput None None
           [PointerEnter; FocusField; BlurField] eq_refl).
Defined.

(** X14 at work: [" red "] is committed and removed again. *)
Lemma commit_then_remove_example :
  let w := mainState tagsInput trimming [TypeText (js " red ")] in
  let w1 := PicoTagEditor.exec (KeyPress (js "Enter")) w in
  picked tagsInput = true /\
  fieldValue w = Some (js " red ") /\
  trim (js " red ") <> [] /\
  exists chip,
    chips (containerElement w1) = chips (containerElement w) ++ [chip] /\
    let w2 := PicoTagEditor.exec (ClickRemove (node chip)) w1 in
    chips (containerElement w2) = chips (containerElement w) /\
    hiddenFields w2 = hiddenFields w /\
    (tagListHidden w2 <-> tagListHidden w) /\
    fieldValue w2 = Some [] /\
    fieldHasFocus (containerElement w2) = true.
Proof.
  cbv zeta.
  assert (Hne : trim (js " red ") <> []) by (vm_compute; discriminate).
  split; [reflexivity|]. split; [reflexivity|]. split; [exact Hne|].
  exact (commit_then_remove_restores_tags tagsInput trimming
           [TypeText (js " red ")] (v := js " red ") eq_refl eq_refl Hne).
Defined.

(** X15 at work: the same in the older copy. *)
Lemma old_commit_then_remove_example :
  let w := oldState tagsInput None [TypeText (js " red ")] in
  let w1 := Part000.exec (KeyPress (js "Enter")) w in
  picked tagsInput = true /\
  fieldValue w = Some (js " red ") /\
  trim (js " red ") <> [] /\
  exists chip,
    chips (containerElement w1) = chips (containerElement w) ++ [chip] /\
    let w2 := Part000.exec (ClickRemove (node chip)) w1 in
    chips (containerElement w2) = chips (containerElement w) /\
    hiddenFields w2 = hiddenFields w /\
    (tagListHidden w2 <-> tagListHidden w) /\
    fieldValue w2 = Some [] /\
    fieldHasFocus (containerElement w2) = true.
Proof.
  cbv zeta.
  assert (Hne : trim (js " red ") <> []) by (vm_compute; discriminate).
  split; [reflexivity|]. split; [reflexivity|]. split; [exact Hne|].
  exact (old_commit_then_remove_restores_tags tagsInput None
           [TypeText (js " red ")] (v := js " red ") eq_refl eq_refl Hne).
Defined.

(** X16 at work: [" red "], a blank and ["blue"] typed into a trimming
    widget and into one of the older copy. *)
Lemma commits_in_order_example :
  let vs := [js " red "; js "  "; js "blue"] in
  picked tagsInput = true /\
  map chipEntry
      (chips (containerElement (mainState tagsInput trimming (commitAll vs))))
  = [(js "red", js "red"); (js "blue", js "blue")] /\
  map chipEntry
      (chips (containerElement (oldState tagsInput None (commitAll vs))))
  = [(js " red ", js " red "); (js "blue", js "blue")].
Proof.
  cbv zeta. split; [reflexivity|].
  exact (commits_appear_in_order tagsInput trimming None []
           [js " red "; js "  "; js "blue"] eq_refl).
Defined.

(** X17 at work: the remove control of ["red"], used twice. *)
Lemma second_remove_example :
  let w := mainState tagsInput None redThenBlue in
  let w' := PicoTagEditor.exec (ClickRemove (node redChip)) w in
  In redChip (tagList w) /\
  PicoTagEditor.onRemoveClick (clickContainer (removeSpan redChip))
                              (node redChip) w'
  = (Throw NotFoundError, w') /\
  PicoTagEditor.exec (ClickRemove (node redChip)) w' = w'.
Proof.
  cbv zeta.
  assert (Hin : In redChip (tagList (mainState tagsInput None redThenBlue)))
    by (vm_compute; left; reflexivity).
  split; [exact Hin|].
  exact (second_remove_is_refused tagsInput None redThenBlue redChip Hin).
Defined.

(** X19 at work: the same session over an input without the class. *)
Lemma unpicked_widget_example :
  let w := mainState plainInput None redThenBlue in
  picked plainInput = false /\
  chips (containerElement w) = [] /\ hiddenFields w = [] /\
  tagListHidden w /\
  dataFocus (containerElement w) = None /\ mouseEnter w = false.
Proof.
  cbv zeta. split; [reflexivity|].
  exact (proj1 (unpicked_widget_is_inert plainInput None None redThenBlue
                  eq_refl)).
Defined.

(** X27 at work: a chip is removed while the field holds the focus. *)
Lemma focused_widget_example :
  let acts := redThenBlue ++ [FocusField; ClickRemove 0] in
  let d := containerElement (mainState tagsInput None acts) in
  picked tagsInput = true /\
  fieldHasFocus d = true /\ dataFocus d = Some (js "true").
Proof.
  cbv zeta. split; [reflexivity|].
  assert (Hf : fieldHasFocus
                 (containerElement
                    (mainState tagsInput None
                       (redThenBlue ++ [FocusField; ClickRemove 0]))) = true)
    by (vm_compute; reflexivity).
  split; [exact Hf|].
  exact (proj1 (focused_widget_is_shown_active tagsInput None None
                  (redThenBlue ++ [FocusField; ClickRemove 0]) eq_refl) Hf).
Defined.

(** X20 at work: the clone keeps the name ["tags"] through a session. *)
Lemma text_field_clone_example :
  let f := PicoTagEditor.inputElement (mainState tagsInput None redThenBlue) in
  js "name" <> js "value" /\ js "name" <> js "style" /\
  srcTagName tagsInput = js "input" /\
  getAttribute (js "type") (srcAttributes tagsInput) = Some (js "text") /\
  getAttribute (js "name") (attributes f) = Some (js "tags") /\
  fieldValue (mainState tagsInput None []) = Some [].
Proof.
  cbv zeta.
  assert (Hv : js "name" <> js "value") by discriminate.
  assert (Hs : js "name" <> js "style") by discriminate.
  destruct (text_field_is_a_clone tagsInput None redThenBlue)
    as (_ & _ & Ha & Hf).
  split; [exact Hv|]. split; [exact Hs|]. split; [reflexivity|].
  split; [reflexivity|].
  split; [exact (Ha (js "name") Hv Hs) | exact (Hf eq_refl eq_refl)].
Defined.

(** X26 at work: a blur with the pointer away, in debug mode. *)
Lemma debug_example :
  PicoTagEditor.debug (PicoTagEditor.mergeSettings debugging) = true /\
  active (dataFocus
            (containerElement
               (mainState tagsInput debugging [FocusField; BlurField]))).
Proof.
  split; [reflexivity|].
  exact (proj1 (debug_never_shows_inactive tagsInput debugging None
                  [FocusField; BlurField]) eq_refl).
Defined.
